(** * A shallow embedding of the mock debug adapter

    The development follows the TypeScript sources.
    - [Handles] is the handle table [Handles<T>].
    - The rest is nnDebugAdapter.ts: [Message], [Response], [Emitter],
      [RuntimeVariable], [formatPII] and the class [DebugProtocolAdapter]
      with its request dispatcher, its handlers and its converters.
    - [EventEmitter] is the emitter of orig/eventEmitter.ts, and
      [MockRuntime] is the runtime that extends it; they follow the
      adapter.

    Conventions.
    - Numbers that cross the protocol (sequence numbers, handles, lines,
      columns, frame counts, addresses) are integers of [Z].  The numbers
      of the source are doubles: every integer up to 2^53 in magnitude is
      one ([small]), and [+] and [-] are exact as long as the result is
      one of these.  The converters of lines and columns and the frame
      window add and subtract as doubles do ([Number_add], [Number_sub]);
      a counter that only ever steps by one ([_nextHandle], the loop of
      [disassemble]) is the successor of [Z], and what is proved of it is
      proved for the small integers.
    - The value of a runtime variable may be any finite number; it is a
      rational of [Q], so that [Math.round(v) === v] is computed and not
      assumed.  NaN and the infinities are outside the model.
    - Strings are byte strings (the UTF-8 form of the JavaScript string).
    - Objects that the source mutates and shares (runtime variables, protocol
      messages) live in stores and are passed by location.
    - Methods are state transformers in a small monad with exceptions, since
      a property read on [undefined] throws a TypeError. *)

From Stdlib Require Import ZArith QArith Qround String Ascii List Lia.
From Stdlib Require Import DecimalString HexadecimalString.
From Stdlib Require DecimalPos.
From stdpp Require Import base option list gmap strings.

Close Scope Q_scope.
Local Open Scope Z_scope.

(** * Part I: the program *)

(** ** JavaScript values *)

Module JS.

(** The values carried by request arguments and response bodies. *)
#[warnings="-register-all"]
Inductive JVal :=
| JUndefined
| JNull
| JBool (b : bool)
| JNum (n : Z)
| JStr (s : string)
| JArr (items : list JVal)
| JObj (properties : list (string * JVal)).

(** An object literal: its own properties in insertion order. *)
Abbreviation JObject := (list (string * JVal)).

(** [o[k]] on an object's own properties; a missing one reads [undefined]. *)
Fixpoint obj_get (o : JObject) (k : string) : JVal :=
  match o with
  | [] => JUndefined
  | (k', v) :: o' => if String.eqb k' k then v else obj_get o' k
  end.

(** [o.hasOwnProperty(k)] *)
Fixpoint hasOwnProperty (o : JObject) (k : string) : bool :=
  match o with
  | [] => false
  | (k', _) :: o' => String.eqb k' k || hasOwnProperty o' k
  end.

(** [o[k] = v]: an existing property keeps its place, a new one is added
    last. *)
Fixpoint obj_set (o : JObject) (k : string) (v : JVal) : JObject :=
  match o with
  | [] => [(k, v)]
  | (k', v') :: o' =>
      if String.eqb k' k then (k', v) :: o' else (k', v') :: obj_set o' k v
  end.

(** ToBoolean *)
Definition truthy (v : JVal) : bool :=
  match v with
  | JUndefined | JNull => false
  | JBool b => b
  | JNum n => negb (n =? 0)
  | JStr s => negb (String.eqb s "")
  | JArr _ | JObj _ => true
  end.

(** [v.k] for one of the argument names the adapter reads: [None] is the
    TypeError of a read on [undefined] or [null]; a primitive or an array
    has none of these names and reads [undefined]. *)
Definition prop (v : JVal) (k : string) : option JVal :=
  match v with
  | JUndefined | JNull => None
  | JObj o => Some (obj_get o k)
  | _ => Some JUndefined
  end.

(** [typeof v === 'number' ? v : d] *)
Definition number_or (v : JVal) (d : Z) : Z :=
  match v with
  | JNum n => n
  | _ => d
  end.

(** [s.indexOf(sub)] *)
Definition indexOf (s sub : string) : Z :=
  match String.index 0 sub s with
  | Some n => Z.of_nat n
  | None => -1
  end.

(** [s.padStart(n, c)] for a one-character filler. *)
Definition padStart (s : string) (n : nat) (c : ascii) : string :=
  string_of_list_ascii (repeat c (n - String.length s)) +:+ s.

(** The one-character string of a double quote. *)
Definition double_quote : string := String "034"%char EmptyString.

(** 2^53: up to it in magnitude every integer is a double. *)
Definition two_53 : Z := 9007199254740992.

(** An integer up to 2^53 in magnitude. *)
Definition small (n : Z) : Prop := - two_53 <= n <= two_53.

Definition is_small (n : Z) : bool := Z.abs n <=? two_53.

(** The double nearest to the integer [n], a tie going to the even
    significand of 53 bits: what [+] and [-] return when their exact
    result is [n].  (A double overflows at 2^1024; no number of that size
    is met.) *)
Definition nearest_double (n : Z) : Z :=
  let a := Z.abs n in
  let k := Z.log2 a - 52 in
  if k <=? 0 then n
  else
    let q := Z.shiftr a k in
    let r := a - Z.shiftl q k in
    let half := Z.shiftl 1 (k - 1) in
    let q' :=
      if r <? half then q
      else if half <? r then q + 1
      else if Z.even q then q else q + 1 in
    Z.sgn n * Z.shiftl q' k.

(** [x + y] and [x - y] on integers. *)
Definition Number_add (x y : Z) : Z := nearest_double (x + y).

Definition Number_sub (x y : Z) : Z := nearest_double (x - y).

(** [x.toString(10)] and [x.toString(16)] on a small integer, which
    JavaScript writes with all its digits, a negative one after a minus
    sign.  (From 2^53 on [toString(10)] writes the shortest digits that
    read back as the same double, and from 10^21 on an exponent.) *)
Definition toString10 (x : Z) : string :=
  DecimalString.NilZero.string_of_int (Z.to_int x).

Definition toString16 (x : Z) : string :=
  HexadecimalString.NilZero.string_of_int (Z.to_hex_int x).

(** [Math.round]: the nearest integer, a tie going up. *)
Definition Math_round (x : Q) : Q := inject_Z (Qfloor (Qplus x (1 # 2))).

(** What the sources import and do not define. *)
Class Host := {
  (** [Number.prototype.toString(radix)] where it is not computed here: a
      value with a fractional part, an integer beyond 2^53 in magnitude,
      or a radix other than 10 and 16. *)
  Number_toString_host : Q -> Z -> string;
  (** [basename] of path-browserify. *)
  basename : string -> string;
  (** [new Source(name, path, id, origin, data)] of @vscode/debugadapter. *)
  new_Source : string -> string -> option Z -> option string -> JVal -> JVal;
  (** [new StackFrame(i, nm, src, ln)] of @vscode/debugadapter. *)
  new_StackFrame : Z -> string -> JVal -> Z -> JObject
}.

(** [x.toString(radix)] *)
Definition Number_toString `{host : Host} (x : Q) (radix : Z) : string :=
  if Qeq_bool (inject_Z (Qfloor x)) x && is_small (Qfloor x) then
    if radix =? 10 then toString10 (Qfloor x)
    else if radix =? 16 then toString16 (Qfloor x)
    else Number_toString_host x radix
  else Number_toString_host x radix.

(** [new TextEncoder().encode(s)] *)
Definition TextEncoder_encode (s : string) : list Byte.byte :=
  list_byte_of_string s.

End JS.

Import JS.

(** ** The handle table, [Handles<T>] *)

Module Handles.

(** Truthiness of the stored values, for the [||] of [get]. *)
Class Truthy (T : Type) := truthy : T -> bool.

Section Table.
Context {T : Type} `{Truthy T}.

(** [private startHandle = 1000]: a field with an initialiser that no
    method assigns. *)
Definition startHandle : Z := 1000.

Record t := mk {
  _nextHandle : Z;
  _handleMap : gmap Z T
}.

(** [constructor(startHandle?: number)]: the argument initialises
    [_nextHandle] only. *)
Definition new (startHandle' : option Z) : t :=
  {| _nextHandle := match startHandle' with
                    | Some n => n
                    | None => startHandle
                    end;
     _handleMap := ∅ |}.

Definition reset (h : t) : t :=
  {| _nextHandle := startHandle; _handleMap := ∅ |}.

(** [var handle = this._nextHandle++; this._handleMap.set(handle, value)].
    The next handle is the successor, which [++] computes as long as the
    handle is below 2^53. *)
Definition create (value : T) (h : t) : Z * t :=
  let handle := _nextHandle h in
  (handle,
   {| _nextHandle := _nextHandle h + 1;
      _handleMap := <[handle := value]> (_handleMap h) |}).

(** [this._handleMap.get(handle) || defaultValue]; [None] is [undefined]. *)
Definition get (handle : Z) (defaultValue : option T) (h : t) : option T :=
  match _handleMap h !! handle with
  | Some v => if truthy v then Some v else defaultValue
  | None => defaultValue
  end.

(** Sequences of calls on one table, and what each call returns. *)
Inductive call :=
| Create (value : T)
| Reset
| Get (handle : Z) (defaultValue : option T).

Inductive result :=
| Created (handle : Z)
| ResetDone
| Got (value : option T).

Definition step (h : t) (c : call) : result * t :=
  match c with
  | Create v => let '(n, h') := create v h in (Created n, h')
  | Reset => (ResetDone, reset h)
  | Get n d => (Got (get n d h), h)
  end.

Fixpoint run (h : t) (cs : list call) : list result * t :=
  match cs with
  | [] => ([], h)
  | c :: cs' =>
      let '(r, h') := step h c in
      let '(rs, h'') := run h' cs' in
      (r :: rs, h'')
  end.

(** The handles handed out since the last [reset] (the current generation),
    most recent first; [g] is the generation so far. *)
Fixpoint live (g : list Z) (rs : list result) : list Z :=
  match rs with
  | [] => g
  | Created n :: rs' => live (n :: g) rs'
  | ResetDone :: rs' => live [] rs'
  | Got _ :: rs' => live g rs'
  end.

(** What holds of the table along a run, [g] being the current
    generation: its handles are distinct, they are below the next handle,
    and no other key is bound. *)
Definition inv (g : list Z) (h : t) : Prop :=
  NoDup g
  /\ (forall n, n ∈ g -> n < _nextHandle h)
  /\ (forall n, n ∉ g -> _handleMap h !! n = None).

(** The calls [cs], on a table built with [startHandle'], keep the next
    handle small, so that every [_nextHandle++] is the successor: the
    table starts at a small integer, and neither from there nor from
    [startHandle] do as many creations as there are calls pass 2^53. *)
Definition counts_exactly (startHandle' : option Z) (cs : list call) : Prop :=
  let base := _nextHandle (new startHandle') in
  - two_53 <= base
  /\ Z.max base startHandle + Z.of_nat (length cs) <= two_53.

End Table.

Arguments t T : clear implicits.
Arguments call T : clear implicits.
Arguments result T : clear implicits.

End Handles.

(** ** Protocol messages *)

(** [DebugProtocol.Request] as the host delivers it; [arguments] is
    [JUndefined] when the request has none. *)
Module Request.
Record t := mk {
  seq : Z;
  command : string;
  arguments : JVal
}.
End Request.

(** [class Response extends Message]; [message] and [body] are optional
    properties, and a body is an object. *)
Module Response.
Record t := mk {
  seq : Z;
  type : string;
  request_seq : Z;
  success : bool;
  command : string;
  message : option string;
  body : option JObject
}.

Definition set_type (v : string) (r : t) : t :=
  mk (seq r) v (request_seq r) (success r) (command r) (message r) (body r).
Definition set_success (v : bool) (r : t) : t :=
  mk (seq r) (type r) (request_seq r) v (command r) (message r) (body r).
Definition set_message (v : option string) (r : t) : t :=
  mk (seq r) (type r) (request_seq r) (success r) (command r) v (body r).
Definition set_body (v : option JObject) (r : t) : t :=
  mk (seq r) (type r) (request_seq r) (success r) (command r) (message r) v.

(** [constructor(request, message?)]: [super('response')] sets [seq] to 0
    and [type]; a truthy [message] makes the response a failure. *)
Definition new (request : Request.t) (message' : option string) : t :=
  match message' with
  | Some m =>
      if negb (String.eqb m "") then
        mk 0 "response" (Request.seq request) false (Request.command request)
           (Some m) None
      else
        mk 0 "response" (Request.seq request) true (Request.command request)
           None None
  | None =>
      mk 0 "response" (Request.seq request) true (Request.command request)
         None None
  end.
End Response.

(** [DebugProtocol.Event] *)
Module Event.
Record t := mk {
  seq : Z;
  type : string;
  event : string;
  body : option JObject
}.

Definition set_type (v : string) (e : t) : t :=
  mk (seq e) v (event e) (body e).
End Event.

(** A message object handed to [_send]. *)
Inductive ProtocolMessage :=
| AResponse (r : Response.t)
| AnEvent (e : Event.t).

(** [message.type = typ] *)
Definition set_message_type (typ : string) (m : ProtocolMessage)
  : ProtocolMessage :=
  match m with
  | AResponse r => AResponse (Response.set_type typ r)
  | AnEvent e => AnEvent (Event.set_type typ e)
  end.

(** [message.seq] *)
Definition message_seq (m : ProtocolMessage) : Z :=
  match m with
  | AResponse r => Response.seq r
  | AnEvent e => Event.seq e
  end.

(** What the host hands to [handleMessage], by its [type]. *)
Inductive Inbound :=
| InRequest (r : Request.t)
| InResponse (r : Response.t)
| InEvent (e : Event.t).

(** ** Runtime variables *)

(** The identity of an object in a store. *)
Abbreviation loc := nat.

(** [type IRuntimeVariableType = number | boolean | string |
    RuntimeVariable[]]; the elements of an array are objects. *)
Inductive IRuntimeVariableType :=
| VNumber (x : Q)
| VBoolean (b : bool)
| VString (s : string)
| VArray (vs : list loc).

(** [typeof v] *)
Definition typeof (v : IRuntimeVariableType) : string :=
  match v with
  | VNumber _ => "number"
  | VBoolean _ => "boolean"
  | VString _ => "string"
  | VArray _ => "object"
  end.

Module RuntimeVariable.
Record t := mk {
  name : string;
  _value : IRuntimeVariableType;
  _memory : option (list Byte.byte);
  reference : option Z
}.

(** [constructor(public readonly name, private _value)] *)
Definition new (name : string) (value : IRuntimeVariableType) : t :=
  mk name value None None.

Definition set_memory (m : option (list Byte.byte)) (v : t) : t :=
  mk (name v) (_value v) m (reference v).
Definition set_reference (r : option Z) (v : t) : t :=
  mk (name v) (_value v) (_memory v) r.

(** [set value(value)]: the derived bytes are dropped. *)
Definition set_value (value : IRuntimeVariableType) (v : t) : t :=
  mk (name v) value None (reference v).
End RuntimeVariable.

(** What a variable handle stands for:
    ['locals' | 'globals' | RuntimeVariable]. *)
Inductive HandleTarget :=
| locals
| globals
| variable (v : loc).

(** A non-empty string and an object are truthy. *)
#[global] Instance HandleTarget_truthy : Handles.Truthy HandleTarget :=
  fun _ => true.

(** [DebugProtocol.Variable] as [convertFromRuntime] fills it. *)
Module DapVariable.
Record t := mk {
  name : string;
  value : string;
  type : string;
  variablesReference : Z;
  evaluateName : string;
  (** [presentationHint = { lazy: ... }] *)
  presentationHint_lazy : option bool;
  __vscodeVariableMenuContext : option string;
  memoryReference : option string
}.

Definition set_value (v : string) (d : t) : t :=
  mk (name d) v (type d) (variablesReference d) (evaluateName d)
     (presentationHint_lazy d) (__vscodeVariableMenuContext d)
     (memoryReference d).
Definition set_type (v : string) (d : t) : t :=
  mk (name d) (value d) v (variablesReference d) (evaluateName d)
     (presentationHint_lazy d) (__vscodeVariableMenuContext d)
     (memoryReference d).
Definition set_variablesReference (v : Z) (d : t) : t :=
  mk (name d) (value d) (type d) v (evaluateName d)
     (presentationHint_lazy d) (__vscodeVariableMenuContext d)
     (memoryReference d).
Definition set_presentationHint_lazy (v : option bool) (d : t) : t :=
  mk (name d) (value d) (type d) (variablesReference d) (evaluateName d)
     v (__vscodeVariableMenuContext d) (memoryReference d).
Definition set___vscodeVariableMenuContext (v : option string) (d : t) : t :=
  mk (name d) (value d) (type d) (variablesReference d) (evaluateName d)
     (presentationHint_lazy d) v (memoryReference d).
Definition set_memoryReference (v : option string) (d : t) : t :=
  mk (name d) (value d) (type d) (variablesReference d) (evaluateName d)
     (presentationHint_lazy d) (__vscodeVariableMenuContext d) v.

(** The object as it is placed in a response body. *)
Definition toJSON (d : t) : JVal :=
  JObj ([("name", JStr (name d));
         ("value", JStr (value d));
         ("type", JStr (type d));
         ("variablesReference", JNum (variablesReference d));
         ("evaluateName", JStr (evaluateName d))]
        ++ match presentationHint_lazy d with
           | Some b => [("presentationHint", JObj [("lazy", JBool b)])]
           | None => []
           end
        ++ match __vscodeVariableMenuContext d with
           | Some c => [("__vscodeVariableMenuContext", JStr c)]
           | None => []
           end
        ++ match memoryReference d with
           | Some m => [("memoryReference", JStr m)]
           | None => []
           end).
End DapVariable.

(** [IRuntimeStackFrame] and [IRuntimeStack] *)
Module IRuntimeStackFrame.
Record t := mk {
  index : Z;
  name : string;
  file : string;
  line : Z;
  column : option Z;
  instruction : option Z
}.
End IRuntimeStackFrame.

Module IRuntimeStack.
Record t := mk {
  count : Z;
  frames : list IRuntimeStackFrame.t
}.
End IRuntimeStack.

(** Modelled from the spec: the enumeration [ErrorDestination] is imported
    from @vscode/debugadapter and is not part of the sources; the "show to
    user" and "send telemetry" routing flags of an error are its two bits. *)
Module ErrorDestination.
Definition User : Z := 1.
Definition Telemetry : Z := 2.
End ErrorDestination.

(** ** The adapter and what surrounds it *)

(** What the adapter does to the outside, in order. *)
Inductive Effect :=
(** [this._listener.call(this._this, event)]: the message reaches the
    transport. *)
| listener_call (listener : nat) (m : ProtocolMessage)
(** [clb(response)] on a pending request. *)
| callback_call (clb : nat) (r : Response.t)
(** [console.log(`Setting listener to ${listener}`)] *)
| console_log_listener (listener : nat)
(** [console.info(`Firing ${JSON.stringify(message)}`)] *)
| console_info_firing (m : ProtocolMessage)
| console_warn (text : string)
| console_error (text : string).

(** A callback queued by [setImmediate]:
    [() => { this._send('event', event); }]. *)
Inductive Task :=
| send_event (event : loc).

(** The fields of [DebugProtocolAdapter] (those of its [Emitter] included),
    the two object stores, the queue of [setImmediate] and the effects so
    far. *)
Record State := mkState {
  _listener : option nat;
  _pendingRequests : gmap Z nat;
  _debuggerLinesStartAt1 : bool;
  _clientColumnsStartAt1 : bool;
  _debuggerColumnsStartAt1 : bool;
  _clientLinesStartAt1 : bool;
  _addressesInHex : bool;
  _valuesInHex : bool;
  _variableHandles : Handles.t HandleTarget;
  variables : list RuntimeVariable.t;
  messages : list ProtocolMessage;
  immediates : list Task;
  effects : list Effect
}.

Definition set_listener (v : option nat) (s : State) : State :=
  mkState v (_pendingRequests s) (_debuggerLinesStartAt1 s)
    (_clientColumnsStartAt1 s) (_debuggerColumnsStartAt1 s)
    (_clientLinesStartAt1 s) (_addressesInHex s) (_valuesInHex s)
    (_variableHandles s) (variables s) (messages s) (immediates s)
    (effects s).
Definition set_pendingRequests (v : gmap Z nat) (s : State) : State :=
  mkState (_listener s) v (_debuggerLinesStartAt1 s)
    (_clientColumnsStartAt1 s) (_debuggerColumnsStartAt1 s)
    (_clientLinesStartAt1 s) (_addressesInHex s) (_valuesInHex s)
    (_variableHandles s) (variables s) (messages s) (immediates s)
    (effects s).
Definition set_clientColumnsStartAt1 (v : bool) (s : State) : State :=
  mkState (_listener s) (_pendingRequests s) (_debuggerLinesStartAt1 s)
    v (_debuggerColumnsStartAt1 s)
    (_clientLinesStartAt1 s) (_addressesInHex s) (_valuesInHex s)
    (_variableHandles s) (variables s) (messages s) (immediates s)
    (effects s).
Definition set_clientLinesStartAt1 (v : bool) (s : State) : State :=
  mkState (_listener s) (_pendingRequests s) (_debuggerLinesStartAt1 s)
    (_clientColumnsStartAt1 s) (_debuggerColumnsStartAt1 s)
    v (_addressesInHex s) (_valuesInHex s)
    (_variableHandles s) (variables s) (messages s) (immediates s)
    (effects s).
Definition set_variableHandles (v : Handles.t HandleTarget) (s : State)
  : State :=
  mkState (_listener s) (_pendingRequests s) (_debuggerLinesStartAt1 s)
    (_clientColumnsStartAt1 s) (_debuggerColumnsStartAt1 s)
    (_clientLinesStartAt1 s) (_addressesInHex s) (_valuesInHex s)
    v (variables s) (messages s) (immediates s)
    (effects s).
Definition set_variables (v : list RuntimeVariable.t) (s : State) : State :=
  mkState (_listener s) (_pendingRequests s) (_debuggerLinesStartAt1 s)
    (_clientColumnsStartAt1 s) (_debuggerColumnsStartAt1 s)
    (_clientLinesStartAt1 s) (_addressesInHex s) (_valuesInHex s)
    (_variableHandles s) v (messages s) (immediates s)
    (effects s).
Definition set_messages (v : list ProtocolMessage) (s : State) : State :=
  mkState (_listener s) (_pendingRequests s) (_debuggerLinesStartAt1 s)
    (_clientColumnsStartAt1 s) (_debuggerColumnsStartAt1 s)
    (_clientLinesStartAt1 s) (_addressesInHex s) (_valuesInHex s)
    (_variableHandles s) (variables s) v (immediates s)
    (effects s).
Definition set_immediates (v : list Task) (s : State) : State :=
  mkState (_listener s) (_pendingRequests s) (_debuggerLinesStartAt1 s)
    (_clientColumnsStartAt1 s) (_debuggerColumnsStartAt1 s)
    (_clientLinesStartAt1 s) (_addressesInHex s) (_valuesInHex s)
    (_variableHandles s) (variables s) (messages s) v
    (effects s).
Definition set_effects (v : list Effect) (s : State) : State :=
  mkState (_listener s) (_pendingRequests s) (_debuggerLinesStartAt1 s)
    (_clientColumnsStartAt1 s) (_debuggerColumnsStartAt1 s)
    (_clientLinesStartAt1 s) (_addressesInHex s) (_valuesInHex s)
    (_variableHandles s) (variables s) (messages s) (immediates s)
    v.

(** [constructor(obsolete_debuggerLinesAndColumnsStartAt1?: boolean)], in
    a world with no object yet. *)
Definition new_DebugProtocolAdapter
  (obsolete_debuggerLinesAndColumnsStartAt1 : option bool) : State :=
  let linesAndColumnsStartAt1 :=
    match obsolete_debuggerLinesAndColumnsStartAt1 with
    | Some b => b
    | None => false
    end in
  {| _listener := None;
     _pendingRequests := ∅;
     _debuggerLinesStartAt1 := linesAndColumnsStartAt1;
     _clientColumnsStartAt1 := true;
     _debuggerColumnsStartAt1 := linesAndColumnsStartAt1;
     _clientLinesStartAt1 := true;
     _addressesInHex := true;
     _valuesInHex := false;
     _variableHandles := Handles.new None;
     variables := [];
     messages := [];
     immediates := [];
     effects := [] |}.

(** *** The monad of methods *)

Inductive Exception :=
| TypeError (text : string).

(** How a call ends: it returns, or it throws; the state is the one
    reached at that point. *)
Inductive Completion (A : Type) :=
| Normal (a : A) (s : State)
| Throw (e : Exception) (s : State).
Arguments Normal {A} a s.
Arguments Throw {A} e s.

Definition M (A : Type) := State -> Completion A.

Definition ret {A} (a : A) : M A := fun s => Normal a s.

Definition bind {A B} (m : M A) (k : A -> M B) : M B :=
  fun s =>
    match m s with
    | Normal a s' => k a s'
    | Throw e s' => Throw e s'
    end.

Definition throw {A} (e : Exception) : M A := fun s => Throw e s.

Definition gets {A} (f : State -> A) : M A := fun s => Normal (f s) s.

Definition modify (f : State -> State) : M unit := fun s => Normal tt (f s).

Declare Scope method_scope.
Delimit Scope method_scope with method.
Bind Scope method_scope with M.
Notation "x <- m ;; k" := (bind m (fun x => k))
  (at level 100, m at next level, right associativity) : method_scope.
Notation "m ;; k" := (bind m (fun _ => k))
  (at level 100, right associativity) : method_scope.
Local Open Scope method_scope.

(** The state in which a call ends. *)
Definition final {A} (c : Completion A) : State :=
  match c with
  | Normal _ s => s
  | Throw _ s => s
  end.

(** [xs.map(f)] for a method [f]. *)
Fixpoint mapM {A B} (f : A -> M B) (xs : list A) : M (list B) :=
  match xs with
  | [] => ret []
  | x :: xs' => y <- f x ;; ys <- mapM f xs' ;; ret (y :: ys)
  end.

Definition log (e : Effect) : M unit :=
  modify (fun s => set_effects (effects s ++ [e]) s).

(** A property of [undefined] is read or written. *)
Definition undefined_property {A} : M A :=
  throw (TypeError "Cannot read properties of undefined").

(** [args.k] *)
Definition read_prop (args : JVal) (k : string) : M JVal :=
  match prop args k with
  | Some v => ret v
  | None => undefined_property
  end.

(** *** Objects in the stores *)

(** A new message object. *)
Definition new_message (m : ProtocolMessage) : M loc :=
  fun s => Normal (length (messages s)) (set_messages (messages s ++ [m]) s).

Definition read_message (l : loc) : M ProtocolMessage :=
  fun s =>
    match messages s !! l with
    | Some m => Normal m s
    | None => undefined_property s
    end.

Definition write_message (l : loc) (m : ProtocolMessage) : M unit :=
  modify (fun s => set_messages (<[l := m]> (messages s)) s).

(** The response at [l]; every caller passes a response. *)
Definition read_response (l : loc) : M Response.t :=
  m <- read_message l ;;
  match m with
  | AResponse r => ret r
  | AnEvent _ => throw (TypeError "not a response")
  end.

(** [new RuntimeVariable(name, value)] *)
Definition new_RuntimeVariable (name : string) (value : IRuntimeVariableType)
  : M loc :=
  fun s =>
    Normal (length (variables s))
      (set_variables (variables s ++ [RuntimeVariable.new name value]) s).

Definition read_variable (v : loc) : M RuntimeVariable.t :=
  fun s =>
    match variables s !! v with
    | Some rv => Normal rv s
    | None => undefined_property s
    end.

Definition write_variable (v : loc) (rv : RuntimeVariable.t) : M unit :=
  modify (fun s => set_variables (<[v := rv]> (variables s)) s).

(** [get memory()]: the bytes of a string value are computed once and
    kept. *)
Definition RuntimeVariable_memory (v : loc) : M (option (list Byte.byte)) :=
  rv <- read_variable v ;;
  match RuntimeVariable._memory rv, RuntimeVariable._value rv with
  | None, VString s =>
      let bytes := TextEncoder_encode s in
      write_variable v (RuntimeVariable.set_memory (Some bytes) rv) ;;
      ret (Some bytes)
  | m, _ => ret m
  end.

(** [this._variableHandles.create(value)] *)
Definition variableHandles_create (value : HandleTarget) : M Z :=
  fun s =>
    let '(handle, h) := Handles.create value (_variableHandles s) in
    Normal handle (set_variableHandles h s).

(** [v.reference ??= rhs], then the value of [v.reference]: [rhs] is
    evaluated only when the field is unset. *)
Definition reference_or_assign (v : loc) (rhs : M Z) : M Z :=
  rv <- read_variable v ;;
  match RuntimeVariable.reference rv with
  | Some r => ret r
  | None =>
      r <- rhs ;;
      rv' <- read_variable v ;;
      write_variable v (RuntimeVariable.set_reference (Some r) rv') ;;
      ret r
  end.

(** *** [Emitter] *)

(** [this._sendMessage.event(listener)]: the new listener replaces the
    one before. *)
Definition onDidSendMessage (listener : nat) : M unit :=
  modify (set_listener (Some listener)) ;;
  log (console_log_listener listener).

(** [Emitter.dispose] and the [dispose] of a registration. *)
Definition Emitter_dispose : M unit := modify (set_listener None).

(** [Emitter.fire(event)].  The listener is the host's; it is taken to
    return, and what it throws would be caught here anyway. *)
Definition fire (event : ProtocolMessage) : M unit :=
  l <- gets _listener ;;
  match l with
  | Some listener => log (listener_call listener event)
  | None => log (console_warn "No listener to fire to")
  end.

(** [hasListener()] *)
Definition hasListener (s : State) : bool :=
  match _listener s with
  | Some _ => true
  | None => false
  end.

(** *** [formatPII] *)

(** The callback given to [replace], for the arguments that [formatPII]
    declares, [{ [key: string]: string }]: the property read is a string
    of the object itself or [undefined], and [hasOwnProperty] is the
    method of every object. *)
Definition formatPII_replacer (excludePII : bool) (safeArgs : JObject)
  (match_ paramName : string) : string :=
  if excludePII && (0 <? String.length paramName)%nat
     && negb (String.eqb (substring 0 1 paramName) "_")
  then match_
  else
    match obj_get safeArgs paramName with
    | JStr v =>
        if truthy (JStr v) && hasOwnProperty safeArgs paramName
        then v else match_
    | _ => match_
    end.

(** [format.replace(/{([^}]+)}/g, f)], one character at a time.
    [pending] is [Some name] after an opening brace, [name] being what
    was read since; a closing brace after a non-empty [name] completes a
    match, and an opening brace that finds none stays as it is. *)
Fixpoint replace_placeholders (f : string -> string -> string)
  (pending : option string) (format : string) : string :=
  match format, pending with
  | EmptyString, None => ""
  | EmptyString, Some name => "{" +:+ name
  | String c rest, None =>
      if Ascii.eqb c "{" then replace_placeholders f (Some "") rest
      else String c (replace_placeholders f None rest)
  | String c rest, Some name =>
      if Ascii.eqb c "}" then
        if String.eqb name "" then
          "{}" +:+ replace_placeholders f None rest
        else
          f ("{" +:+ name +:+ "}") name +:+ replace_placeholders f None rest
      else replace_placeholders f (Some (name +:+ String c "")) rest
  end.

(** [args], typed [{ [key: string]: string }], as an object; anything
    else has no own property to substitute. *)
Definition safeArgs_of (args : JVal) : JObject :=
  match args with
  | JObj o => o
  | _ => []
  end.

Definition formatPII (format : string) (excludePII : bool) (args : JVal)
  : string :=
  replace_placeholders (formatPII_replacer excludePII (safeArgs_of args))
    None format.

(** *** Sending *)

(** [_send(typ, message)] *)
Definition _send (typ : string) (message : loc) : M unit :=
  m <- read_message message ;;
  let m' := set_message_type typ m in
  write_message message m' ;;
  log (console_info_firing m') ;;
  fire m'.

(** [response.command] in the error text. *)
Definition command_of (m : ProtocolMessage) : string :=
  match m with
  | AResponse r => Response.command r
  | AnEvent _ => "undefined"
  end.

(** [sendResponse(response)] *)
Definition sendResponse (response : loc) : M unit :=
  m <- read_message response ;;
  if 0 <? message_seq m then
    log (console_error
           ("attempt to send more than one response for command "
            +:+ command_of m))
  else
    write_message response (set_message_type "response" m) ;;
    _send "response" response.

(** The object [msg] that [sendErrorResponse] builds from a code. *)
Definition error_message (code : Z) (format : option string)
  (variables : JVal) (dest : Z) : JObject :=
  let msg := [("id", JNum code);
              ("format", match format with
                         | Some f => JStr f
                         | None => JUndefined
                         end)] in
  let msg := if truthy variables then obj_set msg "variables" variables
             else msg in
  let msg := if negb (Z.land dest ErrorDestination.User =? 0)
             then obj_set msg "showUser" (JBool true) else msg in
  if negb (Z.land dest ErrorDestination.Telemetry =? 0)
  then obj_set msg "sendTelemetry" (JBool true) else msg.

(** [sendErrorResponse(response, codeOrMessage, format?, variables?,
    dest = ErrorDestination.User)] *)
Definition sendErrorResponse (response : loc) (codeOrMessage : Z + JObject)
  (format : option string) (variables : JVal) (dest : option Z) : M unit :=
  let dest := match dest with
              | Some d => d
              | None => ErrorDestination.User
              end in
  let msg := match codeOrMessage with
             | inl code => error_message code format variables dest
             | inr m => m
             end in
  r <- read_response response ;;
  write_message response (AResponse (Response.set_success false r)) ;;
  text <- match obj_get msg "format" with
          | JStr f => ret (formatPII f true (obj_get msg "variables"))
          | _ => undefined_property
          end ;;
  r <- read_response response ;;
  let r := Response.set_message (Some text) r in
  let body := match Response.body r with
              | Some o => o
              | None => []
              end in
  write_message response
    (AResponse (Response.set_body (Some (obj_set body "error" (JObj msg))) r)) ;;
  sendResponse response.

(** [sendEvent(event)]: [setImmediate(() => { this._send('event', event); })] *)
Definition sendEvent (event : loc) : M unit :=
  modify (fun s => set_immediates (immediates s ++ [send_event event]) s).

(** One queued callback. *)
Definition run_task (t : Task) : M unit :=
  match t with
  | send_event event => _send "event" event
  end.

Fixpoint run_tasks (ts : list Task) : M unit :=
  match ts with
  | [] => ret tt
  | t :: ts' => run_task t ;; run_tasks ts'
  end.

(** The next turn of the event loop: the callbacks queued so far run in
    the order of their [setImmediate]. *)
Definition run_immediates : M unit :=
  fun s => run_tasks (immediates s) (set_immediates [] s).

(** The messages that reached the transport, in order. *)
Fixpoint delivered (es : list Effect) : list ProtocolMessage :=
  match es with
  | [] => []
  | listener_call _ m :: es' => m :: delivered es'
  | _ :: es' => delivered es'
  end.

(** *** Coordinates and numbers *)

Definition convertDebuggerColumnToClient (column : Z) (s : State) : Z :=
  if _debuggerColumnsStartAt1 s then
    if _clientColumnsStartAt1 s then column else Number_sub column 1
  else
    if _clientColumnsStartAt1 s then Number_add column 1 else column.

Definition convertDebuggerLineToClient (line : Z) (s : State) : Z :=
  if _debuggerLinesStartAt1 s then
    if _clientLinesStartAt1 s then line else Number_sub line 1
  else
    if _clientLinesStartAt1 s then Number_add line 1 else line.

(** Modelled from the spec: the sources convert towards the client only;
    [toEngine(clientValue)] is the opposite direction, which "applies a
    ±1 shift only when the two conventions disagree; identity when they
    agree".  The shift is the [+ 1] or [- 1] of the source's numbers, as
    in the converters above. *)
Definition convertClientLineToDebugger (line : Z) (s : State) : Z :=
  if _debuggerLinesStartAt1 s then
    if _clientLinesStartAt1 s then line else Number_add line 1
  else
    if _clientLinesStartAt1 s then Number_sub line 1 else line.

(** Modelled from the spec: [toEngine(clientValue)] for columns, as for
    lines. *)
Definition convertClientColumnToDebugger (column : Z) (s : State) : Z :=
  if _debuggerColumnsStartAt1 s then
    if _clientColumnsStartAt1 s then column else Number_add column 1
  else
    if _clientColumnsStartAt1 s then Number_sub column 1 else column.

Section WithHost.
Context `{host : Host}.

(** [formatAddress(x, pad = 8)] *)
Definition formatAddress (x : Z) (s : State) : string :=
  "mem" +:+ (if _addressesInHex s
             then "0x" +:+ padStart (Number_toString (inject_Z x) 16) 8 "0"
             else Number_toString (inject_Z x) 10).

(** [formatNumber(x)] *)
Definition formatNumber (x : Q) (s : State) : string :=
  if _valuesInHex s then "0x" +:+ Number_toString x 16
  else Number_toString x 10.

(** [createSource(filePath)] *)
Definition createSource (filePath : string) : JVal :=
  new_Source (basename filePath) filePath None None
    (JStr "mock-adapter-data").

(** *** [convertFromRuntime] *)

Definition convertFromRuntime (v : loc) : M DapVariable.t :=
  rv <- read_variable v ;;
  let name := RuntimeVariable.name rv in
  let value := RuntimeVariable._value rv in
  let dapVariable :=
    DapVariable.mk name "???" (typeof value) 0 ("$" +:+ name)
      None None None in
  dapVariable <-
    (if 0 <=? indexOf name "lazy" then
       let dapVariable := DapVariable.set_value "lazy var" dapVariable in
       r <- reference_or_assign v
              (inner <- new_RuntimeVariable "" value ;;
               outer <- new_RuntimeVariable "" (VArray [inner]) ;;
               variableHandles_create (variable outer)) ;;
       let dapVariable := DapVariable.set_variablesReference r dapVariable in
       ret (DapVariable.set_presentationHint_lazy (Some true) dapVariable)
     else
       match value with
       | VArray _ =>
           let dapVariable := DapVariable.set_value "Object" dapVariable in
           r <- reference_or_assign v (variableHandles_create (variable v)) ;;
           ret (DapVariable.set_variablesReference r dapVariable)
       | VNumber x =>
           if Qeq_bool (Math_round x) x then
             text <- gets (formatNumber x) ;;
             let dapVariable := DapVariable.set_value text dapVariable in
             let dapVariable :=
               DapVariable.set___vscodeVariableMenuContext (Some "simple")
                 dapVariable in
             ret (DapVariable.set_type "integer" dapVariable)
           else
             let dapVariable :=
               DapVariable.set_value (Number_toString x 10) dapVariable in
             ret (DapVariable.set_type "float" dapVariable)
       | VString str =>
           ret (DapVariable.set_value (double_quote +:+ str +:+ double_quote)
                  dapVariable)
       | VBoolean b =>
           ret (DapVariable.set_value (if b then "true" else "false")
                  dapVariable)
       end) ;;
  memory <- RuntimeVariable_memory v ;;
  match memory with
  | Some _ =>
      r <- reference_or_assign v (variableHandles_create (variable v)) ;;
      ret (DapVariable.set_memoryReference (Some (toString10 r)) dapVariable)
  | None => ret dapVariable
  end.

End WithHost.

(** The variables whose protocol variable points at children: the lazy
    ones and the arrays, for which [convertFromRuntime] sets
    [variablesReference]. *)
Definition shows_children (rv : RuntimeVariable.t) : bool :=
  (0 <=? indexOf (RuntimeVariable.name rv) "lazy")
  || match RuntimeVariable._value rv with
     | VArray _ => true
     | _ => false
     end.

(** The variables whose [memory] is there when read: the bytes are set,
    or the value is a string, which the getter encodes. *)
Definition has_memory (rv : RuntimeVariable.t) : bool :=
  match RuntimeVariable._memory rv, RuntimeVariable._value rv with
  | Some _, _ => true
  | None, VString _ => true
  | None, _ => false
  end.

(** *** The engine behind the adapter *)

(** The methods a session overrides to reach its engine; they read the
    state and return frames or the variables to show. *)
Class Engine := {
  stack : Z -> Z -> State -> IRuntimeStack.t;
  getLocalVariables : State -> list loc;
  getGlobalVariables : State -> list loc
}.

(** The methods as [DebugProtocolAdapter] itself defines them. *)
Definition DebugProtocolAdapter_engine : Engine :=
  {| stack := fun _ _ _ => IRuntimeStack.mk 0 [];
     getLocalVariables := fun _ => [];
     getGlobalVariables := fun _ => [] |}.

(** *** The request handlers *)

Definition disconnectRequest (response : loc) (args : JVal)
  (request : Request.t) : M unit :=
  sendResponse response.

Definition launchRequest (response : loc) (args : JVal)
  (request : Request.t) : M unit :=
  sendResponse response.

Definition attachRequest (response : loc) (args : JVal)
  (request : Request.t) : M unit :=
  sendResponse response.

Definition terminateRequest (response : loc) (args : JVal)
  (request : Request.t) : M unit :=
  sendResponse response.

Definition restartRequest (response : loc) (args : JVal)
  (request : Request.t) : M unit :=
  sendResponse response.

Definition setBreakPointsRequest (response : loc) (args : JVal)
  (request : Request.t) : M unit :=
  sendResponse response.

Definition setFunctionBreakPointsRequest (response : loc) (args : JVal)
  (request : Request.t) : M unit :=
  sendResponse response.

Definition setExceptionBreakPointsRequest (response : loc) (args : JVal)
  (request : Request.t) : M unit :=
  sendResponse response.

Definition configurationDoneRequest (response : loc) (args : JVal)
  (request : Request.t) : M unit :=
  sendResponse response.

Definition continueRequest (response : loc) (args : JVal)
  (request : Request.t) : M unit :=
  sendResponse response.

Definition nextRequest (response : loc) (args : JVal)
  (request : Request.t) : M unit :=
  sendResponse response.

Definition stepInRequest (response : loc) (args : JVal)
  (request : Request.t) : M unit :=
  sendResponse response.

Definition stepOutRequest (response : loc) (args : JVal)
  (request : Request.t) : M unit :=
  sendResponse response.

Definition stepBackRequest (response : loc) (args : JVal)
  (request : Request.t) : M unit :=
  sendResponse response.

Definition reverseContinueRequest (response : loc) (args : JVal)
  (request : Request.t) : M unit :=
  sendResponse response.

Definition restartFrameRequest (response : loc) (args : JVal)
  (request : Request.t) : M unit :=
  sendResponse response.

Definition gotoRequest (response : loc) (args : JVal)
  (request : Request.t) : M unit :=
  sendResponse response.

Definition pauseRequest (response : loc) (args : JVal)
  (request : Request.t) : M unit :=
  sendResponse response.

Definition sourceRequest (response : loc) (args : JVal)
  (request : Request.t) : M unit :=
  sendResponse response.

Definition threadsRequest (response : loc) (request : Request.t) : M unit :=
  sendResponse response.

Definition terminateThreadsRequest (response : loc) (args : JVal)
  (request : Request.t) : M unit :=
  sendResponse response.

(** [response.body = body] *)
Definition set_response_body (response : loc) (body : JObject) : M unit :=
  r <- read_response response ;;
  write_message response (AResponse (Response.set_body (Some body) r)).

Section WithEngine.
Context `{host : Host} `{engine : Engine}.

(** The function mapped over [stk.frames]. *)
Definition stackFrame_of (s : State) (f : IRuntimeStackFrame.t) : JVal :=
  let sf :=
    new_StackFrame (IRuntimeStackFrame.index f) (IRuntimeStackFrame.name f)
      (createSource (IRuntimeStackFrame.file f))
      (convertDebuggerLineToClient (IRuntimeStackFrame.line f) s) in
  let sf :=
    match IRuntimeStackFrame.column f with
    | Some column =>
        obj_set sf "column" (JNum (convertDebuggerColumnToClient column s))
    | None => sf
    end in
  let sf :=
    match IRuntimeStackFrame.instruction f with
    | Some instruction =>
        let address := formatAddress instruction s in
        let sf :=
          obj_set sf "name"
            (JStr (IRuntimeStackFrame.name f +:+ " " +:+ address)) in
        obj_set sf "instructionPointerReference" (JStr address)
    | None => sf
    end in
  JObj sf.

Definition stackTraceRequest (response : loc) (args : JVal)
  (request : Request.t) : M unit :=
  startFrame <- read_prop args "startFrame" ;;
  let startFrame := number_or startFrame 0 in
  levels <- read_prop args "levels" ;;
  let maxLevels := number_or levels 1000 in
  let endFrame := Number_add startFrame maxLevels in
  stk <- gets (stack startFrame endFrame) ;;
  stackFrames <- gets (fun s => map (stackFrame_of s) (IRuntimeStack.frames stk)) ;;
  set_response_body response
    [("stackFrames", JArr stackFrames);
     ("totalFrames", JNum (IRuntimeStack.count stk))] ;;
  sendResponse response.

Definition scopesRequest (response : loc) (args : JVal)
  (request : Request.t) : M unit :=
  sendResponse response.

Definition variablesRequest (response : loc) (args : JVal)
  (request : Request.t) : M unit :=
  variablesReference <- read_prop args "variablesReference" ;;
  v <- gets (fun s =>
               match variablesReference with
               | JNum n => Handles.get n None (_variableHandles s)
               | _ => None
               end) ;;
  vs <- match v with
        | Some locals => gets getLocalVariables
        | Some globals => gets getGlobalVariables
        | Some (variable l) =>
            rv <- read_variable l ;;
            match RuntimeVariable._value rv with
            | VArray vs => ret vs
            | _ => ret []
            end
        | None => ret []
        end ;;
  ds <- mapM convertFromRuntime vs ;;
  set_response_body response
    [("variables", JArr (map DapVariable.toJSON ds))] ;;
  sendResponse response.

End WithEngine.

Definition setVariableRequest (response : loc) (args : JVal)
  (request : Request.t) : M unit :=
  sendResponse response.

Definition setExpressionRequest (response : loc) (args : JVal)
  (request : Request.t) : M unit :=
  sendResponse response.

Definition evaluateRequest (response : loc) (args : JVal)
  (request : Request.t) : M unit :=
  sendResponse response.

Definition stepInTargetsRequest (response : loc) (args : JVal)
  (request : Request.t) : M unit :=
  sendResponse response.

Definition gotoTargetsRequest (response : loc) (args : JVal)
  (request : Request.t) : M unit :=
  sendResponse response.

Definition completionsRequest (response : loc) (args : JVal)
  (request : Request.t) : M unit :=
  sendResponse response.

Definition exceptionInfoRequest (response : loc) (args : JVal)
  (request : Request.t) : M unit :=
  sendResponse response.

Definition loadedSourcesRequest (response : loc) (args : JVal)
  (request : Request.t) : M unit :=
  sendResponse response.

Definition dataBreakpointInfoRequest (response : loc) (args : JVal)
  (request : Request.t) : M unit :=
  sendResponse response.

Definition setDataBreakpointsRequest (response : loc) (args : JVal)
  (request : Request.t) : M unit :=
  sendResponse response.

Definition readMemoryRequest (response : loc) (args : JVal)
  (request : Request.t) : M unit :=
  sendResponse response.

Definition writeMemoryRequest (response : loc) (args : JVal)
  (request : Request.t) : M unit :=
  sendResponse response.

Definition disassembleRequest (response : loc) (args : JVal)
  (request : Request.t) : M unit :=
  sendResponse response.

Definition cancelRequest (response : loc) (args : JVal)
  (request : Request.t) : M unit :=
  sendResponse response.

Definition breakpointLocationsRequest (response : loc) (args : JVal)
  (request : Request.t) : M unit :=
  sendResponse response.

Definition setInstructionBreakpointsRequest (response : loc) (args : JVal)
  (request : Request.t) : M unit :=
  sendResponse response.

(** The assignments of [initializeRequest] to [response.body], in the
    order of the source. *)
Definition capabilities : list (string * bool) :=
  [("supportsConditionalBreakpoints", false);
   ("supportsHitConditionalBreakpoints", false);
   ("supportsFunctionBreakpoints", false);
   ("supportsConfigurationDoneRequest", true);
   ("supportsEvaluateForHovers", false);
   ("supportsStepBack", false);
   ("supportsSetVariable", false);
   ("supportsRestartFrame", false);
   ("supportsStepInTargetsRequest", false);
   ("supportsGotoTargetsRequest", false);
   ("supportsCompletionsRequest", false);
   ("supportsRestartRequest", false);
   ("supportsExceptionOptions", false);
   ("supportsValueFormattingOptions", false);
   ("supportsExceptionInfoRequest", false);
   ("supportTerminateDebuggee", false);
   ("supportsDelayedStackTraceLoading", false);
   ("supportsLoadedSourcesRequest", false);
   ("supportsLogPoints", false);
   ("supportsTerminateThreadsRequest", false);
   ("supportsSetExpression", false);
   ("supportsTerminateRequest", false);
   ("supportsDataBreakpoints", false);
   ("supportsReadMemoryRequest", false);
   ("supportsDisassembleRequest", false);
   ("supportsCancelRequest", false);
   ("supportsBreakpointLocationsRequest", false);
   ("supportsClipboardContext", false);
   ("supportsSteppingGranularity", false);
   ("supportsInstructionBreakpoints", false);
   ("supportsExceptionFilterOptions", false)].

(** [initializeRequest(response, args)].  The source reads [response.body]
    once per capability; nothing runs in between, so the fold over
    [capabilities] writes the same object. *)
Definition initializeRequest (response : loc) (args : JVal) : M unit :=
  r <- read_response response ;;
  match Response.body r with
  | None => ret tt
  | Some body =>
      let body :=
        fold_left (fun o c => obj_set o (fst c) (JBool (snd c)))
          capabilities body in
      write_message response (AResponse (Response.set_body (Some body) r)) ;;
      event <- new_message (AnEvent (Event.mk 0 "event" "initialized" None)) ;;
      sendEvent event ;;
      sendResponse response
  end.

(** [typeof v === 'boolean'] and then the assignment of [v] by [set]. *)
Definition assign_if_boolean (v : JVal) (set : bool -> State -> State)
  : M unit :=
  match v with
  | JBool b => modify (set b)
  | _ => ret tt
  end.

(** [args.pathFormat !== 'path'] *)
Definition is_not_path (pathFormat : JVal) : bool :=
  match pathFormat with
  | JStr p => negb (String.eqb p "path")
  | _ => true
  end.

Section Dispatch.
Context `{host : Host} `{engine : Engine}.

Definition dispatchRequest (request : Request.t) : M unit :=
  response <- new_message (AResponse (Response.new request None)) ;;
  let command := Request.command request in
  if String.eqb command "initialize" then
    let args := Request.arguments request in
    linesStartAt1 <- read_prop args "linesStartAt1" ;;
    assign_if_boolean linesStartAt1 set_clientLinesStartAt1 ;;
    columnsStartAt1 <- read_prop args "columnsStartAt1" ;;
    assign_if_boolean columnsStartAt1 set_clientColumnsStartAt1 ;;
    pathFormat <- read_prop args "pathFormat" ;;
    if is_not_path pathFormat then
      sendErrorResponse response (inl 2018)
        (Some "debug adapter only supports native paths") JNull
        (Some ErrorDestination.Telemetry)
    else
      set_response_body response [] ;;
      initializeRequest response args
  else if String.eqb command "launch" then
    launchRequest response (Request.arguments request) request
  else if String.eqb command "attach" then
    attachRequest response (Request.arguments request) request
  else if String.eqb command "disconnect" then
    disconnectRequest response (Request.arguments request) request
  else if String.eqb command "terminate" then
    terminateRequest response (Request.arguments request) request
  else if String.eqb command "restart" then
    restartRequest response (Request.arguments request) request
  else if String.eqb command "setBreakpoints" then
    setBreakPointsRequest response (Request.arguments request) request
  else if String.eqb command "setFunctionBreakpoints" then
    setFunctionBreakPointsRequest response (Request.arguments request) request
  else if String.eqb command "setExceptionBreakpoints" then
    setExceptionBreakPointsRequest response (Request.arguments request) request
  else if String.eqb command "configurationDone" then
    configurationDoneRequest response (Request.arguments request) request
  else if String.eqb command "continue" then
    continueRequest response (Request.arguments request) request
  else if String.eqb command "next" then
    nextRequest response (Request.arguments request) request
  else if String.eqb command "stepIn" then
    stepInRequest response (Request.arguments request) request
  else if String.eqb command "stepOut" then
    stepOutRequest response (Request.arguments request) request
  else if String.eqb command "stepBack" then
    stepBackRequest response (Request.arguments request) request
  else if String.eqb command "reverseContinue" then
    reverseContinueRequest response (Request.arguments request) request
  else if String.eqb command "restartFrame" then
    restartFrameRequest response (Request.arguments request) request
  else if String.eqb command "goto" then
    gotoRequest response (Request.arguments request) request
  else if String.eqb command "pause" then
    pauseRequest response (Request.arguments request) request
  else if String.eqb command "stackTrace" then
    stackTraceRequest response (Request.arguments request) request
  else if String.eqb command "scopes" then
    scopesRequest response (Request.arguments request) request
  else if String.eqb command "variables" then
    variablesRequest response (Request.arguments request) request
  else if String.eqb command "setVariable" then
    setVariableRequest response (Request.arguments request) request
  else if String.eqb command "setExpression" then
    setExpressionRequest response (Request.arguments request) request
  else if String.eqb command "source" then
    sourceRequest response (Request.arguments request) request
  else if String.eqb command "threads" then
    threadsRequest response request
  else if String.eqb command "terminateThreads" then
    terminateThreadsRequest response (Request.arguments request) request
  else if String.eqb command "evaluate" then
    evaluateRequest response (Request.arguments request) request
  else if String.eqb command "stepInTargets" then
    stepInTargetsRequest response (Request.arguments request) request
  else if String.eqb command "gotoTargets" then
    gotoTargetsRequest response (Request.arguments request) request
  else if String.eqb command "completions" then
    completionsRequest response (Request.arguments request) request
  else if String.eqb command "exceptionInfo" then
    exceptionInfoRequest response (Request.arguments request) request
  else if String.eqb command "loadedSources" then
    loadedSourcesRequest response (Request.arguments request) request
  else if String.eqb command "dataBreakpointInfo" then
    dataBreakpointInfoRequest response (Request.arguments request) request
  else if String.eqb command "setDataBreakpoints" then
    setDataBreakpointsRequest response (Request.arguments request) request
  else if String.eqb command "readMemory" then
    readMemoryRequest response (Request.arguments request) request
  else if String.eqb command "writeMemory" then
    writeMemoryRequest response (Request.arguments request) request
  else if String.eqb command "disassemble" then
    disassembleRequest response (Request.arguments request) request
  else if String.eqb command "cancel" then
    cancelRequest response (Request.arguments request) request
  else if String.eqb command "breakpointLocations" then
    breakpointLocationsRequest response (Request.arguments request) request
  else if String.eqb command "setInstructionBreakpoints" then
    setInstructionBreakpointsRequest response (Request.arguments request) request
  else
    log (console_error ("unknown request '" +:+ command +:+ "'")).

(** [handleMessage(msg)] *)
Definition handleMessage (msg : Inbound) : M unit :=
  match msg with
  | InRequest request => dispatchRequest request
  | InResponse response =>
      let request_seq := Response.request_seq response in
      clb <- gets (fun s => _pendingRequests s !! request_seq) ;;
      match clb with
      | Some clb =>
          modify (fun s =>
                    set_pendingRequests (delete request_seq (_pendingRequests s)) s) ;;
          log (callback_call clb response)
      | None => ret tt
      end
  | InEvent _ => ret tt
  end.

End Dispatch.

(** ** Notions used in the statements *)

(** The commands that [dispatchRequest] compares with, in its order. *)
Definition known_commands : list string :=
  ["initialize"; "launch"; "attach"; "disconnect"; "terminate";
   "restart"; "setBreakpoints"; "setFunctionBreakpoints";
   "setExceptionBreakpoints"; "configurationDone"; "continue"; "next";
   "stepIn"; "stepOut"; "stepBack"; "reverseContinue"; "restartFrame";
   "goto"; "pause"; "stackTrace"; "scopes"; "variables"; "setVariable";
   "setExpression"; "source"; "threads"; "terminateThreads"; "evaluate";
   "stepInTargets"; "gotoTargets"; "completions"; "exceptionInfo";
   "loadedSources"; "dataBreakpointInfo"; "setDataBreakpoints";
   "readMemory"; "writeMemory"; "disassemble"; "cancel";
   "breakpointLocations"; "setInstructionBreakpoints"].

(** Those whose handler does nothing but [this.sendResponse(response)]. *)
Definition answering_commands : list string :=
  ["launch"; "attach"; "disconnect"; "terminate"; "restart";
   "setBreakpoints"; "setFunctionBreakpoints";
   "setExceptionBreakpoints"; "configurationDone"; "continue"; "next";
   "stepIn"; "stepOut"; "stepBack"; "reverseContinue"; "restartFrame";
   "goto"; "pause"; "scopes"; "setVariable"; "setExpression"; "source";
   "threads"; "terminateThreads"; "evaluate"; "stepInTargets";
   "gotoTargets"; "completions"; "exceptionInfo"; "loadedSources";
   "dataBreakpointInfo"; "setDataBreakpoints"; "readMemory";
   "writeMemory"; "disassemble"; "cancel"; "breakpointLocations";
   "setInstructionBreakpoints"].

(** The object [msg] that the dispatcher has [sendErrorResponse] build. *)
Definition native_paths_error : JObject :=
  [("id", JNum 2018);
   ("format", JStr "debug adapter only supports native paths");
   ("sendTelemetry", JBool true)].

(** The body of a successful [initialize] response. *)
Definition initialize_body : JObject :=
  map (fun c => (fst c, JBool (snd c))) capabilities.

(** The event object that [initializeRequest] sends. *)
Definition initialized_event : Event.t :=
  Event.mk 0 "event" "initialized" None.

(** A client origin flag after [typeof v === 'boolean'] and the
    assignment it guards. *)
Definition origin_after (v : JVal) (before : bool) : bool :=
  match v with
  | JBool b => b
  | _ => before
  end.

(** ** A host to run the adapter on examples *)

(** The digits after the point of [r / d], for [0 <= r < d]. *)
Fixpoint fraction_digits (fuel : nat) (r d : Z) : string :=
  match fuel with
  | O => EmptyString
  | S fuel' =>
      if r =? 0 then EmptyString
      else toString10 (r * 10 / d) +:+ fraction_digits fuel' (r * 10 mod d) d
  end.

(** The decimal expansion of a rational, to 17 digits after the point. *)
Definition decimal_expansion (x : Q) (radix : Z) : string :=
  let n := Qnum x in
  let d := Z.pos (Qden x) in
  (if n <? 0 then "-" else EmptyString)
  +:+ toString10 (Z.abs n / d) +:+ "."
  +:+ fraction_digits 17 (Z.abs n mod d) d.

(** What follows the last slash of a path. *)
Fixpoint last_segment (seen : string) (path : string) : string :=
  match path with
  | EmptyString => seen
  | String c rest =>
      if Ascii.eqb c "/" then last_segment EmptyString rest
      else last_segment (seen +:+ String c EmptyString) rest
  end.

(** The constructors of [Source] and [StackFrame] set the properties in
    this order; a falsy [origin] or [data] sets none. *)
Definition plain_host : Host :=
  {| Number_toString_host := decimal_expansion;
     basename := last_segment EmptyString;
     new_Source := fun name path id origin data =>
       JObj ([("name", JStr name);
              ("path", JStr path);
              ("sourceReference", JNum (match id with
                                        | Some n => n
                                        | None => 0
                                        end))]
             ++ match origin with
                | Some o =>
                    if String.eqb o EmptyString then []
                    else [("origin", JStr o)]
                | None => []
                end
             ++ (if truthy data then [("adapterData", data)] else []));
     new_StackFrame := fun i nm src ln =>
       [("id", JNum i); ("source", src); ("line", JNum ln);
        ("column", JNum 0); ("name", JStr nm)] |}.

(** The adapter once the host has registered its listener. *)
Definition listening_adapter : State :=
  final (onDidSendMessage 0 (new_DebugProtocolAdapter None)).

(** * Part I, continued: the event emitter and the mock runtime *)

(** ** More of the host's library *)

Module JSLib.

(** [`${b}`] for a boolean. *)
Definition Boolean_toString (b : bool) : string :=
  if b then "true" else "false".

(** [`${x}`] for [number | undefined]. *)
Definition optional_toString (x : option Z) : string :=
  match x with
  | Some n => toString10 n
  | None => "undefined"
  end.

(** The white space that [parseInt] skips, as far as it is ASCII: tab,
    line feed, vertical tab, form feed, carriage return and space. *)
Definition is_white_space (c : ascii) : bool :=
  let n := nat_of_ascii c in
  ((9 <=? n) && (n <=? 13))%nat || (n =? 32)%nat.

Fixpoint trimStart (s : string) : string :=
  match s with
  | EmptyString => EmptyString
  | String c rest => if is_white_space c then trimStart rest else s
  end.

(** The value of a digit or letter as a digit of some radix. *)
Definition digit_value (c : ascii) : option Z :=
  let n := Z.of_nat (nat_of_ascii c) in
  if (48 <=? n) && (n <=? 57) then Some (n - 48)
  else if (97 <=? n) && (n <=? 122) then Some (n - 87)
  else if (65 <=? n) && (n <=? 90) then Some (n - 55)
  else None.

(** The number written by the longest prefix of [s] made of digits of the
    radix, after the digits that gave [acc]; [None] when there is no
    digit at all. *)
Fixpoint parse_digits (radix : Z) (acc : option Z) (s : string) : option Z :=
  match s with
  | EmptyString => acc
  | String c rest =>
      match digit_value c with
      | Some d =>
          if d <? radix
          then parse_digits radix
                 (Some (match acc with
                        | Some a => a
                        | None => 0
                        end * radix + d))
                 rest
          else acc
      | None => acc
      end
  end.

(** [parseInt(s)]: white space is skipped, then come an optional sign, an
    optional [0x] or [0X] that makes the radix 16, and the digits; [None]
    is [NaN]. *)
Definition parseInt (s : string) : option Z :=
  let s := trimStart s in
  let '(sign, s) :=
    match s with
    | String "-" rest => (-1, rest)
    | String "+" rest => (1, rest)
    | _ => (1, s)
    end in
  let '(radix, s) :=
    match s with
    | String "0" (String "x" rest) => (16, rest)
    | String "0" (String "X" rest) => (16, rest)
    | _ => (10, s)
    end in
  match parse_digits radix None s with
  | Some n => Some (sign * n)
  | None => None
  end.

(** [new TextDecoder().decode(bytes)], a function of the host: it reads
    UTF-8 and replaces what is ill-formed. *)
Class Decoder := TextDecoder_decode : list Byte.byte -> string.

(** [target.set(data, offset)] on a [Uint8Array]: the bytes of [target]
    after the call, or [None] for the RangeError of an offset that is
    negative or leaves too little room. *)
Definition Uint8Array_set (target data : list Byte.byte) (offset : Z)
  : option (list Byte.byte) :=
  if (offset <? 0)
     || (Z.of_nat (length target) <? Z.of_nat (length data) + offset)
  then None
  else Some (take (Z.to_nat offset) target ++ data
             ++ drop (Z.to_nat offset + length data) target).

End JSLib.

Import JSLib.

(** ** Writing the bytes of a runtime variable *)

Module RuntimeVariableMemory.
Import RuntimeVariable.

(** [get memory()], on the object itself. *)
Definition memory (v : t) : option (list Byte.byte) * t :=
  match _memory v, _value v with
  | None, VString s =>
      let bytes := TextEncoder_encode s in
      (Some bytes, set_memory (Some bytes) v)
  | m, _ => (m, v)
  end.

(** How [setMemory] ends, and the object then. *)
Inductive outcome :=
| Done (v : t)
| RangeError (v : t).

(** [setMemory(data, offset = 0)].  The array that [memory] returns is
    the one the object holds, so [memory.set] writes into the object; a
    [Uint8Array] is an object and so truthy, also when it is empty. *)
Definition setMemory `{Decoder} (data : list Byte.byte) (offset : option Z)
  (v : t) : outcome :=
  let offset := match offset with
                | Some n => n
                | None => 0
                end in
  let '(memory, v) := memory v in
  match memory with
  | None => Done v
  | Some bytes =>
      match Uint8Array_set bytes data offset with
      | None => RangeError v
      | Some bytes' =>
          Done (mk (name v) (VString (TextDecoder_decode bytes'))
                  (Some bytes') (reference v))
      end
  end.

End RuntimeVariableMemory.

(** A decoder to run [setMemory] on examples: the bytes of ASCII text are
    its characters. *)
Definition ascii_decoder : Decoder := string_of_list_byte.

(** ** [EventEmitter] *)

Module EventEmitter.

(** A listener is a function of the host.  The emitter compares
    listeners by identity and calls them; a listener is taken to return
    and not to call the emitter back while it runs. *)
Abbreviation Listener := nat.

(** The properties that the object literal [{}] inherits from
    [Object.prototype]: [in] finds them. *)
Definition Object_prototype : list string :=
  ["constructor"; "__defineGetter__"; "__defineSetter__"; "hasOwnProperty";
   "__lookupGetter__"; "__lookupSetter__"; "isPrototypeOf";
   "propertyIsEnumerable"; "toString"; "valueOf"; "__proto__";
   "toLocaleString"].

Definition inherited (event : string) : bool :=
  existsb (String.eqb event) Object_prototype.

(** [private readonly events: IEvents = {}]: the own properties. *)
Record t := mk {
  events : gmap string (list Listener)
}.

Definition new : t := mk ∅.

(** How a call ends; a call that throws has assigned nothing. *)
Inductive outcome (A : Type) :=
| Returns (a : A)
| Throws (e : Exception).
Arguments Returns {A} a.
Arguments Throws {A} e.

(** [event in this.events] *)
Definition has_event (event : string) (e : t) : bool :=
  match events e !! event with
  | Some _ => true
  | None => inherited event
  end.

(** [listeners.indexOf(listener)] *)
Fixpoint indexOf (listener : Listener) (listeners : list Listener) : Z :=
  match listeners with
  | [] => -1
  | l :: rest =>
      if Nat.eqb l listener then 0
      else let i := indexOf listener rest in
           if i <? 0 then -1 else i + 1
  end.

(** The function that [on] returns: [() => this.removeListener(event,
    listener)]. *)
Record Unsubscribe := mkUnsubscribe {
  unsubscribe_event : string;
  unsubscribe_listener : Listener
}.

(** [on(event, listener)].  What [this.events[event]] reads when the
    property is not an own one is a member of [Object.prototype], which
    has no [push]. *)
Definition on (event : string) (listener : Listener) (e : t)
  : outcome (Unsubscribe * t) :=
  let e := if has_event event e then e
           else mk (<[event := []]> (events e)) in
  match events e !! event with
  | Some listeners =>
      Returns (mkUnsubscribe event listener,
               mk (<[event := listeners ++ [listener]]> (events e)))
  | None => Throws (TypeError "this.events[event].push is not a function")
  end.

(** [removeListener(event, listener)] *)
Definition removeListener (event : string) (listener : Listener) (e : t)
  : outcome t :=
  if negb (has_event event e) then Returns e
  else
    match events e !! event with
    | Some listeners =>
        let idx := indexOf listener listeners in
        let listeners :=
          if -1 <? idx then delete (Z.to_nat idx) listeners
          else listeners in
        if Z.of_nat (length listeners) =? 0
        then Returns (mk (delete event (events e)))
        else Returns (mk (<[event := listeners]> (events e)))
    | None =>
        Throws (TypeError "this.events[event].indexOf is not a function")
    end.

(** Calling the function that [on] returned. *)
Definition call_unsubscribe (u : Unsubscribe) (e : t) : outcome t :=
  removeListener (unsubscribe_event u) (unsubscribe_listener u) e.

(** [emit(event, ...args)]: the calls it makes, in order. *)
Definition emit (event : string) (args : list JVal) (e : t)
  : outcome (list (Listener * list JVal)) :=
  if negb (has_event event e) then Returns []
  else
    match events e !! event with
    | Some listeners => Returns (map (fun l => (l, args)) listeners)
    | None =>
        Throws (TypeError "this.events[event].forEach is not a function")
    end.

(** Sequences of calls on one emitter. *)
Inductive call :=
| On (event : string) (listener : Listener)
| RemoveListener (event : string) (listener : Listener)
| Emit (event : string) (args : list JVal).

(** The emitter after a call, whether it returned or threw. *)
Definition after (e : t) (c : call) : t :=
  match c with
  | On event listener =>
      match on event listener e with
      | Returns (_, e') => e'
      | Throws _ => e
      end
  | RemoveListener event listener =>
      match removeListener event listener e with
      | Returns e' => e'
      | Throws _ => e
      end
  | Emit _ _ => e
  end.

Definition run (e : t) (cs : list call) : t := fold_left after cs e.

(** The listeners that the calls have subscribed to [event] and not
    removed, in the order of their subscriptions. *)
Fixpoint remove_first (listener : Listener) (listeners : list Listener)
  : list Listener :=
  match listeners with
  | [] => []
  | l :: rest =>
      if Nat.eqb l listener then rest else l :: remove_first listener rest
  end.

Definition subscribe (event : string) (listeners : list Listener) (c : call)
  : list Listener :=
  match c with
  | On event' listener =>
      if String.eqb event' event then listeners ++ [listener] else listeners
  | RemoveListener event' listener =>
      if String.eqb event' event then remove_first listener listeners
      else listeners
  | Emit _ _ => listeners
  end.

Definition subscribed (cs : list call) (event : string) : list Listener :=
  fold_left (subscribe event) cs [].

(** The listeners of [event] that the emitter holds. *)
Definition listeners_of (e : t) (event : string) : list Listener :=
  match events e !! event with
  | Some listeners => listeners
  | None => []
  end.

(** No own property has an inherited name or an empty list. *)
Definition inv (e : t) : Prop :=
  forall event listeners,
    events e !! event = Some listeners ->
    inherited event = false /\ listeners <> [].

End EventEmitter.

(** ** [MockRuntime] *)

Module Assignment.
Record t := mk {
  linenumber : Z;
  filename : string;
  localVariables : list RuntimeVariable.t
}.
End Assignment.

Module Word.
Record t := mk {
  name : string;
  line : Z;
  index : Z
}.
End Word.

Module IRuntimeBreakpoint.
Record t := mk {
  id : Z;
  line : Z;
  verified : bool
}.
End IRuntimeBreakpoint.

Module RuntimeDisassembledInstruction.
Record t := mk {
  address : Z;
  instruction : string;
  line : option Z
}.
End RuntimeDisassembledInstruction.

Module MockRuntime.
Import EventEmitter.

(** The fields that the methods below read or write, the emitter that the
    class extends, the callbacks queued by [setTimeout(..., 0)] (each is
    [() => this.emit(event, ...args)]), the lines of [console.info] and
    the calls of listeners so far.  [_sourceFile], [sourceLines] and
    [instruction] are left out: only [getLine] and the getter
    [sourceFile] read them, and no method writes them. *)
Record t := mk {
  emitter : EventEmitter.t;
  instructions : list Word.t;
  instructionBreakpoints : gset Z;
  breakpointId : Z;
  breakAddresses : gmap string string;
  caret : Z;
  timers : list (string * list JVal);
  console : list string;
  calls : list (Listener * list JVal)
}.

Definition set_emitter (v : EventEmitter.t) (rt : t) : t :=
  mk v (instructions rt) (instructionBreakpoints rt) (breakpointId rt)
    (breakAddresses rt) (caret rt) (timers rt) (console rt) (calls rt).

Definition set_instructionBreakpoints (v : gset Z) (rt : t) : t :=
  mk (emitter rt) (instructions rt) v (breakpointId rt)
    (breakAddresses rt) (caret rt) (timers rt) (console rt) (calls rt).

Definition set_breakpointId (v : Z) (rt : t) : t :=
  mk (emitter rt) (instructions rt) (instructionBreakpoints rt) v
    (breakAddresses rt) (caret rt) (timers rt) (console rt) (calls rt).

Definition set_breakAddresses (v : gmap string string) (rt : t) : t :=
  mk (emitter rt) (instructions rt) (instructionBreakpoints rt)
    (breakpointId rt) v (caret rt) (timers rt) (console rt) (calls rt).

Definition set_caret (v : Z) (rt : t) : t :=
  mk (emitter rt) (instructions rt) (instructionBreakpoints rt)
    (breakpointId rt) (breakAddresses rt) v (timers rt) (console rt)
    (calls rt).

Definition set_timers (v : list (string * list JVal)) (rt : t) : t :=
  mk (emitter rt) (instructions rt) (instructionBreakpoints rt)
    (breakpointId rt) (breakAddresses rt) (caret rt) v (console rt)
    (calls rt).

Definition set_console (v : list string) (rt : t) : t :=
  mk (emitter rt) (instructions rt) (instructionBreakpoints rt)
    (breakpointId rt) (breakAddresses rt) (caret rt) (timers rt) v
    (calls rt).

Definition set_calls (v : list (Listener * list JVal)) (rt : t) : t :=
  mk (emitter rt) (instructions rt) (instructionBreakpoints rt)
    (breakpointId rt) (breakAddresses rt) (caret rt) (timers rt)
    (console rt) v.

(** The one file that the runtime steps through. *)
Definition readme : string :=
  "/home/matthias/workspace/github/lochbrunner/vscode-mock-debug/sampleWorkspace/readme.md".

Definition locals_of (x : Z) (second : string) (y : Z)
  : list RuntimeVariable.t :=
  [RuntimeVariable.new "local_1" (VNumber (inject_Z x));
   RuntimeVariable.new second (VNumber (inject_Z y))].

(** [this.assignments], assigned by the constructor and by nothing
    else. *)
Definition assignments : list Assignment.t :=
  [Assignment.mk 1 readme (locals_of 1 "local_2" 2);
   Assignment.mk 2 readme (locals_of 2 "local_4" 4);
   Assignment.mk 3 readme (locals_of 1 "local_4" 2);
   Assignment.mk 4 readme (locals_of 4 "local_2" 2);
   Assignment.mk 5 readme (locals_of 3 "local_2" 2);
   Assignment.mk 6 readme (locals_of 4 "local_2" 2);
   Assignment.mk 7 readme (locals_of 7 "local_2" 2);
   Assignment.mk 8 readme (locals_of 9 "local_2" 2);
   Assignment.mk 9 readme (locals_of 10 "local_2" 2)].

(** [constructor()] *)
Definition new : t :=
  {| emitter := EventEmitter.new;
     instructions := [];
     instructionBreakpoints := ∅;
     breakpointId := 1;
     breakAddresses := ∅;
     caret := 0;
     timers := [];
     console := [];
     calls := [] |}.

(** How a call ends, and the runtime then. *)
Inductive outcome (A : Type) :=
| Returns (a : A) (rt : t)
| Throws (e : Exception) (rt : t).
Arguments Returns {A} a rt.
Arguments Throws {A} e rt.

Definition info (text : string) (rt : t) : t :=
  set_console (console rt ++ [text]) rt.

(** [sendEvent(event, ...args)]: the emission is left to a timer. *)
Definition sendEvent (event : string) (args : list JVal) (rt : t) : t :=
  set_timers (timers rt ++ [(event, args)]) rt.

(** [this.assignments[this.caret]] *)
Definition current_assignment (rt : t) : option Assignment.t :=
  if caret rt <? 0 then None else assignments !! Z.to_nat (caret rt).

(** The test of the loop in [continue]:
    [this.breakAddresses.has(assignment.filename) &&
     this.breakAddresses.get(assignment.filename) ===
     assignment.linenumber.toString()]. *)
Definition at_breakpoint (rt : t) (assignment : Assignment.t) : bool :=
  match breakAddresses rt !! Assignment.filename assignment with
  | Some line =>
      String.eqb line (toString10 (Assignment.linenumber assignment))
  | None => false
  end.

(** [continue(reverse)].  [this.breakAddresses] is a [Map], an object,
    so [if (this.breakAddresses)] takes its first branch; the position
    that [indexOf] finds is that of the assignment in the list. *)
Definition continue (reverse : bool) (rt : t) : t :=
  let rt := info ("continue " +:+ Boolean_toString reverse) rt in
  let indexed := imap (fun i assignment => (i, assignment)) assignments in
  let order := if reverse then rev indexed else indexed in
  match List.find (fun ia => at_breakpoint rt (snd ia)) order with
  | Some (i, _) =>
      sendEvent "stopOnBreakpoint" [] (set_caret (Z.of_nat i) rt)
  | None => rt
  end.

(** [start(program, stopOnEntry, debug)]; the method awaits nothing, so
    it has run when the call returns. *)
Definition start (program : string) (stopOnEntry debug : bool) (rt : t) : t :=
  let rt :=
    info ("start " +:+ program +:+ " " +:+ Boolean_toString stopOnEntry
          +:+ " " +:+ Boolean_toString debug) rt in
  if debug then sendEvent "stopOnEntry" [] (set_caret 0 rt)
  else continue false rt.

(** [step(instruction, reverse)]; [%] is the remainder that has the sign
    of the dividend. *)
Definition step (instruction reverse : bool) (rt : t) : t :=
  let rt :=
    info ("step " +:+ Boolean_toString instruction +:+ " "
          +:+ Boolean_toString reverse) rt in
  let n := Z.of_nat (length assignments) in
  let rt :=
    if negb reverse then set_caret (Z.rem (caret rt + 1) n) rt
    else set_caret (Z.rem (caret rt - 1 + n) n) rt in
  sendEvent "stopOnStep" [] rt.

Definition stepIn (targetId : option Z) (rt : t) : t :=
  step false false (info ("stepIn " +:+ optional_toString targetId) rt).

Definition stepOut (rt : t) : t :=
  step false false (info "stepOut" rt).

(** [stack(startFrame, endFrame)] *)
Definition stack (startFrame endFrame : Z) (rt : t)
  : outcome IRuntimeStack.t :=
  let rt :=
    info ("stack " +:+ toString10 startFrame +:+ " "
          +:+ toString10 endFrame) rt in
  match current_assignment rt with
  | Some alignment =>
      Returns
        (IRuntimeStack.mk 0
           [IRuntimeStackFrame.mk 0 "frame_name"
              (Assignment.filename alignment)
              (Assignment.linenumber alignment) None None])
        rt
  | None => Throws (TypeError "Cannot read properties of undefined") rt
  end.

(** [getBreakpoints(path, line)] *)
Definition getBreakpoints (path : string) (line : Z) (rt : t)
  : list Z * t :=
  let empty :=
    ([], info ("getBreakpoints " +:+ path +:+ " " +:+ toString10 line
               +:+ " (empty)") rt) in
  match breakAddresses rt !! path with
  | None => empty
  | Some breakPoint =>
      match parseInt breakPoint with
      | Some n =>
          if n =? line
          then ([0],
                info ("getBreakpoints " +:+ path +:+ " " +:+ toString10 line
                      +:+ " (match)") rt)
          else empty
      | None => empty
      end
  end.

(** [setBreakPoint(path, line)]; the method awaits nothing.  The line is
    a small integer, which [toString()] writes in full. *)
Definition setBreakPoint (path : string) (line : Z) (rt : t)
  : IRuntimeBreakpoint.t * t :=
  let rt :=
    info ("setBreakPoint " +:+ path +:+ " " +:+ toString10 line) rt in
  let rt :=
    set_breakAddresses (<[path := toString10 line]> (breakAddresses rt)) rt in
  (IRuntimeBreakpoint.mk (breakpointId rt) line true,
   set_breakpointId (breakpointId rt + 1) rt).

(** [clearBreakPoint(path, line)] returns [undefined]. *)
Definition clearBreakPoint (path : string) (line : Z) (rt : t)
  : option IRuntimeBreakpoint.t * t :=
  (None, info ("clearBreakPoint " +:+ path +:+ " " +:+ toString10 line) rt).

Definition clearBreakpoints (path : string) (rt : t) : t :=
  info ("clearBreakpoints " +:+ path) (set_breakAddresses ∅ rt).

Definition setDataBreakpoint (address accessType : string) (rt : t)
  : bool * t :=
  (true, info ("setDataBreakpoint " +:+ address +:+ " " +:+ accessType) rt).

Definition clearAllDataBreakpoints (rt : t) : t :=
  info "clearAllDataBreakpoints" rt.

Definition setExceptionsFilters (namedException : option string)
  (otherExceptions : bool) (rt : t) : t := rt.

Definition setInstructionBreakpoint (address : Z) (rt : t) : bool * t :=
  (true,
   set_instructionBreakpoints ({[address]} ∪ instructionBreakpoints rt) rt).

Definition clearInstructionBreakpoints (rt : t) : t :=
  set_instructionBreakpoints ∅ rt.

(** [new RuntimeVariable(`global_${i}`, i)] *)
Definition global (i : nat) : RuntimeVariable.t :=
  RuntimeVariable.new ("global_" +:+ toString10 (Z.of_nat i))
    (VNumber (inject_Z (Z.of_nat i))).

(** The loop of [getGlobalVariables]: [i] is the variable to add next and
    [a] the array so far; the token, if there is one, is asked after each
    addition, its [i]-th answer being [token i]. *)
Fixpoint globals_from (rounds : nat) (i : nat) (token : option (nat -> bool))
  (a : list RuntimeVariable.t) : list RuntimeVariable.t :=
  match rounds with
  | O => a
  | S rounds' =>
      let a := a ++ [global i] in
      match token with
      | Some answer =>
          if answer i then a else globals_from rounds' (S i) token a
      | None => globals_from rounds' (S i) token a
      end
  end.

(** [getGlobalVariables(cancellationToken?)]: the value that the promise
    resolves to. *)
Definition getGlobalVariables (cancellationToken : option (nat -> bool))
  : list RuntimeVariable.t :=
  globals_from 10 0 cancellationToken [].

(** [getLocalVariables()] *)
Definition getLocalVariables (rt : t) : outcome (list RuntimeVariable.t) :=
  let rt := info "getLocalVariables" rt in
  match current_assignment rt with
  | Some assignment => Returns (Assignment.localVariables assignment) rt
  | None => Throws (TypeError "Cannot read properties of undefined") rt
  end.

(** [getLocalVariable(name)] *)
Definition getLocalVariable (name : string) (rt : t)
  : option RuntimeVariable.t * t :=
  let rt := info ("getLocalVariable " +:+ name) rt in
  if String.eqb name "local_1"
  then (Some (RuntimeVariable.new "local_1" (VNumber (inject_Z 1))), rt)
  else if String.eqb name "local_2"
  then (Some (RuntimeVariable.new "local_2" (VNumber (inject_Z 2))), rt)
  else (None, rt).



(** The methods of the emitter, on the runtime. *)
Definition on (event : string) (listener : Listener) (rt : t)
  : outcome Unsubscribe :=
  match EventEmitter.on event listener (emitter rt) with
  | EventEmitter.Returns (u, e) => Returns u (set_emitter e rt)
  | EventEmitter.Throws x => Throws x rt
  end.

Definition removeListener (event : string) (listener : Listener) (rt : t)
  : outcome unit :=
  match EventEmitter.removeListener event listener (emitter rt) with
  | EventEmitter.Returns e => Returns tt (set_emitter e rt)
  | EventEmitter.Throws x => Throws x rt
  end.

Definition emit (event : string) (args : list JVal) (rt : t)
  : outcome unit :=
  match EventEmitter.emit event args (emitter rt) with
  | EventEmitter.Returns made => Returns tt (set_calls (calls rt ++ made) rt)
  | EventEmitter.Throws x => Throws x rt
  end.

(** The timers that are due run in the order in which they were set; an
    exception leaves the later ones in the queue. *)
Fixpoint run_timers (due : list (string * list JVal)) (rt : t)
  : outcome unit :=
  match due with
  | [] => Returns tt rt
  | (event, args) :: rest =>
      match emit event args (set_timers (tail (timers rt)) rt) with
      | Returns _ rt' => run_timers rest rt'
      | Throws x rt' => Throws x rt'
      end
  end.

(** A turn of the event loop. *)
Definition turn (rt : t) : outcome unit := run_timers (timers rt) rt.

(** The runtime when a call has ended. *)
Definition final {A} (o : outcome A) : t :=
  match o with
  | Returns _ rt => rt
  | Throws _ rt => rt
  end.

(** Sequences of calls on one runtime. *)
Inductive call :=
| Start (program : string) (stopOnEntry debug : bool)
| Continue (reverse : bool)
| Step (instruction reverse : bool)
| StepIn (targetId : option Z)
| StepOut
| Stack (startFrame endFrame : Z)
| GetBreakpoints (path : string) (line : Z)
| SetBreakPoint (path : string) (line : Z)
| ClearBreakPoint (path : string) (line : Z)
| ClearBreakpoints (path : string)
| SetDataBreakpoint (address accessType : string)
| ClearAllDataBreakpoints
| SetExceptionsFilters (namedException : option string)
    (otherExceptions : bool)
| SetInstructionBreakpoint (address : Z)
| ClearInstructionBreakpoints
| GetLocalVariables
| GetLocalVariable (name : string)
| Disassemble (address instructionCount : Z)
| On (event : string) (listener : Listener)
| RemoveListener (event : string) (listener : Listener)
| Emit (event : string) (args : list JVal)
| Turn.

Definition after (rt : t) (c : call) : t :=
  match c with
  | Start program stopOnEntry debug => start program stopOnEntry debug rt
  | Continue reverse => continue reverse rt
  | Step instruction reverse => step instruction reverse rt
  | StepIn targetId => stepIn targetId rt
  | StepOut => stepOut rt
  | Stack startFrame endFrame => final (stack startFrame endFrame rt)
  | GetBreakpoints path line => snd (getBreakpoints path line rt)
  | SetBreakPoint path line => snd (setBreakPoint path line rt)
  | ClearBreakPoint path line => snd (clearBreakPoint path line rt)
  | ClearBreakpoints path => clearBreakpoints path rt
  | SetDataBreakpoint address accessType =>
      snd (setDataBreakpoint address accessType rt)
  | ClearAllDataBreakpoints => clearAllDataBreakpoints rt
  | SetExceptionsFilters namedException otherExceptions =>
      setExceptionsFilters namedException otherExceptions rt
  | SetInstructionBreakpoint address =>
      snd (setInstructionBreakpoint address rt)
  | ClearInstructionBreakpoints => clearInstructionBreakpoints rt
  | GetLocalVariables => final (getLocalVariables rt)
  | GetLocalVariable name => snd (getLocalVariable name rt)
  | Disassemble _ _ => rt
  | On event listener => final (on event listener rt)
  | RemoveListener event listener => final (removeListener event listener rt)
  | Emit event args => final (emit event args rt)
  | Turn => final (turn rt)
  end.

Definition run (rt : t) (cs : list call) : t := fold_left after cs rt.

(** The events that the runtime announces. *)
Definition stop_events : list string :=
  ["stopOnEntry"; "stopOnBreakpoint"; "stopOnStep"].

(** What holds of the runtime whatever has been called: the caret is a
    position of [assignments], there are no instructions, and the timers
    are for the three events. *)
Definition inv (rt : t) : Prop :=
  0 <= caret rt < Z.of_nat (length assignments)
  /\ instructions rt = []
  /\ Forall (fun timer => In (fst timer) stop_events) (timers rt)
  /\ EventEmitter.inv (emitter rt).

End MockRuntime.

(** ** Notions used in the further properties *)

(** *** Runs of the handle table *)

Module HandleRuns.
Import Handles.

Section Table.
Context {T : Type} `{Truthy T}.

(** The bindings made since the last [reset]: each handle of the current
    generation with the value it was created for, most recent first. *)
Fixpoint bindings (g : list (Z * T)) (cs : list (call T))
  (rs : list (result T)) : list (Z * T) :=
  match cs, rs with
  | Create v :: cs', Created n :: rs' => bindings ((n, v) :: g) cs' rs'
  | Reset :: cs', _ :: rs' => bindings [] cs' rs'
  | _ :: cs', _ :: rs' => bindings g cs' rs'
  | _, _ => g
  end.

(** A [reset] among the calls. *)
Definition has_reset (cs : list (call T)) : bool :=
  existsb (fun c => match c with Reset => true | _ => false end) cs.

(** The table holds the bindings [g], below its next handle. *)
Definition bound (g : list (Z * T)) (h : t T) : Prop :=
  (forall n v, (n, v) ∈ g -> _handleMap h !! n = Some v)
  /\ (forall n v, (n, v) ∈ g -> n < _nextHandle h).

(** The handles [g] of the current generation, most recent first, are
    [base], [base + 1], ... up to the next handle. *)
Definition consecutive (base : Z) (g : list Z) (h : t T) : Prop :=
  rev g = map (fun i => base + Z.of_nat i) (seq 0 (length g))
  /\ _nextHandle h = base + Z.of_nat (length g).

End Table.
End HandleRuns.

(** *** Formats *)

(** What has been read of a placeholder that is not complete. *)
Definition unfinished (pending : option string) : string :=
  match pending with
  | None => EmptyString
  | Some name => "{" +:+ name
  end.

(** The name of a property starts with an underscore. *)
Definition underscored (name : string) : bool :=
  String.eqb (substring 0 1 name) "_".

(** Arguments as [formatPII] declares them, [{ [key: string]: string }]
    or none: every property is a string, and none is called
    [hasOwnProperty], the method that [formatPII] calls on them. *)
Definition string_arguments (args : JVal) : bool :=
  match args with
  | JObj o =>
      forallb (fun p => match snd p with JStr _ => true | _ => false end) o
      && negb (hasOwnProperty o "hasOwnProperty")
  | JUndefined | JNull => true
  | _ => false
  end.

(** No character of [s] is [c]. *)
Fixpoint lacks (c : ascii) (s : string) : bool :=
  match s with
  | EmptyString => true
  | String x rest => negb (Ascii.eqb x c) && lacks c rest
  end.

(** *** Requests *)

(** The commands whose handler reads a property of [request.arguments]. *)
Definition argument_reading_commands : list string :=
  ["initialize"; "stackTrace"; "variables"].

(** The answer to a [variables] request. *)
Definition variables_response (request : Request.t)
  (ds : list DapVariable.t) : Response.t :=
  Response.mk 0 "response" (Request.seq request) true "variables" None
    (Some [("variables", JArr (map DapVariable.toJSON ds))]).

(** *** Conversions that change nothing *)

(** A runtime variable to which [convertFromRuntime] has nothing left to
    assign: its bytes are there if its value is a string, and its
    reference is there if the conversion asks for one. *)
Definition settled (rv : RuntimeVariable.t) : bool :=
  match RuntimeVariable._memory rv, RuntimeVariable._value rv with
  | None, VString _ => false
  | Some _, _ =>
      match RuntimeVariable.reference rv with
      | Some _ => true
      | None => false
      end
  | None, VArray _ =>
      match RuntimeVariable.reference rv with
      | Some _ => true
      | None => false
      end
  | None, _ =>
      if 0 <=? indexOf (RuntimeVariable.name rv) "lazy" then
        match RuntimeVariable.reference rv with
        | Some _ => true
        | None => false
        end
      else true
  end.

Section Settled.
Context `{host : Host}.

(** The conversion of [v] gives [d] and changes nothing, wherever the
    object at [v] is [rv] and values are shown as in [s]. *)
Definition converts_to (s : State) (v : loc) (d : DapVariable.t) : Prop :=
  exists rv,
    variables s !! v = Some rv
    /\ settled rv = true
    /\ forall s2,
         variables s2 !! v = Some rv ->
         _valuesInHex s2 = _valuesInHex s ->
         convertFromRuntime v s2 = Normal d s2.

End Settled.

(** What a conversion leaves as it was: the settled variables, every
    value, the fields of the adapter, and the handles made so far. *)
Definition extends (s s' : State) : Prop :=
  (forall w rw, variables s !! w = Some rw -> settled rw = true ->
     variables s' !! w = Some rw)
  /\ (forall w rw, variables s !! w = Some rw ->
        exists rw', variables s' !! w = Some rw'
                    /\ RuntimeVariable._value rw' = RuntimeVariable._value rw)
  /\ _valuesInHex s' = _valuesInHex s
  /\ _listener s' = _listener s
  /\ effects s' = effects s
  /\ messages s' = messages s
  /\ immediates s' = immediates s
  /\ Handles._nextHandle (_variableHandles s)
     <= Handles._nextHandle (_variableHandles s')
  /\ (forall n, n < Handles._nextHandle (_variableHandles s) ->
        Handles._handleMap (_variableHandles s') !! n
        = Handles._handleMap (_variableHandles s) !! n).

(** ** Sessions of the adapter *)

(** A method that leaves the pending requests as they are, however it
    ends. *)
Definition keeps_pending {A} (m : M A) : Prop :=
  forall s, _pendingRequests (final (m s)) = _pendingRequests s.

(** What happens to an adapter from outside: a message arrives, the
    event loop takes its next turn, a listener is registered, the emitter
    is disposed of. *)
Inductive Happening :=
| Receives (msg : Inbound)
| NextTurn
| Listens (listener : nat)
| Disposes.

Section Sessions.
Context `{host : Host} `{engine : Engine}.

(** The adapter after a happening, whether the call returned or threw. *)
Definition happen (s : State) (h : Happening) : State :=
  match h with
  | Receives msg => final (handleMessage msg s)
  | NextTurn => final (run_immediates s)
  | Listens listener => final (onDidSendMessage listener s)
  | Disposes => final (Emitter_dispose s)
  end.

Definition session (s : State) (hs : list Happening) : State :=
  fold_left happen hs s.

End Sessions.

(** * Part II: properties *)

(** ** Numbers *)


(** A small integer is a double. *)
Lemma nearest_double_small (n : Z) : small n -> nearest_double n = n.
Proof.
  intros Hn. unfold nearest_double. cbv zeta.
  destruct (Z.leb_spec (Z.log2 (Z.abs n) - 52) 0) as [Hk|Hk]; [reflexivity|].
  assert (0 < Z.abs n) as Hpos.
  { destruct (Z.eq_dec n 0) as [->|Hne]; [|lia].
    exfalso. revert Hk. vm_compute. discriminate. }
  assert (2 ^ 53 <= Z.abs n) as Hlow
    by (apply Z.log2_le_pow2; [exact Hpos|lia]).
  change (2 ^ 53) with two_53 in Hlow. unfold small in Hn.
  assert (n = two_53 \/ n = - two_53) as [->| ->] by lia; reflexivity.
Qed.

(** Sums and differences that stay small are exact. *)
Lemma Number_add_small (x y : Z) : small (x + y) -> Number_add x y = x + y.
Proof. apply nearest_double_small. Qed.

Lemma Number_sub_small (x y : Z) : small (x - y) -> Number_sub x y = x - y.
Proof. apply nearest_double_small. Qed.

(** ** The handle table *)

Module HandlesFacts.
Import Handles.

Section Table.
Context {T : Type} `{Truthy T}.

Lemma inv_new (b : option Z) : inv [] (new (T := T) b).
Proof.
  split; [constructor|split].
  - intros n Hn. inversion Hn.
  - intros n _. apply lookup_empty.
Qed.

Lemma inv_reset (h : t T) : inv [] (reset h).
Proof.
  split; [constructor|split].
  - intros n Hn. inversion Hn.
  - intros n _. apply lookup_empty.
Qed.

Lemma inv_create (g : list Z) (h : t T) (v : T) :
  inv g h -> inv ((create v h).1 :: g) (create v h).2.
Proof.
  intros (Hnd & Hlt & Hnone). cbn. split; [|split].
  - constructor; [|exact Hnd].
    intros Hin. apply Hlt in Hin. lia.
  - intros n Hn. cbn. apply elem_of_cons in Hn as [->|Hn]; [lia|].
    apply Hlt in Hn. lia.
  - intros n Hn. cbn. apply not_elem_of_cons in Hn as [Hne Hn].
    rewrite lookup_insert_ne by congruence. auto.
Qed.

Lemma inv_run (cs : list (call T)) : forall (g : list Z) (h : t T),
  inv g h -> inv (live g (run h cs).1) (run h cs).2.
Proof.
  induction cs as [|c cs IH]; intros g h Hinv; [exact Hinv|].
  cbn [run]. destruct c as [v| |n d]; cbn [step].
  - pose proof (inv_create g h v Hinv) as Hc.
    destruct (create v h) as [k h'] eqn:Ec. cbn in Hc.
    specialize (IH _ _ Hc). destruct (run h' cs) as [rs h'']. exact IH.
  - specialize (IH _ _ (inv_reset h)).
    destruct (run (reset h) cs) as [rs h'']. exact IH.
  - specialize (IH _ _ Hinv). destruct (run h cs) as [rs h'']. exact IH.
Qed.

Lemma get_unbound (handle : Z) (d : option T) (h : t T) :
  _handleMap h !! handle = None -> get handle d h = d.
Proof. intros E. unfold get. now rewrite E. Qed.

(** A handle that the current generation has not handed out resolves
    to the default. *)
Lemma get_not_live (b : option Z) (cs : list (call T)) (handle : Z)
  (d : option T) :
  handle ∉ live [] (run (new b) cs).1 ->
  get handle d (run (new b) cs).2 = d.
Proof.
  intros Hn. apply get_unbound.
  destruct (inv_run cs [] (new b) (inv_new b)) as (_ & _ & Hnone). auto.
Qed.

(** Handles stay in the range that the calls leave them. *)
Lemma run_small (cs : list (call T)) : forall (g : list Z) (h : t T) (B : Z),
  - two_53 <= _nextHandle h ->
  _nextHandle h + Z.of_nat (length cs) <= B ->
  startHandle + Z.of_nat (length cs) <= B ->
  (forall n, n ∈ g -> - two_53 <= n < B) ->
  (forall n, n ∈ live g (run h cs).1 -> - two_53 <= n < B)
  /\ - two_53 <= _nextHandle (run h cs).2 <= B.
Proof.
  induction cs as [|c cs IH]; intros g h B Hlo Hhi Hstart Hg.
  - cbn in *. split; [exact Hg|lia].
  - cbn [run]. cbn [length] in Hhi, Hstart.
    destruct c as [v| |n d]; cbn [step].
    + destruct (create v h) as [k h'] eqn:Ec.
      unfold create in Ec. injection Ec as <- <-.
      specialize (IH (_nextHandle h :: g)
                    {| _nextHandle := _nextHandle h + 1;
                       _handleMap := <[_nextHandle h := v]> (_handleMap h) |}
                    B).
      cbn [_nextHandle] in IH.
      destruct (run _ cs) as [rs h''] eqn:Er. cbn [fst snd live] in *.
      apply IH; [lia|lia|lia|].
      intros n Hn. apply elem_of_cons in Hn as [->|Hn]; [lia|auto].
    + specialize (IH [] (reset h) B). cbn [_nextHandle reset] in IH.
      destruct (run (reset h) cs) as [rs h''] eqn:Er.
      cbn [fst snd live] in *.
      apply IH; [unfold startHandle, two_53; lia|lia|lia|].
      intros n Hn. inversion Hn.
    + specialize (IH g h B).
      destruct (run h cs) as [rs h''] eqn:Er. cbn [fst snd live] in *.
      apply IH; [lia|lia|lia|exact Hg].
Qed.

(** C3, as the code has it.  Along every sequence of [create], [reset] and
    [get] calls on a table built with a start base, as long as the handles
    stay below 2^53, where [_nextHandle++] counts exactly
    ([counts_exactly]): the handles created since the last reset are
    pairwise distinct; a [get] of a handle that the current generation has
    not created returns the default given; after a [reset] the next
    [create] returns 1000, the fixed [startHandle], and not the base given
    to the constructor; right after a [reset] every handle, so every
    handle created before it, resolves to the default; and the handles
    created and the next one are small integers. *)
Theorem Handles_generations (b : option Z) (cs : list (call T)) :
  counts_exactly b cs ->
  let rs := (run (new b) cs).1 in
  let h := (run (new b) cs).2 in
  NoDup (live [] rs)
  /\ (forall handle d, handle ∉ live [] rs -> get handle d h = d)
  /\ (forall v, (run h [Reset; Create v]).1 = [ResetDone; Created 1000])
  /\ (forall handle d, get handle d (reset h) = d)
  /\ (forall handle, handle ∈ live [] rs -> - two_53 <= handle < two_53)
  /\ small (_nextHandle h).
Proof.
  intros [Hlo Hhi]. cbv zeta in *. split; [|split; [|split; [|split]]].
  - apply (inv_run cs [] (new b) (inv_new b)).
  - intros handle d. apply get_not_live.
  - intros v. reflexivity.
  - intros handle d. apply get_unbound. apply lookup_empty.
  - apply (run_small cs [] (new b) two_53); [exact Hlo|lia|lia|].
    intros n Hn. inversion Hn.
Qed.

End Table.

(** C3 as stated fails: a table built with base 5 numbers from 1000 after
    a [reset], not from 5. *)
Lemma Handles_reset_ignores_configured_base :
  let rs := (run (new (Some 5)) [Create locals; Reset; Create locals]).1 in
  rs = [Created 5; ResetDone; Created 1000]
  /\ rs <> [Created 5; ResetDone; Created 5].
Proof.
  cbv zeta. split; [reflexivity|].
  intros E. cbn in E. discriminate E.
Qed.

(** C3 on a table built with base 5: two handles, a reset, a third
    handle and the look-up of the first. *)
Lemma Handles_generations_from_5 :
  let cs := [Create locals; Create locals; Reset; Create locals;
             Get 5 None] in
  let rs := (run (new (Some 5)) cs).1 in
  let h := (run (new (Some 5)) cs).2 in
  counts_exactly (Some 5) cs
  /\ NoDup (live [] rs)
  /\ (forall handle d, handle ∉ live [] rs -> get handle d h = d)
  /\ (forall v, (run h [Reset; Create v]).1 = [ResetDone; Created 1000])
  /\ (forall handle d, get handle d (reset h) = d)
  /\ (forall handle, handle ∈ live [] rs -> - two_53 <= handle < two_53)
  /\ small (_nextHandle h).
Proof.
  assert (counts_exactly (Some 5)
            [Create locals; Create locals; Reset; Create locals;
             Get 5 None]) as Hc
    by (unfold counts_exactly; cbn; unfold startHandle, two_53; lia).
  exact (conj Hc (Handles_generations (Some 5) _ Hc)).
Defined.

End HandlesFacts.

(** ** Coordinates *)

(** C6, as the code has it.  For every line (and column) below 2^53 in
    magnitude and every setting of the client and debugger origin flags,
    converting from the client's convention to the engine's and back gives
    the value again; each conversion adds the difference of the two
    origins, so it is the identity when the flags agree and a shift by
    one, up or down, when they differ. *)
Theorem coordinates_round_trip (s : State) (L : Z) :
  - two_53 < L < two_53 ->
  convertDebuggerLineToClient (convertClientLineToDebugger L s) s = L
  /\ convertDebuggerColumnToClient (convertClientColumnToDebugger L s) s = L
  /\ convertDebuggerLineToClient L s
     = L + Z.b2z (_clientLinesStartAt1 s) - Z.b2z (_debuggerLinesStartAt1 s)
  /\ convertClientLineToDebugger L s
     = L + Z.b2z (_debuggerLinesStartAt1 s) - Z.b2z (_clientLinesStartAt1 s)
  /\ convertDebuggerColumnToClient L s
     = L + Z.b2z (_clientColumnsStartAt1 s)
       - Z.b2z (_debuggerColumnsStartAt1 s)
  /\ convertClientColumnToDebugger L s
     = L + Z.b2z (_debuggerColumnsStartAt1 s)
       - Z.b2z (_clientColumnsStartAt1 s).
Proof.
  intros HL.
  assert (Number_add L 1 = L + 1) as Ha
    by (apply Number_add_small; unfold small; lia).
  assert (Number_sub L 1 = L - 1) as Hs
    by (apply Number_sub_small; unfold small; lia).
  assert (Number_sub (L + 1) 1 = L) as Has
    by (rewrite Number_sub_small; unfold small; lia).
  assert (Number_add (L - 1) 1 = L) as Hsa
    by (rewrite Number_add_small; unfold small; lia).
  unfold convertDebuggerLineToClient, convertClientLineToDebugger,
    convertDebuggerColumnToClient, convertClientColumnToDebugger.
  destruct (_debuggerLinesStartAt1 s), (_clientLinesStartAt1 s),
    (_debuggerColumnsStartAt1 s), (_clientColumnsStartAt1 s);
    cbn [Z.b2z]; rewrite ?Ha, ?Hs, ?Has, ?Hsa; repeat split; lia.
Qed.

(** C6 on line 7 of a client that counts from 1 over an engine that
    counts from 0, the adapter as it is built. *)
Lemma coordinates_round_trip_line_7 :
  let s := new_DebugProtocolAdapter None in
  - two_53 < 7 < two_53
  /\ convertDebuggerLineToClient (convertClientLineToDebugger 7 s) s = 7
  /\ convertDebuggerColumnToClient (convertClientColumnToDebugger 7 s) s = 7
  /\ convertDebuggerLineToClient 7 s
     = 7 + Z.b2z (_clientLinesStartAt1 s) - Z.b2z (_debuggerLinesStartAt1 s)
  /\ convertClientLineToDebugger 7 s
     = 7 + Z.b2z (_debuggerLinesStartAt1 s) - Z.b2z (_clientLinesStartAt1 s)
  /\ convertDebuggerColumnToClient 7 s
     = 7 + Z.b2z (_clientColumnsStartAt1 s)
       - Z.b2z (_debuggerColumnsStartAt1 s)
  /\ convertClientColumnToDebugger 7 s
     = 7 + Z.b2z (_debuggerColumnsStartAt1 s)
       - Z.b2z (_clientColumnsStartAt1 s).
Proof.
  assert (- two_53 < 7 < two_53) as H7 by (unfold two_53; lia).
  exact (conj H7 (coordinates_round_trip (new_DebugProtocolAdapter None) 7 H7)).
Defined.

(** C6 as stated fails from 2^53 on, where the numbers of the source no
    longer hold every integer.  On the adapter as it is built (the client
    counts from 1, the engine from 0): line 2^53 of the engine is line
    2^53 for the client and not 2^53 + 1; and the line - 2^53 of the
    client, converted to the engine and back, is - 2^53 + 1. *)
Lemma coordinates_lose_exactness_at_2_53 :
  let s := new_DebugProtocolAdapter None in
  convertDebuggerLineToClient two_53 s = two_53
  /\ convertDebuggerLineToClient two_53 s <> two_53 + 1
  /\ convertDebuggerLineToClient (convertClientLineToDebugger (- two_53) s) s
     = - two_53 + 1
  /\ convertDebuggerColumnToClient two_53 s = two_53
  /\ convertDebuggerColumnToClient
       (convertClientColumnToDebugger (- two_53) s) s
     = - two_53 + 1.
Proof.
  cbv zeta. repeat split; try reflexivity.
  intros E. vm_compute in E. discriminate E.
Qed.

(** ** Reasoning about the stores *)

Lemma lookup_new {A} (l : list A) (x : A) (rest : list A) :
  (l ++ x :: rest) !! length l = Some x.
Proof. now apply list_lookup_middle. Qed.

Lemma insert_new {A} (l : list A) (x y : A) (rest : list A) :
  <[length l := y]> (l ++ x :: rest) = l ++ y :: rest.
Proof.
  rewrite insert_app_r_alt by lia. now rewrite Nat.sub_diag.
Qed.

Lemma delivered_app (es es' : list Effect) :
  delivered (es ++ es') = delivered es ++ delivered es'.
Proof.
  induction es as [|e es IH]; [reflexivity|].
  destruct e; cbn; rewrite IH; reflexivity.
Qed.

(** A bound on a location, from the lookups in the context. *)
Ltac len :=
  rewrite ?length_insert, ?length_app; cbn [length]; lia.

(** Runs the methods on runtime variables as far as the stores are
    known. *)
Ltac store :=
  repeat first
    [ progress cbv beta iota zeta delta
        [bind ret gets modify throw log
         read_variable write_variable new_RuntimeVariable
         RuntimeVariable_memory variableHandles_create
         reference_or_assign Handles.create]
    | progress cbn [variables messages effects immediates _variableHandles
                    _listener _valuesInHex
                    set_variables set_messages set_effects set_immediates
                    set_variableHandles set_listener
                    RuntimeVariable.name RuntimeVariable._value
                    RuntimeVariable._memory RuntimeVariable.reference
                    RuntimeVariable.set_memory RuntimeVariable.set_reference
                    RuntimeVariable.new fst snd]
    | rewrite list_lookup_insert_eq by len
    | rewrite lookup_app_l by len
    | match goal with
      | H : ?l !! ?i = Some _ |- context [?l !! ?i] => rewrite H
      end
    | match goal with
      | H : ?x = _ |- context [match ?x with _ => _ end] => rewrite H
      end
    | match goal with
      | H : ?x = _ |- context [if ?x then _ else _] => rewrite H
      end ].

(** Runs the methods on messages as far as the stores are known. *)
Ltac send :=
  repeat first
    [ progress cbv beta iota zeta delta
        [bind ret gets modify throw log
         read_message write_message new_message read_response
         read_prop set_response_body
         _send fire sendResponse sendEvent sendErrorResponse
         initializeRequest set_message_type message_seq command_of]
    | progress cbn [variables messages effects immediates _variableHandles
                    _listener _valuesInHex _pendingRequests
                    _clientLinesStartAt1 _clientColumnsStartAt1
                    _debuggerLinesStartAt1 _debuggerColumnsStartAt1
                    _addressesInHex
                    set_variables set_messages set_effects set_immediates
                    set_variableHandles set_listener
                    set_clientLinesStartAt1 set_clientColumnsStartAt1
                    Response.seq Response.type Response.request_seq
                    Response.success Response.command Response.message
                    Response.body Response.set_type Response.set_success
                    Response.set_message Response.set_body Response.new
                    Event.seq Event.type Event.event Event.body Event.set_type
                    fst snd Z.ltb Z.compare]
    | rewrite <- app_assoc
    | progress cbn [app]
    | rewrite lookup_new
    | rewrite insert_new
    | rewrite list_lookup_insert_eq by len
    | rewrite lookup_app_l by len
    | match goal with
      | H : ?l !! ?i = Some _ |- context [?l !! ?i] => rewrite H
      end
    | match goal with
      | H : ?x = _ |- context [match ?x with _ => _ end] => rewrite H
      end
    | match goal with
      | H : ?x = _ |- context [if ?x then _ else _] => rewrite H
      end ].

(** The handlers that only answer. *)
Ltac handlers :=
  unfold disconnectRequest, launchRequest, attachRequest,
    terminateRequest, restartRequest, setBreakPointsRequest,
    setFunctionBreakPointsRequest, setExceptionBreakPointsRequest, configurationDoneRequest,
    continueRequest, nextRequest, stepInRequest,
    stepOutRequest, stepBackRequest, reverseContinueRequest,
    restartFrameRequest, gotoRequest, pauseRequest,
    sourceRequest, threadsRequest, terminateThreadsRequest,
    scopesRequest, setVariableRequest, setExpressionRequest,
    evaluateRequest, stepInTargetsRequest, gotoTargetsRequest,
    completionsRequest, exceptionInfoRequest, loadedSourcesRequest,
    dataBreakpointInfoRequest, setDataBreakpointsRequest, readMemoryRequest,
    writeMemoryRequest, disassembleRequest, cancelRequest,
    breakpointLocationsRequest, setInstructionBreakpointsRequest.

(** ** Numbers and names *)

Section NumberFacts.
Context `{host : Host}.

Lemma indexOf_absent (name : string) :
  (forall n, substring n 4 name <> "lazy") ->
  (0 <=? indexOf name "lazy") = false.
Proof.
  intros Hno. unfold indexOf.
  destruct (index 0 "lazy" name) as [n|] eqn:E; [|reflexivity].
  apply index_correct1 in E. cbn in E. now apply Hno in E.
Qed.





Lemma Number_toString_fractional (x : Q) (radix : Z) :
  (forall z, ~ Qeq x (inject_Z z)) ->
  Number_toString x radix = Number_toString_host x radix.
Proof.
  intros Hx. unfold Number_toString.
  destruct (Qeq_bool (inject_Z (Qfloor x)) x) eqn:E; [|reflexivity].
  apply Qeq_bool_iff in E. exfalso. apply (Hx (Qfloor x)). now symmetry.
Qed.

End NumberFacts.

(** ** [convertFromRuntime] *)

Section ConvertFacts.
Context `{host : Host}.


(** C8.  Converting the same runtime variable twice in a row returns the
    same [variablesReference] (indeed the same protocol variable) both
    times, and the second conversion leaves the handle table as it is: no
    second handle is created.  The reference is the variable's own: one
    that the variable already has is kept, it is the [variablesReference]
    returned if the variable shows children, and then the first conversion
    creates no handle either; a variable without one that shows children
    or has memory gets the handle that the first conversion creates, which
    is bound in the table from then on and is the [variablesReference]
    returned if it shows children; any other variable gets no reference,
    and [variablesReference] is 0 where no children are shown. *)
Theorem convertFromRuntime_reuses_reference (s : State) (v : loc)
  (rv : RuntimeVariable.t) :
  variables s !! v = Some rv ->
  exists d1 s1 d2 s2 rv1,
    convertFromRuntime v s = Normal d1 s1
    /\ convertFromRuntime v s1 = Normal d2 s2
    /\ d2 = d1
    /\ DapVariable.variablesReference d2 = DapVariable.variablesReference d1
    /\ _variableHandles s2 = _variableHandles s1
    /\ variables s1 !! v = Some rv1
    /\ variables s2 !! v = Some rv1
    /\ match RuntimeVariable.reference rv with
       | Some r =>
           RuntimeVariable.reference rv1 = Some r
           /\ _variableHandles s1 = _variableHandles s
           /\ DapVariable.variablesReference d1
              = (if shows_children rv then r else 0)
       | None =>
           let handle := Handles._nextHandle (_variableHandles s) in
           if shows_children rv || has_memory rv then
             RuntimeVariable.reference rv1 = Some handle
             /\ is_Some (Handles._handleMap (_variableHandles s1) !! handle)
             /\ DapVariable.variablesReference d1
                = (if shows_children rv then handle else 0)
           else
             RuntimeVariable.reference rv1 = None
             /\ _variableHandles s1 = _variableHandles s
             /\ DapVariable.variablesReference d1 = 0
       end.
Proof.
  intros Hv. pose proof (lookup_lt_Some _ _ _ Hv) as Hlt.
  destruct (0 <=? indexOf (RuntimeVariable.name rv) "lazy") eqn:Hlazy;
    destruct (RuntimeVariable._value rv) as [x|b|str|vs] eqn:Hx;
    try destruct (Qeq_bool (Math_round x) x) eqn:Hround;
    destruct (RuntimeVariable._memory rv) as [bytes|] eqn:Em;
    destruct (RuntimeVariable.reference rv) as [r|] eqn:Er.
  all: do 5 eexists.
  all: split; [unfold convertFromRuntime; store; reflexivity|].
  all: split; [unfold convertFromRuntime; store; reflexivity|].
  all: split; [store; rewrite ?Hx; reflexivity|].
  all: split; [reflexivity|].
  all: split; [reflexivity|].
  all: split; [store; reflexivity|].
  all: split; [store; reflexivity|].
  all: unfold shows_children, has_memory; rewrite Hlazy, Hx, ?Em;
    cbv zeta; cbn [orb].
  all: split; [first [assumption | reflexivity | cbn; reflexivity]|].
  all: split; [|reflexivity].
  all: try reflexivity.
  all: cbn; rewrite lookup_insert_eq; eexists; reflexivity.
Qed.

End ConvertFacts.


(** A composite variable that has the reference 1000 already, in the
    store of a listening adapter. *)
Lemma convertFromRuntime_reuses_reference_items :
  let rv :=
    RuntimeVariable.set_reference (Some 1000)
      (RuntimeVariable.new "items" (VArray [])) in
  let s := set_variables [rv] listening_adapter in
  variables s !! 0%nat = Some rv
  /\ exists d1 s1 d2 s2 rv1,
       convertFromRuntime (host := plain_host) 0 s = Normal d1 s1
       /\ convertFromRuntime (host := plain_host) 0 s1 = Normal d2 s2
       /\ d2 = d1
       /\ DapVariable.variablesReference d2
          = DapVariable.variablesReference d1
       /\ _variableHandles s2 = _variableHandles s1
       /\ variables s1 !! 0%nat = Some rv1
       /\ variables s2 !! 0%nat = Some rv1
       /\ RuntimeVariable.reference rv1 = Some 1000
       /\ _variableHandles s1 = _variableHandles s
       /\ DapVariable.variablesReference d1 = 1000.
Proof.
  cbv zeta. split; [reflexivity|].
  exact (convertFromRuntime_reuses_reference (host := plain_host)
           (set_variables
              [RuntimeVariable.set_reference (Some 1000)
                 (RuntimeVariable.new "items" (VArray []))]
              listening_adapter)
           0
           (RuntimeVariable.set_reference (Some 1000)
              (RuntimeVariable.new "items" (VArray [])))
           eq_refl).
Defined.

(** ** Sending *)

Lemma sendResponse_new (s : State) (r : Response.t) (rest : list ProtocolMessage)
  (ms : list ProtocolMessage) (listener : nat) :
  messages s = ms ++ AResponse r :: rest ->
  Response.seq r = 0 ->
  _listener s = Some listener ->
  let m := AResponse (Response.set_type "response" r) in
  sendResponse (length ms) s
  = Normal tt
      (set_effects (effects s ++ [console_info_firing m;
                                  listener_call listener m])
         (set_messages (ms ++ m :: rest) s)).
Proof.
  intros Hm Hseq Hlis m. unfold sendResponse. send.
  rewrite Hm. send. rewrite Hseq. send.
  repeat (rewrite Hm; send).
  destruct r; reflexivity.
Qed.

(** The guard of [sendResponse] holds back a response whose [seq] is
    positive. *)
Lemma sendResponse_guard (s : State) (l : loc) (r : Response.t) :
  messages s !! l = Some (AResponse r) ->
  0 < Response.seq r ->
  sendResponse l s
  = Normal tt
      (set_effects
         (effects s
          ++ [console_error
                ("attempt to send more than one response for command "
                 +:+ Response.command r)])
         s).
Proof.
  intros Hm Hseq. apply Z.ltb_lt in Hseq.
  unfold sendResponse. send. reflexivity.
Qed.

(** [_send] writes the [type] of the message and nothing else: the
    [seq] that goes out is the one the object was created with. *)
Lemma _send_at (s : State) (typ : string) (l : loc) (m : ProtocolMessage)
  (listener : nat) :
  messages s !! l = Some m ->
  _listener s = Some listener ->
  let m' := set_message_type typ m in
  _send typ l s
  = Normal tt
      (set_effects
         (effects s ++ [console_info_firing m'; listener_call listener m'])
         (set_messages (<[l := m']> (messages s)) s))
  /\ message_seq m' = message_seq m.
Proof.
  intros Hm Hlis m'. pose proof (lookup_lt_Some _ _ _ Hm) as Hlt.
  split; [|destruct m; reflexivity].
  unfold _send. send. reflexivity.
Qed.

(** C1, at the failing input: the response built for a [launch] request
    with [seq] 1 is passed to [sendResponse] twice.  Both calls deliver it
    to the listener, and no error is logged: nothing assigns [seq], so the
    guard [response.seq > 0] never holds. *)
Theorem sendResponse_twice_delivers_twice :
  let r := Response.new (Request.mk 1 "launch" (JObj [])) None in
  let twice :=
    (response <- new_message (AResponse r) ;;
     sendResponse response ;;
     sendResponse response)%method in
  effects (final (twice listening_adapter))
  = [console_log_listener 0;
     console_info_firing (AResponse r); listener_call 0 (AResponse r);
     console_info_firing (AResponse r); listener_call 0 (AResponse r)].
Proof. reflexivity. Qed.

(** ** The dispatcher *)

Section DispatchFacts.
Context `{host : Host} `{engine : Engine}.

Lemma assign_linesStartAt1 (v : JVal) (s : State) :
  assign_if_boolean v set_clientLinesStartAt1 s
  = Normal tt
      (set_clientLinesStartAt1 (origin_after v (_clientLinesStartAt1 s)) s).
Proof. destruct s, v; reflexivity. Qed.

Lemma assign_columnsStartAt1 (v : JVal) (s : State) :
  assign_if_boolean v set_clientColumnsStartAt1 s
  = Normal tt
      (set_clientColumnsStartAt1
         (origin_after v (_clientColumnsStartAt1 s)) s).
Proof. destruct s, v; reflexivity. Qed.

Lemma error_message_native_paths :
  error_message 2018 (Some "debug adapter only supports native paths") JNull
    ErrorDestination.Telemetry
  = native_paths_error.
Proof. reflexivity. Qed.

Lemma formatPII_native_paths :
  match obj_get native_paths_error "format" with
  | JStr f => Some (formatPII f true (obj_get native_paths_error "variables"))
  | _ => None
  end = Some "debug adapter only supports native paths".
Proof. reflexivity. Qed.

Lemma dispatch_initialize_error (s : State) (request : Request.t)
  (linesStartAt1 columnsStartAt1 pathFormat : JVal) (listener : nat) :
  Request.command request = "initialize" ->
  prop (Request.arguments request) "linesStartAt1" = Some linesStartAt1 ->
  prop (Request.arguments request) "columnsStartAt1" = Some columnsStartAt1 ->
  prop (Request.arguments request) "pathFormat" = Some pathFormat ->
  is_not_path pathFormat = true ->
  _listener s = Some listener ->
  let r := Response.mk 0 "response" (Request.seq request) false "initialize"
             (Some "debug adapter only supports native paths")
             (Some [("error", JObj native_paths_error)]) in
  exists s',
    dispatchRequest request s = Normal tt s'
    /\ effects s' = effects s ++ [console_info_firing (AResponse r);
                                  listener_call listener (AResponse r)]
    /\ messages s' = messages s ++ [AResponse r]
    /\ immediates s' = immediates s
    /\ _clientLinesStartAt1 s'
       = origin_after linesStartAt1 (_clientLinesStartAt1 s)
    /\ _clientColumnsStartAt1 s'
       = origin_after columnsStartAt1 (_clientColumnsStartAt1 s).
Proof.
  intros Hc Hl Hcol Hp Hnot Hlis r.
  unfold dispatchRequest. send. rewrite Hc, String.eqb_refl. send.
  rewrite assign_linesStartAt1. send.
  rewrite assign_columnsStartAt1. send.
  rewrite error_message_native_paths.
  change (obj_get native_paths_error "format")
    with (JStr "debug adapter only supports native paths").
  change (formatPII "debug adapter only supports native paths" true
            (obj_get native_paths_error "variables"))
    with "debug adapter only supports native paths".
  send. cbn [obj_set]. send.
  eexists. split; [reflexivity|]. send.
  repeat split; reflexivity.
Qed.

Lemma capabilities_written :
  fold_left (fun o c => obj_set o (fst c) (JBool (snd c))) capabilities []
  = initialize_body.
Proof. reflexivity. Qed.

Lemma dispatch_initialize_path (s : State) (request : Request.t)
  (linesStartAt1 columnsStartAt1 : JVal) (listener : nat) :
  Request.command request = "initialize" ->
  prop (Request.arguments request) "linesStartAt1" = Some linesStartAt1 ->
  prop (Request.arguments request) "columnsStartAt1" = Some columnsStartAt1 ->
  prop (Request.arguments request) "pathFormat" = Some (JStr "path") ->
  _listener s = Some listener ->
  let r := Response.mk 0 "response" (Request.seq request) true "initialize"
             None (Some initialize_body) in
  exists s',
    dispatchRequest request s = Normal tt s'
    /\ effects s' = effects s ++ [console_info_firing (AResponse r);
                                  listener_call listener (AResponse r)]
    /\ messages s' = messages s ++ [AResponse r; AnEvent initialized_event]
    /\ immediates s'
       = immediates s ++ [send_event (S (length (messages s)))]
    /\ _listener s' = Some listener
    /\ _clientLinesStartAt1 s'
       = origin_after linesStartAt1 (_clientLinesStartAt1 s)
    /\ _clientColumnsStartAt1 s'
       = origin_after columnsStartAt1 (_clientColumnsStartAt1 s).
Proof.
  intros Hc Hl Hcol Hp Hlis r.
  unfold dispatchRequest. send. rewrite Hc, String.eqb_refl. send.
  rewrite assign_linesStartAt1. send.
  rewrite assign_columnsStartAt1. send.
  change (is_not_path (JStr "path")) with false. send.
  rewrite capabilities_written. send.
  eexists. split; [reflexivity|]. send.
  rewrite length_app, Nat.add_1_r.
  repeat split; first [reflexivity | assumption].
Qed.


Lemma dispatch_unknown (s : State) (request : Request.t) :
  ~ In (Request.command request) known_commands ->
  dispatchRequest request s
  = Normal tt
      (set_effects
         (effects s
          ++ [console_error
                ("unknown request '" +:+ Request.command request +:+ "'")])
         (set_messages
            (messages s ++ [AResponse (Response.new request None)]) s)).
Proof.
  intros Hn. unfold dispatchRequest. send.
  repeat match goal with
         | |- context [String.eqb (Request.command request) ?c] =>
             destruct (String.eqb_spec (Request.command request) c) as [E|_];
             [ exfalso; apply Hn; rewrite E; clear;
               repeat (first [left; reflexivity | right])
             | ]
         end.
  reflexivity.
Qed.

Lemma dispatch_answering (s : State) (request : Request.t) (listener : nat) :
  In (Request.command request) answering_commands ->
  _listener s = Some listener ->
  dispatchRequest request s
  = Normal tt
      (set_effects
         (effects s
          ++ [console_info_firing (AResponse (Response.new request None));
              listener_call listener (AResponse (Response.new request None))])
         (set_messages
            (messages s ++ [AResponse (Response.new request None)]) s)).
Proof.
  intros Hin Hlis. unfold dispatchRequest. send.
  cbn [In answering_commands] in Hin.
  repeat (destruct Hin as [Hin|Hin];
          [ rewrite <- Hin; cbn [String.eqb Ascii.eqb Bool.eqb]; handlers;
            erewrite sendResponse_new by (first [reflexivity | eassumption]);
            cbn [Response.new]; rewrite Hin; reflexivity | ]).
  destruct Hin.
Qed.

Lemma is_not_path_other (pathFormat : JVal) :
  pathFormat <> JStr "path" -> is_not_path pathFormat = true.
Proof.
  intros Hne. destruct pathFormat as [| | | |p| |]; try reflexivity.
  cbn. destruct (String.eqb_spec p "path") as [->|]; [congruence|reflexivity].
Qed.

End DispatchFacts.

(** ** What the dispatcher does with a request *)

Section DispatchClaims.
Context `{host : Host} `{engine : Engine}.

(** C4, as the code has it.  For an [initialize] request whose arguments
    have [pathFormat] "path", the handler queues the [initialized] event
    with [setImmediate] and then sends the response at once: when the
    dispatcher returns, the successful response, with the [seq] of the
    request as [request_seq] and every capability flag present and
    boolean, has reached the transport and the event has not; the event
    reaches it after the response, when its queued callback runs. *)
Theorem initialize_response_then_event (s : State) (request : Request.t)
  (args : JObject) (listener : nat) :
  Request.command request = "initialize" ->
  Request.arguments request = JObj args ->
  obj_get args "pathFormat" = JStr "path" ->
  _listener s = Some listener ->
  let r := Response.mk 0 "response" (Request.seq request) true "initialize"
             None (Some initialize_body) in
  exists s' event s'',
    dispatchRequest request s = Normal tt s'
    /\ delivered (effects s') = delivered (effects s) ++ [AResponse r]
    /\ immediates s' = immediates s ++ [send_event event]
    /\ run_task (send_event event) s' = Normal tt s''
    /\ delivered (effects s'')
       = delivered (effects s) ++ [AResponse r; AnEvent initialized_event]
    /\ map fst initialize_body = map fst capabilities
    /\ Forall (fun p => exists b, snd p = JBool b) initialize_body.
Proof.
  intros Hc Hargs Hp Hlis r.
  destruct (dispatch_initialize_path s request
              (obj_get args "linesStartAt1") (obj_get args "columnsStartAt1")
              listener)
    as (s' & Hrun & Heff & Hmsg & Himm & Hlis' & _);
    try (rewrite Hargs; cbn [prop]; congruence); try assumption.
  assert (messages s' !! S (length (messages s))
          = Some (AnEvent initialized_event)) as Hevent.
  { rewrite Hmsg. rewrite lookup_app_r by lia.
    replace (S (length (messages s)) - length (messages s))%nat
      with 1%nat by lia.
    reflexivity. }
  destruct (_send_at s' "event" _ _ listener Hevent Hlis') as [Hsend _].
  eexists s', (S (length (messages s))), _.
  split; [exact Hrun|].
  split; [rewrite Heff, delivered_app; reflexivity|].
  split; [exact Himm|].
  split; [exact Hsend|].
  split.
  { cbn [effects set_effects]. rewrite Heff, !delivered_app, <- app_assoc.
    reflexivity. }
  split; [reflexivity|].
  unfold initialize_body. induction capabilities as [|c cs IH].
  - constructor.
  - constructor; [eexists; reflexivity|exact IH].
Qed.

(** C5.  For an [initialize] request whose arguments have a [pathFormat]
    other than "path", the dispatcher delivers exactly one message, a
    response with [success] false whose [body] is the error alone: the
    structured message 2018 with [sendTelemetry] set and [showUser] not
    set, and no capability.  No [initialized] event is queued. *)
Theorem initialize_rejects_other_path_formats (s : State)
  (request : Request.t) (args : JObject) (listener : nat) :
  Request.command request = "initialize" ->
  Request.arguments request = JObj args ->
  obj_get args "pathFormat" <> JStr "path" ->
  _listener s = Some listener ->
  exists s' r error,
    dispatchRequest request s = Normal tt s'
    /\ delivered (effects s') = delivered (effects s) ++ [AResponse r]
    /\ immediates s' = immediates s
    /\ Response.success r = false
    /\ Response.request_seq r = Request.seq request
    /\ Response.command r = Request.command request
    /\ Response.body r = Some [("error", JObj error)]
    /\ obj_get error "id" = JNum 2018
    /\ obj_get error "sendTelemetry" = JBool true
    /\ obj_get error "showUser" = JUndefined.
Proof.
  intros Hc Hargs Hp Hlis.
  destruct (dispatch_initialize_error s request
              (obj_get args "linesStartAt1") (obj_get args "columnsStartAt1")
              (obj_get args "pathFormat") listener)
    as (s' & Hrun & Heff & Hmsg & Himm & _);
    try (rewrite Hargs; reflexivity); try assumption.
  { now apply is_not_path_other. }
  eexists s', _, native_paths_error.
  split; [exact Hrun|].
  split; [rewrite Heff, delivered_app; reflexivity|].
  split; [exact Himm|].
  repeat split. cbn. now rewrite Hc.
Qed.

(** C9.  A request whose command is none of the 41 that the dispatcher
    knows makes it log "unknown request" as an error and return: no
    message reaches the transport and none is queued, and the adapter is
    left as it was, so that a following request whose handler answers is
    answered as usual. *)
Theorem unknown_command_is_dropped (s : State) (request : Request.t) :
  ~ In (Request.command request) known_commands ->
  exists s',
    dispatchRequest request s = Normal tt s'
    /\ effects s'
       = effects s
         ++ [console_error
               ("unknown request '" +:+ Request.command request +:+ "'")]
    /\ delivered (effects s') = delivered (effects s)
    /\ immediates s' = immediates s
    /\ _listener s' = _listener s
    /\ _variableHandles s' = _variableHandles s
    /\ variables s' = variables s
    /\ (forall (next : Request.t) (listener : nat),
          _listener s = Some listener ->
          In (Request.command next) answering_commands ->
          exists s'',
            dispatchRequest next s' = Normal tt s''
            /\ delivered (effects s'')
               = delivered (effects s)
                 ++ [AResponse (Response.new next None)]).
Proof.
  intros Hn. eexists. split; [apply dispatch_unknown, Hn|].
  cbn [effects immediates _listener _variableHandles variables
       set_effects set_messages].
  split; [reflexivity|].
  split; [rewrite delivered_app; cbn; apply app_nil_r|].
  do 4 (split; [reflexivity|]).
  intros next listener Hlis Hin. eexists.
  split; [apply dispatch_answering; [exact Hin|exact Hlis]|].
  cbn [effects set_effects set_messages].
  rewrite !delivered_app. cbn. now rewrite app_nil_r.
Qed.

(** C10.  The dispatcher assigns the client's line and column origins
    from a boolean [linesStartAt1] and [columnsStartAt1] before it looks
    at [pathFormat]: an [initialize] request that is refused for its
    [pathFormat] has changed them all the same. *)
Theorem initialize_sets_origins_before_validation (s : State)
  (request : Request.t) (args : JObject) (listener : nat) :
  Request.command request = "initialize" ->
  Request.arguments request = JObj args ->
  obj_get args "pathFormat" <> JStr "path" ->
  _listener s = Some listener ->
  exists s' r,
    dispatchRequest request s = Normal tt s'
    /\ delivered (effects s') = delivered (effects s) ++ [AResponse r]
    /\ Response.success r = false
    /\ _clientLinesStartAt1 s'
       = origin_after (obj_get args "linesStartAt1") (_clientLinesStartAt1 s)
    /\ _clientColumnsStartAt1 s'
       = origin_after (obj_get args "columnsStartAt1")
           (_clientColumnsStartAt1 s)
    /\ (forall b, obj_get args "linesStartAt1" = JBool b ->
        _clientLinesStartAt1 s' = b)
    /\ (forall b, obj_get args "columnsStartAt1" = JBool b ->
        _clientColumnsStartAt1 s' = b).
Proof.
  intros Hc Hargs Hp Hlis.
  destruct (dispatch_initialize_error s request
              (obj_get args "linesStartAt1") (obj_get args "columnsStartAt1")
              (obj_get args "pathFormat") listener)
    as (s' & Hrun & Heff & Hmsg & Himm & Hlines & Hcolumns);
    try (rewrite Hargs; reflexivity); try assumption.
  { now apply is_not_path_other. }
  eexists s', _.
  split; [exact Hrun|].
  split; [rewrite Heff, delivered_app; reflexivity|].
  split; [reflexivity|].
  split; [exact Hlines|].
  split; [exact Hcolumns|].
  split; intros b Hb.
  - rewrite Hlines, Hb. reflexivity.
  - rewrite Hcolumns, Hb. reflexivity.
Qed.

End DispatchClaims.

(** *** The scenarios of the specification *)

(** C4 as stated fails on the first scenario: when the dispatcher
    returns, the response has reached the transport and the [initialized]
    event is still queued; the next turn of the event loop delivers it,
    after the response. *)
Lemma initialized_event_follows_response :
  let request :=
    Request.mk 1 "initialize"
      (JObj [("pathFormat", JStr "path"); ("linesStartAt1", JBool true);
             ("columnsStartAt1", JBool true)]) in
  let s' :=
    final (handleMessage (host := plain_host)
             (engine := DebugProtocolAdapter_engine) (InRequest request)
             listening_adapter) in
  let r := Response.mk 0 "response" 1 true "initialize" None
             (Some initialize_body) in
  delivered (effects s') = [AResponse r]
  /\ immediates s' = [send_event 1%nat]
  /\ delivered (effects (final (run_immediates s')))
     = [AResponse r; AnEvent initialized_event].
Proof. repeat split; reflexivity. Qed.

Lemma initialize_response_then_event_scenario :
  let s := listening_adapter in
  let args := [("pathFormat", JStr "path"); ("linesStartAt1", JBool true);
               ("columnsStartAt1", JBool true)] in
  let request := Request.mk 1 "initialize" (JObj args) in
  let listener := 0%nat in
  let r := Response.mk 0 "response" (Request.seq request) true "initialize"
             None (Some initialize_body) in
  Request.command request = "initialize"
  /\ Request.arguments request = JObj args
  /\ obj_get args "pathFormat" = JStr "path"
  /\ _listener s = Some listener
  /\ exists s' event s'',
    dispatchRequest (host := plain_host)
      (engine := DebugProtocolAdapter_engine) request s = Normal tt s'
    /\ delivered (effects s') = delivered (effects s) ++ [AResponse r]
    /\ immediates s' = immediates s ++ [send_event event]
    /\ run_task (send_event event) s' = Normal tt s''
    /\ delivered (effects s'')
       = delivered (effects s) ++ [AResponse r; AnEvent initialized_event]
    /\ map fst initialize_body = map fst capabilities
    /\ Forall (fun p => exists b, snd p = JBool b) initialize_body.
Proof.
  cbv zeta. do 4 (split; [reflexivity|]).
  exact (initialize_response_then_event (host := plain_host)
           (engine := DebugProtocolAdapter_engine) listening_adapter
           (Request.mk 1 "initialize"
              (JObj [("pathFormat", JStr "path");
                     ("linesStartAt1", JBool true);
                     ("columnsStartAt1", JBool true)]))
           _ 0%nat eq_refl eq_refl eq_refl eq_refl).
Defined.

Lemma uri_is_not_path : JStr "uri" <> JStr "path".
Proof. discriminate. Qed.

Lemma initialize_rejects_uri :
  let s := listening_adapter in
  let args := [("pathFormat", JStr "uri"); ("linesStartAt1", JBool false)] in
  let request := Request.mk 1 "initialize" (JObj args) in
  let listener := 0%nat in
  Request.command request = "initialize"
  /\ Request.arguments request = JObj args
  /\ obj_get args "pathFormat" <> JStr "path"
  /\ _listener s = Some listener
  /\ exists s' r error,
    dispatchRequest (host := plain_host)
      (engine := DebugProtocolAdapter_engine) request s = Normal tt s'
    /\ delivered (effects s') = delivered (effects s) ++ [AResponse r]
    /\ immediates s' = immediates s
    /\ Response.success r = false
    /\ Response.request_seq r = Request.seq request
    /\ Response.command r = Request.command request
    /\ Response.body r = Some [("error", JObj error)]
    /\ obj_get error "id" = JNum 2018
    /\ obj_get error "sendTelemetry" = JBool true
    /\ obj_get error "showUser" = JUndefined.
Proof.
  cbv zeta. do 2 (split; [reflexivity|]).
  split; [exact uri_is_not_path|]. split; [reflexivity|].
  exact (initialize_rejects_other_path_formats (host := plain_host)
           (engine := DebugProtocolAdapter_engine) listening_adapter
           (Request.mk 1 "initialize"
              (JObj [("pathFormat", JStr "uri");
                     ("linesStartAt1", JBool false)]))
           _ 0%nat eq_refl eq_refl uri_is_not_path eq_refl).
Defined.

Lemma initialize_sets_origins_with_uri :
  let s := listening_adapter in
  let args := [("pathFormat", JStr "uri"); ("linesStartAt1", JBool false)] in
  let request := Request.mk 1 "initialize" (JObj args) in
  let listener := 0%nat in
  Request.command request = "initialize"
  /\ Request.arguments request = JObj args
  /\ obj_get args "pathFormat" <> JStr "path"
  /\ _listener s = Some listener
  /\ exists s' r,
    dispatchRequest (host := plain_host)
      (engine := DebugProtocolAdapter_engine) request s = Normal tt s'
    /\ delivered (effects s') = delivered (effects s) ++ [AResponse r]
    /\ Response.success r = false
    /\ _clientLinesStartAt1 s'
       = origin_after (obj_get args "linesStartAt1") (_clientLinesStartAt1 s)
    /\ _clientColumnsStartAt1 s'
       = origin_after (obj_get args "columnsStartAt1")
           (_clientColumnsStartAt1 s)
    /\ (forall b, obj_get args "linesStartAt1" = JBool b ->
        _clientLinesStartAt1 s' = b)
    /\ (forall b, obj_get args "columnsStartAt1" = JBool b ->
        _clientColumnsStartAt1 s' = b).
Proof.
  cbv zeta. do 2 (split; [reflexivity|]).
  split; [exact uri_is_not_path|]. split; [reflexivity|].
  exact (initialize_sets_origins_before_validation (host := plain_host)
           (engine := DebugProtocolAdapter_engine) listening_adapter
           (Request.mk 1 "initialize"
              (JObj [("pathFormat", JStr "uri");
                     ("linesStartAt1", JBool false)]))
           _ 0%nat eq_refl eq_refl uri_is_not_path eq_refl).
Defined.

Lemma frobnicate_is_unknown : ~ In "frobnicate" known_commands.
Proof.
  intros Hin. cbn in Hin.
  repeat (destruct Hin as [Hin|Hin]; [discriminate|]). exact Hin.
Qed.

Lemma unknown_command_frobnicate :
  let s := listening_adapter in
  let request := Request.mk 7 "frobnicate" JUndefined in
  ~ In (Request.command request) known_commands
  /\ exists s',
    dispatchRequest (host := plain_host)
      (engine := DebugProtocolAdapter_engine) request s = Normal tt s'
    /\ effects s'
       = effects s
         ++ [console_error
               ("unknown request '" +:+ Request.command request +:+ "'")]
    /\ delivered (effects s') = delivered (effects s)
    /\ immediates s' = immediates s
    /\ _listener s' = _listener s
    /\ _variableHandles s' = _variableHandles s
    /\ variables s' = variables s
    /\ (forall (next : Request.t) (listener : nat),
          _listener s = Some listener ->
          In (Request.command next) answering_commands ->
          exists s'',
            dispatchRequest (host := plain_host)
      (engine := DebugProtocolAdapter_engine) next s' = Normal tt s''
            /\ delivered (effects s'')
               = delivered (effects s)
                 ++ [AResponse (Response.new next None)]).
Proof.
  cbv zeta. split; [exact frobnicate_is_unknown|].
  exact (unknown_command_is_dropped (host := plain_host)
           (engine := DebugProtocolAdapter_engine) listening_adapter
           (Request.mk 7 "frobnicate" JUndefined) frobnicate_is_unknown).
Defined.

(** C2, at a failing input: an [initialize] request, the next turn of
    the event loop and a [launch] request put three different messages on
    the transport, and each of them carries [seq] 0: [_send] assigns no
    sequence number. *)
Theorem outbound_messages_share_seq_0 :
  let initialize :=
    Request.mk 1 "initialize"
      (JObj [("pathFormat", JStr "path"); ("linesStartAt1", JBool true);
             ("columnsStartAt1", JBool true)]) in
  let launch := Request.mk 2 "launch" (JObj []) in
  let session :=
    (handleMessage (host := plain_host)
       (engine := DebugProtocolAdapter_engine) (InRequest initialize) ;;
     run_immediates ;;
     handleMessage (host := plain_host)
       (engine := DebugProtocolAdapter_engine) (InRequest launch))%method in
  let sent := delivered (effects (final (session listening_adapter))) in
  sent = [AResponse (Response.mk 0 "response" 1 true "initialize" None
                       (Some initialize_body));
          AnEvent initialized_event;
          AResponse (Response.new launch None)]
  /\ map message_seq sent = [0; 0; 0].
Proof. split; reflexivity. Qed.

(** * Part III: further properties *)

(** ** Runs of the handle table *)

Module HandleRunsFacts.
Import Handles HandleRuns.

Section Table.
Context {T : Type} `{Truthy T}.

Lemma bound_run (cs : list (call T)) : forall (g : list (Z * T)) (h : t T),
  bound g h -> bound (bindings g cs (run h cs).1) (run h cs).2.
Proof.
  induction cs as [|c cs IH]; intros g h Hb; [exact Hb|].
  cbn [run]. destruct c as [v| |n d]; cbn [step].
  - destruct (create v h) as [k h'] eqn:Ec.
    assert (bound ((k, v) :: g) h') as Hb'.
    { unfold create in Ec. injection Ec as <- <-. destruct Hb as [Hm Hlt].
      split; intros n w Hin; cbn.
      - apply elem_of_cons in Hin as [E|Hin].
        + injection E as -> ->. apply lookup_insert_eq.
        + rewrite lookup_insert_ne; [eauto|]. apply Hlt in Hin. lia.
      - apply elem_of_cons in Hin as [E|Hin].
        + injection E as -> ->. lia.
        + apply Hlt in Hin. lia. }
    specialize (IH _ _ Hb'). destruct (run h' cs) as [rs h'']. exact IH.
  - assert (bound [] (reset h)) as Hb'.
    { split; intros n w Hin; inversion Hin. }
    specialize (IH _ _ Hb'). destruct (run (reset h) cs) as [rs h''].
    exact IH.
  - specialize (IH _ _ Hb). destruct (run h cs) as [rs h'']. exact IH.
Qed.

(** X1. Within a generation, as long as the handles stay below 2^53
    ([counts_exactly]), [get] on a handle that [create] returned gives the
    value it was created for (or the default, if that value is falsy),
    whatever was created or looked up since. *)
Theorem get_created (b : option Z) (cs : list (call T)) (n : Z) (v : T)
  (d : option T) :
  counts_exactly b cs ->
  (n, v) ∈ bindings [] cs (run (new b) cs).1 ->
  get n d (run (new b) cs).2 = if truthy v then Some v else d.
Proof.
  intros _ Hin.
  assert (bound [] (new (T := T) b)) as Hb.
  { split; intros k w Hk; inversion Hk. }
  destruct (bound_run cs _ _ Hb) as [Hm _].
  unfold get. rewrite (Hm _ _ Hin). reflexivity.
Qed.

Lemma consecutive_run (cs : list (call T)) :
  forall (base : Z) (g : list Z) (h : t T),
  consecutive base g h ->
  consecutive (if has_reset cs then startHandle else base)
    (live g (run h cs).1) (run h cs).2.
Proof.
  induction cs as [|c cs IH]; intros base g h Hc; [exact Hc|].
  cbn [run]. destruct c as [v| |n d]; cbn [step has_reset existsb orb].
  - destruct (create v h) as [k h'] eqn:Ec.
    assert (consecutive base (k :: g) h') as Hc'.
    { unfold create in Ec. injection Ec as <- <-. destruct Hc as [Hrev Hnext].
      split; cbn [rev length _nextHandle].
      - rewrite seq_S, map_app, <- Hrev, Hnext. reflexivity.
      - rewrite Hnext. lia. }
    specialize (IH _ _ _ Hc'). fold (has_reset cs).
    destruct (run h' cs) as [rs h'']. exact IH.
  - assert (consecutive startHandle [] (reset h)) as Hc'.
    { split; [reflexivity|]. cbn. lia. }
    specialize (IH _ _ _ Hc').
    destruct (run (reset h) cs) as [rs h''].
    destruct (has_reset cs); exact IH.
  - specialize (IH _ _ _ Hc). fold (has_reset cs).
    destruct (run h cs) as [rs h'']. exact IH.
Qed.

(** X2. As long as the handles stay below 2^53 ([counts_exactly]), the
    handles of a generation are consecutive integers: they start at the
    base given to the constructor (1000 if none was given, and 1000 after
    any [reset]), and the next handle is the base plus their number. *)
Theorem handles_are_consecutive (b : option Z) (cs : list (call T)) :
  counts_exactly b cs ->
  let rs := (run (new b) cs).1 in
  let h := (run (new b) cs).2 in
  let base := if has_reset cs then 1000
              else match b with Some n => n | None => 1000 end in
  rev (live [] rs)
  = map (fun i => base + Z.of_nat i) (seq 0 (length (live [] rs)))
  /\ _nextHandle h = base + Z.of_nat (length (live [] rs)).
Proof.
  intros _. cbv zeta.
  assert (consecutive (match b with Some n => n | None => 1000 end) []
            (new (T := T) b)) as Hc.
  { split; [reflexivity|]. cbn. destruct b; unfold startHandle; lia. }
  exact (consecutive_run cs _ _ _ Hc).
Qed.

End Table.

(** Two handles made on a fresh table; the second is looked up. *)
Lemma get_created_second_handle :
  let cs := [Create locals; Create (variable 0)] in
  counts_exactly None cs
  /\ (1001, variable 0) ∈ bindings [] cs (run (new None) cs).1
  /\ get 1001 None (run (new None) cs).2
     = if truthy (variable 0) then Some (variable 0) else None.
Proof.
  cbv zeta.
  assert (counts_exactly None [Create locals; Create (variable 0)]) as Hc
    by (unfold counts_exactly; cbn; unfold startHandle, two_53; lia).
  assert ((1001, variable 0)
          ∈ bindings [] [Create locals; Create (variable 0)]
              (run (new None) [Create locals; Create (variable 0)]).1)
    as Hin by apply list_elem_of_here.
  split; [exact Hc|]. split; [exact Hin|].
  exact (get_created None [Create locals; Create (variable 0)] 1001
           (variable 0) None Hc Hin).
Defined.

(** A table built with base 5: a handle, a reset, and two handles more,
    which are 1000 and 1001. *)
Lemma handles_are_consecutive_after_a_reset :
  let cs := [Create locals; Reset; Create locals; Create (variable 0)] in
  let rs := (run (new (Some 5)) cs).1 in
  let h := (run (new (Some 5)) cs).2 in
  let base := if has_reset cs then 1000 else 5 in
  counts_exactly (Some 5) cs
  /\ rev (live [] rs)
     = map (fun i => base + Z.of_nat i) (seq 0 (length (live [] rs)))
  /\ _nextHandle h = base + Z.of_nat (length (live [] rs)).
Proof.
  cbv zeta.
  assert (counts_exactly (Some 5)
            [Create locals; Reset; Create locals; Create (variable 0)])
    as Hc by (unfold counts_exactly; cbn; unfold startHandle, two_53; lia).
  split; [exact Hc|].
  exact (handles_are_consecutive (Some 5)
           [Create locals; Reset; Create locals; Create (variable 0)] Hc).
Defined.

End HandleRunsFacts.

(** ** [formatPII] *)

Lemma append_cons (c : ascii) (a b : string) :
  String c a +:+ b = String c (a +:+ b).
Proof. reflexivity. Qed.

Lemma append_empty_l (b : string) : EmptyString +:+ b = b.
Proof. reflexivity. Qed.

Lemma append_assoc (a b c : string) : (a +:+ b) +:+ c = a +:+ (b +:+ c).
Proof.
  induction a as [|x a IH]; [reflexivity|].
  rewrite !append_cons. now rewrite IH.
Qed.

Lemma append_nil_r (a : string) : a +:+ EmptyString = a.
Proof.
  induction a as [|x a IH]; [reflexivity|].
  rewrite append_cons. now rewrite IH.
Qed.

(** A callback that returns the match leaves the format as it is. *)
Lemma replace_placeholders_unchanged (f : string -> string -> string)
  (format : string) :
  (forall name, name <> EmptyString ->
     f ("{" +:+ name +:+ "}") name = "{" +:+ name +:+ "}") ->
  forall pending,
    replace_placeholders f pending format = unfinished pending +:+ format.
Proof.
  intros Hf. induction format as [|c rest IH]; intros pending.
  - destruct pending; cbn [replace_placeholders unfinished];
      [now rewrite append_nil_r|reflexivity].
  - destruct pending as [name|]; cbn [replace_placeholders unfinished].
    + destruct (Ascii.eqb_spec c "}") as [->|Hc].
      * destruct (String.eqb_spec name EmptyString) as [->|Hn].
        -- rewrite IH. reflexivity.
        -- rewrite (Hf _ Hn), IH. cbn [unfinished].
           rewrite !append_cons, !append_empty_l, !append_assoc.
           reflexivity.
      * rewrite IH. cbn [unfinished].
        rewrite !append_cons, !append_empty_l, !append_assoc. reflexivity.
    + destruct (Ascii.eqb_spec c "{") as [->|Hc]; rewrite IH; reflexivity.
Qed.

Lemma obj_get_absent (o : JObject) (k : string) :
  hasOwnProperty o k = false -> obj_get o k = JUndefined.
Proof.
  induction o as [|[k' v] o IH]; [reflexivity|]. cbn.
  destruct (String.eqb k' k); [discriminate|exact IH].
Qed.

Lemma not_underscored_absent (o : JObject) (k : string) :
  Forall (fun p => underscored (fst p) = false) o ->
  underscored k = true ->
  hasOwnProperty o k = false.
Proof.
  intros Ho Hk. induction Ho as [|[k' v] o Hk' Ho IH]; [reflexivity|].
  cbn [hasOwnProperty fst] in *. rewrite IH, orb_false_r.
  destruct (String.eqb_spec k' k) as [->|]; [congruence|reflexivity].
Qed.

(** X3. With [excludePII] set, and arguments that are strings (or no
    arguments), none of them called [hasOwnProperty], a format is returned
    as it is when no property of the arguments has a name that starts with
    an underscore: no placeholder is filled in. *)
Theorem formatPII_keeps_what_is_not_underscored (format : string)
  (args : JVal) :
  string_arguments args = true ->
  Forall (fun p => underscored (fst p) = false) (safeArgs_of args) ->
  formatPII format true args = format.
Proof.
  intros _ Ho. unfold formatPII.
  rewrite replace_placeholders_unchanged; [reflexivity|].
  intros name Hname. unfold formatPII_replacer. cbn [andb].
  destruct name as [|c name]; [congruence|].
  cbn [String.length Nat.ltb Nat.leb andb].
  fold (underscored (String c name)).
  destruct (underscored (String c name)) eqn:Hu; cbn [negb]; [|reflexivity].
  rewrite (obj_get_absent _ _ (not_underscored_absent _ _ Ho Hu)).
  reflexivity.
Qed.

Lemma replace_placeholders_prefix (f : string -> string -> string)
  (pre rest : string) :
  lacks "{" pre = true ->
  replace_placeholders f None (pre +:+ rest)
  = pre +:+ replace_placeholders f None rest.
Proof.
  induction pre as [|c pre IH]; intros Hpre; [reflexivity|].
  cbn [lacks] in Hpre. apply andb_true_iff in Hpre as [Hc Hpre].
  rewrite !append_cons. cbn [replace_placeholders].
  apply negb_true_iff in Hc. rewrite Hc, (IH Hpre). reflexivity.
Qed.

Lemma replace_placeholders_name (f : string -> string -> string)
  (name post : string) : forall seen : string,
  lacks "}" name = true ->
  seen +:+ name <> EmptyString ->
  replace_placeholders f (Some seen) (name +:+ "}" +:+ post)
  = f ("{" +:+ (seen +:+ name) +:+ "}") (seen +:+ name)
    +:+ replace_placeholders f None post.
Proof.
  induction name as [|c name IH]; intros seen Hname Hne.
  - rewrite append_nil_r in *. rewrite append_empty_l, append_cons.
    cbn [replace_placeholders]. rewrite append_empty_l.
    change (Ascii.eqb "}" "}") with true. cbv iota.
    destruct (String.eqb_spec seen EmptyString) as [->|_]; [congruence|].
    reflexivity.
  - cbn [lacks] in Hname. apply andb_true_iff in Hname as [Hc Hname].
    apply negb_true_iff in Hc.
    rewrite append_cons. cbn [replace_placeholders]. rewrite Hc.
    assert (seen +:+ String c name = (seen +:+ String c EmptyString) +:+ name)
      as E by (now rewrite append_assoc).
    rewrite E in *. apply IH; assumption.
Qed.

Lemma obj_get_own (o : JObject) (k : string) (v : string) :
  obj_get o k = JStr v -> hasOwnProperty o k = true.
Proof.
  intros Hget. destruct (hasOwnProperty o k) eqn:E; [reflexivity|].
  rewrite (obj_get_absent _ _ E) in Hget. discriminate.
Qed.

(** X4. With arguments that are strings, none of them called
    [hasOwnProperty], the first placeholder of a format is replaced by the
    argument of its name when that is a non-empty string, unless
    [excludePII] is set and the name does not start with an underscore;
    the text before it is kept and the rest is formatted in the same
    way. *)
Theorem formatPII_substitutes (pre name post value : string)
  (excludePII : bool) (o : JObject) :
  string_arguments (JObj o) = true ->
  lacks "{" pre = true ->
  lacks "}" name = true ->
  name <> EmptyString ->
  obj_get o name = JStr value ->
  value <> EmptyString ->
  formatPII (pre +:+ "{" +:+ name +:+ "}" +:+ post) excludePII (JObj o)
  = pre
    +:+ (if excludePII && negb (underscored name)
         then "{" +:+ name +:+ "}" else value)
    +:+ formatPII post excludePII (JObj o).
Proof.
  intros _ Hpre Hname Hne Hget Hvalue. unfold formatPII.
  rewrite replace_placeholders_prefix by exact Hpre.
  rewrite append_cons, append_empty_l. cbn [replace_placeholders].
  change (Ascii.eqb "{" "{") with true. cbv iota.
  rewrite replace_placeholders_name by (rewrite ?append_empty_l; assumption).
  rewrite !append_empty_l. f_equal. f_equal.
  unfold formatPII_replacer. cbn [safeArgs_of].
  destruct name as [|c name]; [congruence|].
  cbn [String.length Nat.ltb Nat.leb]. rewrite andb_true_r.
  fold (underscored (String c name)).
  destruct (excludePII && negb (underscored (String c name))) eqn:E.
  - rewrite !append_cons, !append_empty_l. reflexivity.
  - rewrite Hget, (obj_get_own _ _ _ Hget), andb_true_r. cbn [truthy].
    destruct (String.eqb_spec value EmptyString); [congruence|reflexivity].
Qed.

Lemma formatPII_keeps_name :
  let format := "Hello {name}" in
  let args := JObj [("name", JStr "x")] in
  string_arguments args = true
  /\ Forall (fun p => underscored (fst p) = false) (safeArgs_of args)
  /\ formatPII format true args = format.
Proof.
  cbv zeta.
  assert (Forall (fun p => underscored (fst p) = false)
            (safeArgs_of (JObj [("name", JStr "x")]))) as Hargs
    by (repeat constructor).
  split; [reflexivity|]. split; [exact Hargs|].
  exact (formatPII_keeps_what_is_not_underscored "Hello {name}"
           (JObj [("name", JStr "x")]) eq_refl Hargs).
Defined.

Lemma path_placeholder_is_named : "_path" <> EmptyString.
Proof. discriminate. Qed.

Lemma a_md_is_not_empty : "a.md" <> EmptyString.
Proof. discriminate. Qed.

Lemma formatPII_substitutes_path :
  let o := [("_path", JStr "a.md")] in
  string_arguments (JObj o) = true
  /\ lacks "{" "file " = true
  /\ lacks "}" "_path" = true
  /\ "_path" <> EmptyString
  /\ obj_get o "_path" = JStr "a.md"
  /\ "a.md" <> EmptyString
  /\ formatPII ("file " +:+ "{" +:+ "_path" +:+ "}" +:+ " not found") true
       (JObj o)
     = "file "
       +:+ (if true && negb (underscored "_path")
            then "{" +:+ "_path" +:+ "}" else "a.md")
       +:+ formatPII " not found" true (JObj o).
Proof.
  cbv zeta.
  split; [reflexivity|]. split; [reflexivity|]. split; [reflexivity|].
  split; [exact path_placeholder_is_named|]. split; [reflexivity|].
  split; [exact a_md_is_not_empty|].
  exact (formatPII_substitutes "file " "_path" " not found" "a.md" true
           [("_path", JStr "a.md")] eq_refl eq_refl eq_refl
           path_placeholder_is_named eq_refl a_md_is_not_empty).
Defined.

(** ** Sending without and with a listener *)

(** [sendResponse] on a response not sent before, whoever listens. *)
Lemma sendResponse_unsent (s : State) (l : loc) (r : Response.t) :
  messages s !! l = Some (AResponse r) ->
  Response.seq r <= 0 ->
  let m := AResponse (Response.set_type "response" r) in
  sendResponse l s
  = Normal tt
      (set_effects
         (effects s
          ++ [console_info_firing m;
              match _listener s with
              | Some listener => listener_call listener m
              | None => console_warn "No listener to fire to"
              end])
         (set_messages (<[l := m]> (messages s)) s)).
Proof.
  intros Hm Hseq m. pose proof (lookup_lt_Some _ _ _ Hm) as Hlt.
  assert ((0 <? Response.seq r) = false) as Hguard by (apply Z.ltb_ge; lia).
  unfold sendResponse. send.
  rewrite list_insert_insert_eq.
  destruct (_listener s); send; destruct r; reflexivity.
Qed.

(** X5. A response sent while no listener is registered is lost: the
    adapter warns on the console, delivers nothing and queues nothing, and
    a listener registered afterwards does not receive it. *)
Theorem response_without_listener_is_lost (s : State) (l : loc)
  (r : Response.t) (later : nat) :
  messages s !! l = Some (AResponse r) ->
  Response.seq r <= 0 ->
  _listener s = None ->
  exists s' s'',
    sendResponse l s = Normal tt s'
    /\ effects s'
       = effects s
         ++ [console_info_firing
               (AResponse (Response.set_type "response" r));
             console_warn "No listener to fire to"]
    /\ delivered (effects s') = delivered (effects s)
    /\ immediates s' = immediates s
    /\ onDidSendMessage later s' = Normal tt s''
    /\ delivered (effects s'') = delivered (effects s)
    /\ immediates s'' = immediates s.
Proof.
  intros Hm Hseq Hlis. eexists _, _.
  split; [apply sendResponse_unsent; eassumption|].
  rewrite Hlis. cbn [effects set_effects immediates set_messages].
  split; [reflexivity|].
  split; [rewrite delivered_app; cbn; apply app_nil_r|].
  split; [reflexivity|].
  split; [reflexivity|].
  cbn. split; [|reflexivity].
  rewrite !delivered_app. cbn. now rewrite !app_nil_r.
Qed.

(** X6. The emitter keeps one listener: after a second registration only
    the second listener receives a response, and it receives it once. *)
Theorem new_listener_replaces_the_old (s : State) (l : loc) (r : Response.t)
  (old new : nat) :
  messages s !! l = Some (AResponse r) ->
  Response.seq r <= 0 ->
  let m := AResponse (Response.set_type "response" r) in
  exists s',
    (onDidSendMessage old ;; onDidSendMessage new ;; sendResponse l) s
    = Normal tt s'
    /\ effects s'
       = effects s
         ++ [console_log_listener old; console_log_listener new;
             console_info_firing m; listener_call new m]
    /\ delivered (effects s') = delivered (effects s) ++ [m].
Proof.
  intros Hm Hseq m. eexists. split.
  - unfold bind, onDidSendMessage, modify, log. cbv beta iota.
    apply sendResponse_unsent; [exact Hm|exact Hseq].
  - cbn. rewrite <- !app_assoc. split; [reflexivity|].
    rewrite delivered_app. reflexivity.
Qed.

(** The response to a [launch] request, in the store of an adapter
    nobody listens to. *)
Lemma response_without_listener_launch :
  let r := Response.new (Request.mk 1 "launch" (JObj [])) None in
  let s := set_messages [AResponse r] (new_DebugProtocolAdapter None) in
  messages s !! 0%nat = Some (AResponse r)
  /\ Response.seq r <= 0
  /\ _listener s = None
  /\ exists s' s'',
       sendResponse 0 s = Normal tt s'
       /\ effects s'
          = effects s
            ++ [console_info_firing
                  (AResponse (Response.set_type "response" r));
                console_warn "No listener to fire to"]
       /\ delivered (effects s') = delivered (effects s)
       /\ immediates s' = immediates s
       /\ onDidSendMessage 0 s' = Normal tt s''
       /\ delivered (effects s'') = delivered (effects s)
       /\ immediates s'' = immediates s.
Proof.
  cbv zeta.
  assert (Response.seq (Response.new (Request.mk 1 "launch" (JObj [])) None)
          <= 0) as Hseq by (cbn; lia).
  split; [reflexivity|]. split; [exact Hseq|]. split; [reflexivity|].
  exact (response_without_listener_is_lost
           (set_messages
              [AResponse
                 (Response.new (Request.mk 1 "launch" (JObj [])) None)]
              (new_DebugProtocolAdapter None))
           0 (Response.new (Request.mk 1 "launch" (JObj [])) None) 0
           eq_refl Hseq eq_refl).
Defined.

Lemma new_listener_replaces_the_old_launch :
  let r := Response.new (Request.mk 1 "launch" (JObj [])) None in
  let s := set_messages [AResponse r] (new_DebugProtocolAdapter None) in
  let m := AResponse (Response.set_type "response" r) in
  messages s !! 0%nat = Some (AResponse r)
  /\ Response.seq r <= 0
  /\ exists s',
       (onDidSendMessage 0 ;; onDidSendMessage 1 ;; sendResponse 0) s
       = Normal tt s'
       /\ effects s'
          = effects s
            ++ [console_log_listener 0; console_log_listener 1;
                console_info_firing m; listener_call 1 m]
       /\ delivered (effects s') = delivered (effects s) ++ [m].
Proof.
  cbv zeta.
  assert (Response.seq (Response.new (Request.mk 1 "launch" (JObj [])) None)
          <= 0) as Hseq by (cbn; lia).
  split; [reflexivity|]. split; [exact Hseq|].
  exact (new_listener_replaces_the_old
           (set_messages
              [AResponse
                 (Response.new (Request.mk 1 "launch" (JObj [])) None)]
              (new_DebugProtocolAdapter None))
           0 (Response.new (Request.mk 1 "launch" (JObj [])) None) 0 1
           eq_refl Hseq).
Defined.

(** ** More of the dispatcher *)

Section DispatchMore.
Context `{host : Host} `{engine : Engine}.

(** X7. An [initialize], [stackTrace] or [variables] request without
    arguments makes [handleMessage] throw: the handler reads a property of
    [undefined]; no response is delivered, nothing is logged and nothing
    is queued. *)
Theorem request_without_arguments_throws (s : State) (request : Request.t) :
  In (Request.command request) argument_reading_commands ->
  Request.arguments request = JUndefined
  \/ Request.arguments request = JNull ->
  exists e s',
    handleMessage (InRequest request) s = Throw e s'
    /\ delivered (effects s') = delivered (effects s)
    /\ effects s' = effects s
    /\ immediates s' = immediates s.
Proof.
  intros Hin Hargs.
  cbn [In argument_reading_commands] in Hin.
  unfold handleMessage, dispatchRequest.
  destruct Hin as [Hc|[Hc|[Hc|[]]]]; rewrite <- Hc;
    cbn [String.eqb Ascii.eqb Bool.eqb];
    unfold stackTraceRequest, variablesRequest;
    destruct Hargs as [-> | ->]; send; eexists _, _;
    (split; [reflexivity|]); repeat split.
Qed.

(** X8. A [stackTrace] request with small integers for [startFrame]
    and [levels] (or none) asks the engine for the frames from
    [startFrame] (0 if it is not a number) to [startFrame + levels] (1000
    levels if it is not a number), the sum as the numbers of the source
    add, which is the sum of the integers when that is small too; it
    answers with the frames the engine returned, converted, and with the
    engine's count as [totalFrames]. *)
Theorem stackTrace_reports_the_engine_window (s : State)
  (request : Request.t) (args : JObject) (listener : nat) :
  Request.command request = "stackTrace" ->
  Request.arguments request = JObj args ->
  _listener s = Some listener ->
  small (number_or (obj_get args "startFrame") 0) ->
  small (number_or (obj_get args "levels") 1000) ->
  let startFrame := number_or (obj_get args "startFrame") 0 in
  let levels := number_or (obj_get args "levels") 1000 in
  let endFrame := Number_add startFrame levels in
  let asked :=
    set_messages (messages s ++ [AResponse (Response.new request None)]) s in
  let stk := stack startFrame endFrame asked in
  exists s' r,
    dispatchRequest request s = Normal tt s'
    /\ delivered (effects s') = delivered (effects s) ++ [AResponse r]
    /\ immediates s' = immediates s
    /\ Response.request_seq r = Request.seq request
    /\ Response.success r = true
    /\ Response.body r
       = Some [("stackFrames",
                JArr (map (stackFrame_of asked) (IRuntimeStack.frames stk)));
               ("totalFrames", JNum (IRuntimeStack.count stk))]
    /\ (small (startFrame + levels) -> endFrame = startFrame + levels).
Proof.
  intros Hc Hargs Hlis _ _ startFrame levels endFrame asked stk.
  unfold dispatchRequest. rewrite Hc. cbn [String.eqb Ascii.eqb Bool.eqb].
  unfold stackTraceRequest. rewrite Hargs. send. cbn [prop]. send.
  eexists _, _. split; [reflexivity|]. send.
  split; [rewrite delivered_app; reflexivity|].
  repeat split. apply Number_add_small.
Qed.

(** X9. A [variables] request whose reference is not a number, or a
    number to which the handle table gives nothing, is answered with an
    empty list of variables; the handle table is unchanged. *)
Theorem variables_of_an_unknown_reference_are_empty (s : State)
  (request : Request.t) (args : JObject) (listener : nat) :
  Request.command request = "variables" ->
  Request.arguments request = JObj args ->
  match obj_get args "variablesReference" with
  | JNum n => Handles.get n None (_variableHandles s) = None
  | _ => True
  end ->
  _listener s = Some listener ->
  exists s' r,
    dispatchRequest request s = Normal tt s'
    /\ delivered (effects s') = delivered (effects s) ++ [AResponse r]
    /\ immediates s' = immediates s
    /\ _variableHandles s' = _variableHandles s
    /\ Response.request_seq r = Request.seq request
    /\ Response.success r = true
    /\ Response.body r = Some [("variables", JArr [])].
Proof.
  intros Hc Hargs Href Hlis.
  unfold dispatchRequest. rewrite Hc. cbn [String.eqb Ascii.eqb Bool.eqb].
  unfold variablesRequest. rewrite Hargs. send. cbn [prop]. send.
  assert (match obj_get args "variablesReference" with
          | JNum n => Handles.get n None (_variableHandles s)
          | _ => None
          end = None) as ->.
  { destruct (obj_get args "variablesReference"); try reflexivity.
    exact Href. }
  cbn [mapM]. send.
  eexists _, _. split; [reflexivity|]. send.
  split; [rewrite delivered_app; reflexivity|].
  repeat split.
Qed.

End DispatchMore.

Lemma variables_is_argument_reading :
  In "variables" argument_reading_commands.
Proof. right. right. left. reflexivity. Qed.

Lemma variables_request_without_arguments :
  let s := listening_adapter in
  let request := Request.mk 4 "variables" JUndefined in
  In (Request.command request) argument_reading_commands
  /\ (Request.arguments request = JUndefined
      \/ Request.arguments request = JNull)
  /\ exists e s',
       handleMessage (host := plain_host)
         (engine := DebugProtocolAdapter_engine) (InRequest request) s
       = Throw e s'
       /\ delivered (effects s') = delivered (effects s)
       /\ effects s' = effects s
       /\ immediates s' = immediates s.
Proof.
  cbv zeta. split; [exact variables_is_argument_reading|].
  split; [left; reflexivity|].
  exact (request_without_arguments_throws (host := plain_host)
           (engine := DebugProtocolAdapter_engine) listening_adapter
           (Request.mk 4 "variables" JUndefined)
           variables_is_argument_reading (or_introl eq_refl)).
Defined.

Lemma stackTrace_of_the_adapter_itself :
  let s := listening_adapter in
  let args := [("threadId", JNum 1); ("startFrame", JNum 2)] in
  let request := Request.mk 5 "stackTrace" (JObj args) in
  Request.command request = "stackTrace"
  /\ Request.arguments request = JObj args
  /\ _listener s = Some 0%nat
  /\ small (number_or (obj_get args "startFrame") 0)
  /\ small (number_or (obj_get args "levels") 1000)
  /\ let startFrame := number_or (obj_get args "startFrame") 0 in
     let levels := number_or (obj_get args "levels") 1000 in
     let endFrame := Number_add startFrame levels in
     let asked :=
       set_messages (messages s ++ [AResponse (Response.new request None)])
         s in
     let stk :=
       stack (Engine := DebugProtocolAdapter_engine) startFrame endFrame
         asked in
     exists s' r,
       dispatchRequest (host := plain_host)
         (engine := DebugProtocolAdapter_engine) request s = Normal tt s'
       /\ delivered (effects s') = delivered (effects s) ++ [AResponse r]
       /\ immediates s' = immediates s
       /\ Response.request_seq r = Request.seq request
       /\ Response.success r = true
       /\ Response.body r
          = Some [("stackFrames",
                   JArr (map (stackFrame_of (host := plain_host) asked)
                           (IRuntimeStack.frames stk)));
                  ("totalFrames", JNum (IRuntimeStack.count stk))]
       /\ (small (startFrame + levels) -> endFrame = startFrame + levels).
Proof.
  cbv zeta.
  assert (small 2) as H2 by (unfold small, two_53; lia).
  assert (small 1000) as H1000 by (unfold small, two_53; lia).
  split; [reflexivity|]. split; [reflexivity|].
  split; [reflexivity|]. split; [exact H2|]. split; [exact H1000|].
  exact (stackTrace_reports_the_engine_window (host := plain_host)
           (engine := DebugProtocolAdapter_engine) listening_adapter
           (Request.mk 5 "stackTrace"
              (JObj [("threadId", JNum 1); ("startFrame", JNum 2)]))
           [("threadId", JNum 1); ("startFrame", JNum 2)] 0
           eq_refl eq_refl eq_refl H2 H1000).
Defined.

Lemma variables_of_reference_7 :
  let s := listening_adapter in
  let args := [("variablesReference", JNum 7)] in
  let request := Request.mk 6 "variables" (JObj args) in
  Request.command request = "variables"
  /\ Request.arguments request = JObj args
  /\ match obj_get args "variablesReference" with
     | JNum n => Handles.get n None (_variableHandles s) = None
     | _ => True
     end
  /\ _listener s = Some 0%nat
  /\ exists s' r,
       dispatchRequest (host := plain_host)
         (engine := DebugProtocolAdapter_engine) request s = Normal tt s'
       /\ delivered (effects s') = delivered (effects s) ++ [AResponse r]
       /\ immediates s' = immediates s
       /\ _variableHandles s' = _variableHandles s
       /\ Response.request_seq r = Request.seq request
       /\ Response.success r = true
       /\ Response.body r = Some [("variables", JArr [])].
Proof.
  cbv zeta. split; [reflexivity|]. split; [reflexivity|].
  split; [reflexivity|]. split; [reflexivity|].
  exact (variables_of_an_unknown_reference_are_empty (host := plain_host)
           (engine := DebugProtocolAdapter_engine) listening_adapter
           (Request.mk 6 "variables" (JObj [("variablesReference", JNum 7)]))
           [("variablesReference", JNum 7)] 0 eq_refl eq_refl eq_refl
           eq_refl).
Defined.

(** ** More of [convertFromRuntime] *)

Lemma indexOf_present (name : string) (n : nat) :
  substring n 4 name = "lazy" -> (0 <=? indexOf name "lazy") = true.
Proof.
  intros Hsub. unfold indexOf.
  destruct (index 0 "lazy" name) as [m|] eqn:E.
  - apply Z.leb_le. lia.
  - exfalso. refine (index_correct3 0 n _ _ E _ _ Hsub); [discriminate|lia].
Qed.

Section ConvertMore.
Context `{host : Host}.

(** X10. A variable whose name contains [lazy] and that has no reference
    yet is shown as ["lazy var"] with the lazy hint: the conversion makes
    two new runtime variables, an inner one that holds the value and an
    outer one whose only element is the inner one, and the variable's
    reference is a new handle that resolves to the outer one. *)
Theorem lazy_variable_wraps_its_value (s : State) (v : loc)
  (rv : RuntimeVariable.t) (n : nat) :
  variables s !! v = Some rv ->
  substring n 4 (RuntimeVariable.name rv) = "lazy" ->
  RuntimeVariable.reference rv = None ->
  let inner := length (variables s) in
  let outer := S inner in
  exists d s',
    convertFromRuntime v s = Normal d s'
    /\ DapVariable.value d = "lazy var"
    /\ DapVariable.presentationHint_lazy d = Some true
    /\ DapVariable.variablesReference d
       = Handles._nextHandle (_variableHandles s)
    /\ Handles.get (DapVariable.variablesReference d) None
         (_variableHandles s')
       = Some (variable outer)
    /\ variables s' !! outer
       = Some (RuntimeVariable.new EmptyString (VArray [inner]))
    /\ variables s' !! inner
       = Some (RuntimeVariable.new EmptyString (RuntimeVariable._value rv)).
Proof.
  intros Hv Hsub Href inner outer.
  pose proof (lookup_lt_Some _ _ _ Hv) as Hlt.
  pose proof (indexOf_present _ _ Hsub) as Hlazy.
  destruct (RuntimeVariable._value rv) as [x|b|str|vs] eqn:Hx;
    destruct (RuntimeVariable._memory rv) as [bytes|] eqn:Em.
  all: do 2 eexists.
  all: split; [unfold convertFromRuntime; store; reflexivity|].
  all: cbn [DapVariable.value DapVariable.presentationHint_lazy
            DapVariable.variablesReference DapVariable.set_value
            DapVariable.set_presentationHint_lazy
            DapVariable.set_variablesReference
            DapVariable.set_memoryReference].
  all: do 3 (split; [reflexivity|]).
  all: store.
  all: subst inner outer.
  all: rewrite ?length_app; cbn [length]; rewrite ?Nat.add_1_r, ?Hx.
  all: split;
    [unfold Handles.get; cbn [Handles._handleMap];
     rewrite lookup_insert_eq; reflexivity|].
  all: rewrite ?list_lookup_insert_ne by lia.
  all: rewrite <- ?app_assoc; cbn [app].
  all: split.
  all: try (rewrite lookup_app_r by lia;
            replace (S (length (variables s)) - length (variables s))%nat
              with 1%nat by lia; reflexivity).
  all: apply lookup_new.
Qed.

(** X11. A composite variable (its name without [lazy]) that has no
    reference yet is shown as ["Object"] of type ["object"]; its reference
    is a new handle that resolves to the variable itself, and the variable
    remembers that handle. *)
Theorem composite_handle_resolves_to_the_variable (s : State) (v : loc)
  (rv : RuntimeVariable.t) (vs : list loc) :
  variables s !! v = Some rv ->
  (forall n, substring n 4 (RuntimeVariable.name rv) <> "lazy") ->
  RuntimeVariable._value rv = VArray vs ->
  RuntimeVariable.reference rv = None ->
  exists d s' rv',
    convertFromRuntime v s = Normal d s'
    /\ DapVariable.value d = "Object"
    /\ DapVariable.type d = "object"
    /\ DapVariable.variablesReference d
       = Handles._nextHandle (_variableHandles s)
    /\ DapVariable.presentationHint_lazy d = None
    /\ Handles.get (DapVariable.variablesReference d) None
         (_variableHandles s')
       = Some (variable v)
    /\ variables s' !! v = Some rv'
    /\ RuntimeVariable._value rv' = VArray vs
    /\ RuntimeVariable.reference rv'
       = Some (DapVariable.variablesReference d).
Proof.
  intros Hv Hno Hx Href.
  pose proof (lookup_lt_Some _ _ _ Hv) as Hlt.
  pose proof (indexOf_absent _ Hno) as Hlazy.
  destruct (RuntimeVariable._memory rv) as [bytes|] eqn:Em.
  all: do 3 eexists.
  all: split; [unfold convertFromRuntime; store; reflexivity|].
  all: cbn [DapVariable.value DapVariable.type
            DapVariable.presentationHint_lazy
            DapVariable.variablesReference DapVariable.set_value
            DapVariable.set_variablesReference
            DapVariable.set_memoryReference typeof].
  all: do 4 (split; [reflexivity|]).
  all: store.
  all: split;
    [unfold Handles.get; cbn [Handles._handleMap];
     rewrite lookup_insert_eq; reflexivity|].
  all: split; [reflexivity|].
  all: cbn [RuntimeVariable._value RuntimeVariable.reference
            RuntimeVariable.set_reference].
  all: split; [exact Hx|reflexivity].
Qed.

(** X12. The bytes of a runtime variable are computed once: reading
    [memory] a second time returns the same bytes and changes nothing;
    they are the UTF-8 bytes of a string value encoded at the first read,
    the bytes already held otherwise, and absent for a value that is not
    a string. *)
Theorem memory_is_computed_once (s : State) (v : loc)
  (rv : RuntimeVariable.t) :
  variables s !! v = Some rv ->
  exists memory s',
    RuntimeVariable_memory v s = Normal memory s'
    /\ RuntimeVariable_memory v s' = Normal memory s'
    /\ match RuntimeVariable._memory rv, RuntimeVariable._value rv with
       | Some bytes, _ => memory = Some bytes /\ s' = s
       | None, VString str => memory = Some (TextEncoder_encode str)
       | None, _ => memory = None /\ s' = s
       end.
Proof.
  intros Hv. pose proof (lookup_lt_Some _ _ _ Hv) as Hlt.
  destruct (RuntimeVariable._memory rv) as [bytes|] eqn:Em;
    destruct (RuntimeVariable._value rv) as [x|b|str|vs] eqn:Hx.
  all: do 2 eexists.
  all: split; [store; reflexivity|].
  all: split; [store; reflexivity|].
  all: repeat split.
Qed.

End ConvertMore.

Lemma lazy_total_is_lazy :
  substring 0 4 (RuntimeVariable.name
                   (RuntimeVariable.new "lazy_total"
                      (VNumber (inject_Z 3)))) = "lazy".
Proof. reflexivity. Qed.

Lemma lazy_variable_lazy_total :
  let rv := RuntimeVariable.new "lazy_total" (VNumber (inject_Z 3)) in
  let s := set_variables [rv] listening_adapter in
  variables s !! 0%nat = Some rv
  /\ substring 0 4 (RuntimeVariable.name rv) = "lazy"
  /\ RuntimeVariable.reference rv = None
  /\ let inner := length (variables s) in
     let outer := S inner in
     exists d s',
       convertFromRuntime (host := plain_host) 0 s = Normal d s'
       /\ DapVariable.value d = "lazy var"
       /\ DapVariable.presentationHint_lazy d = Some true
       /\ DapVariable.variablesReference d
          = Handles._nextHandle (_variableHandles s)
       /\ Handles.get (DapVariable.variablesReference d) None
            (_variableHandles s')
          = Some (variable outer)
       /\ variables s' !! outer
          = Some (RuntimeVariable.new EmptyString (VArray [inner]))
       /\ variables s' !! inner
          = Some (RuntimeVariable.new EmptyString
                    (RuntimeVariable._value rv)).
Proof.
  cbv zeta. split; [reflexivity|]. split; [exact lazy_total_is_lazy|].
  split; [reflexivity|].
  exact (lazy_variable_wraps_its_value (host := plain_host)
           (set_variables
              [RuntimeVariable.new "lazy_total" (VNumber (inject_Z 3))]
              listening_adapter)
           0 (RuntimeVariable.new "lazy_total" (VNumber (inject_Z 3))) 0
           eq_refl lazy_total_is_lazy eq_refl).
Defined.

Lemma items_is_not_lazy (n : nat) :
  substring n 4 (RuntimeVariable.name
                   (RuntimeVariable.new "items" (VArray []))) <> "lazy".
Proof.
  do 6 (destruct n as [|n]; [discriminate|]). discriminate.
Qed.

Lemma composite_handle_items :
  let rv := RuntimeVariable.new "items" (VArray []) in
  let s := set_variables [rv] listening_adapter in
  variables s !! 0%nat = Some rv
  /\ (forall n, substring n 4 (RuntimeVariable.name rv) <> "lazy")
  /\ RuntimeVariable._value rv = VArray []
  /\ RuntimeVariable.reference rv = None
  /\ exists d s' rv',
       convertFromRuntime (host := plain_host) 0 s = Normal d s'
       /\ DapVariable.value d = "Object"
       /\ DapVariable.type d = "object"
       /\ DapVariable.variablesReference d
          = Handles._nextHandle (_variableHandles s)
       /\ DapVariable.presentationHint_lazy d = None
       /\ Handles.get (DapVariable.variablesReference d) None
            (_variableHandles s')
          = Some (variable 0)
       /\ variables s' !! 0%nat = Some rv'
       /\ RuntimeVariable._value rv' = VArray []
       /\ RuntimeVariable.reference rv'
          = Some (DapVariable.variablesReference d).
Proof.
  cbv zeta. split; [reflexivity|]. split; [exact items_is_not_lazy|].
  split; [reflexivity|]. split; [reflexivity|].
  exact (composite_handle_resolves_to_the_variable (host := plain_host)
           (set_variables [RuntimeVariable.new "items" (VArray [])]
              listening_adapter)
           0 (RuntimeVariable.new "items" (VArray [])) []
           eq_refl items_is_not_lazy eq_refl eq_refl).
Defined.

Lemma memory_of_a_string :
  let rv := RuntimeVariable.new "text" (VString "ab") in
  let s := set_variables [rv] listening_adapter in
  variables s !! 0%nat = Some rv
  /\ exists memory s',
       RuntimeVariable_memory 0 s = Normal memory s'
       /\ RuntimeVariable_memory 0 s' = Normal memory s'
       /\ match RuntimeVariable._memory rv, RuntimeVariable._value rv with
          | Some bytes, _ => memory = Some bytes /\ s' = s
          | None, VString str => memory = Some (TextEncoder_encode str)
          | None, _ => memory = None /\ s' = s
          end.
Proof.
  cbv zeta. split; [reflexivity|].
  exact (memory_is_computed_once
           (set_variables [RuntimeVariable.new "text" (VString "ab")]
              listening_adapter)
           0 (RuntimeVariable.new "text" (VString "ab")) eq_refl).
Defined.

(** ** Error responses *)

Lemma obj_get_set (o : JObject) (k k' : string) (v : JVal) :
  obj_get (obj_set o k v) k'
  = if String.eqb k k' then v else obj_get o k'.
Proof.
  induction o as [|[k0 v0] o IH]; cbn [obj_set obj_get].
  - reflexivity.
  - destruct (String.eqb_spec k0 k) as [->|Hne]; cbn [obj_get].
    + destruct (String.eqb k k'); reflexivity.
    + rewrite IH. destruct (String.eqb_spec k0 k') as [->|]; [|reflexivity].
      destruct (String.eqb_spec k k'); [congruence|reflexivity].
Qed.

(** The properties of the object that [sendErrorResponse] builds from a
    code. *)
Lemma error_message_properties (code : Z) (format : option string)
  (variables : JVal) (dest : Z) :
  let msg := error_message code format variables dest in
  obj_get msg "id" = JNum code
  /\ obj_get msg "format"
     = match format with Some f => JStr f | None => JUndefined end
  /\ obj_get msg "variables"
     = (if truthy variables then variables else JUndefined)
  /\ obj_get msg "showUser"
     = (if Z.land dest ErrorDestination.User =? 0 then JUndefined
        else JBool true)
  /\ obj_get msg "sendTelemetry"
     = (if Z.land dest ErrorDestination.Telemetry =? 0 then JUndefined
        else JBool true).
Proof.
  cbv zeta. unfold error_message.
  destruct (truthy variables), (Z.land dest ErrorDestination.User =? 0),
    (Z.land dest ErrorDestination.Telemetry =? 0);
    cbn [negb]; rewrite ?obj_get_set; repeat split; reflexivity.
Qed.

(** X13. [sendErrorResponse] with a code, a format and variables that
    are strings (or none), no variable being called [hasOwnProperty],
    delivers one response with [success] false, the sequence number and command of the
    response it was given, the format with its placeholders filled in
    (names without an underscore left as they are) as [message], and the
    error object under [body.error], with the other properties of the body
    kept; the object has the code as [id], and [showUser] and
    [sendTelemetry] exactly for the bits 1 and 2 of the destination, which
    is 1 when none is given. *)
Theorem sendErrorResponse_delivers_the_error (s : State) (l : loc)
  (r : Response.t) (code : Z) (format : string) (variables : JVal)
  (dest : option Z) (listener : nat) :
  messages s !! l = Some (AResponse r) ->
  Response.seq r <= 0 ->
  _listener s = Some listener ->
  string_arguments variables = true ->
  let bits := match dest with
              | Some d => d
              | None => ErrorDestination.User
              end in
  let msg := error_message code (Some format) variables bits in
  let before := match Response.body r with Some o => o | None => [] end in
  exists s' r',
    sendErrorResponse l (inl code) (Some format) variables dest s
    = Normal tt s'
    /\ delivered (effects s') = delivered (effects s) ++ [AResponse r']
    /\ immediates s' = immediates s
    /\ Response.success r' = false
    /\ Response.request_seq r' = Response.request_seq r
    /\ Response.command r' = Response.command r
    /\ Response.message r'
       = Some (formatPII format true
                 (if truthy variables then variables else JUndefined))
    /\ Response.body r' = Some (obj_set before "error" (JObj msg))
    /\ (forall k, k <> "error" ->
          obj_get (obj_set before "error" (JObj msg)) k = obj_get before k)
    /\ obj_get msg "id" = JNum code
    /\ obj_get msg "showUser"
       = (if Z.land bits ErrorDestination.User =? 0 then JUndefined
          else JBool true)
    /\ obj_get msg "sendTelemetry"
       = (if Z.land bits ErrorDestination.Telemetry =? 0 then JUndefined
          else JBool true).
Proof.
  intros Hm Hseq Hlis _ bits msg before.
  pose proof (lookup_lt_Some _ _ _ Hm) as Hlt.
  destruct (error_message_properties code (Some format) variables bits)
    as (Hid & Hformat & Hvars & Huser & Htel).
  fold msg in Hid, Hformat, Hvars, Huser, Htel.
  assert ((0 <? Response.seq r) = false) as Hguard by (apply Z.ltb_ge; lia).
  eexists _, _. split.
  - unfold sendErrorResponse.
    change (match dest with
            | Some d => d
            | None => ErrorDestination.User
            end) with bits.
    fold msg. rewrite Hformat, Hvars. send. reflexivity.
  - send. rewrite delivered_app.
    split; [reflexivity|]. split; [reflexivity|].
    do 5 (split; [destruct r; reflexivity|]).
    split.
    { intros k Hk. rewrite obj_get_set.
      destruct (String.eqb_spec "error" k); [congruence|reflexivity]. }
    split; [exact Hid|]. split; [exact Huser|exact Htel].
Qed.

(** X14. [sendErrorResponse] with a code and no format throws: the
    format of the message is [undefined] and [formatPII] calls [replace]
    on it.  By then the response is marked unsuccessful, and nothing has
    been delivered, logged or queued. *)
Theorem sendErrorResponse_without_format_throws (s : State) (l : loc)
  (r : Response.t) (code : Z) (variables : JVal) (dest : option Z) :
  messages s !! l = Some (AResponse r) ->
  exists e s',
    sendErrorResponse l (inl code) None variables dest s = Throw e s'
    /\ effects s' = effects s
    /\ immediates s' = immediates s
    /\ messages s' !! l = Some (AResponse (Response.set_success false r)).
Proof.
  intros Hm. pose proof (lookup_lt_Some _ _ _ Hm) as Hlt.
  destruct (error_message_properties code None variables
              (match dest with
               | Some d => d
               | None => ErrorDestination.User
               end)) as (_ & Hformat & _).
  eexists _, _. split.
  - unfold sendErrorResponse. rewrite Hformat. send. reflexivity.
  - send. repeat split.
Qed.

Lemma sendErrorResponse_file_not_found :
  let r := Response.new (Request.mk 1 "launch" (JObj [])) None in
  let s := set_messages [AResponse r] listening_adapter in
  let format := "file {_path} not found" in
  let variables := JObj [("_path", JStr "a.md")] in
  messages s !! 0%nat = Some (AResponse r)
  /\ Response.seq r <= 0
  /\ _listener s = Some 0%nat
  /\ string_arguments variables = true
  /\ let bits := ErrorDestination.User in
     let msg := error_message 1014 (Some format) variables bits in
     let before := match Response.body r with
                   | Some o => o
                   | None => []
                   end in
     exists s' r',
       sendErrorResponse 0 (inl 1014) (Some format) variables None s
       = Normal tt s'
       /\ delivered (effects s') = delivered (effects s) ++ [AResponse r']
       /\ immediates s' = immediates s
       /\ Response.success r' = false
       /\ Response.request_seq r' = Response.request_seq r
       /\ Response.command r' = Response.command r
       /\ Response.message r'
          = Some (formatPII format true
                    (if truthy variables then variables else JUndefined))
       /\ Response.body r' = Some (obj_set before "error" (JObj msg))
       /\ (forall k, k <> "error" ->
             obj_get (obj_set before "error" (JObj msg)) k
             = obj_get before k)
       /\ obj_get msg "id" = JNum 1014
       /\ obj_get msg "showUser"
          = (if Z.land bits ErrorDestination.User =? 0 then JUndefined
             else JBool true)
       /\ obj_get msg "sendTelemetry"
          = (if Z.land bits ErrorDestination.Telemetry =? 0 then JUndefined
             else JBool true).
Proof.
  cbv zeta.
  assert (Response.seq (Response.new (Request.mk 1 "launch" (JObj [])) None)
          <= 0) as Hseq by (cbn; lia).
  split; [reflexivity|]. split; [exact Hseq|]. split; [reflexivity|].
  split; [reflexivity|].
  exact (sendErrorResponse_delivers_the_error
           (set_messages
              [AResponse
                 (Response.new (Request.mk 1 "launch" (JObj [])) None)]
              listening_adapter)
           0 (Response.new (Request.mk 1 "launch" (JObj [])) None) 1014
           "file {_path} not found" (JObj [("_path", JStr "a.md")]) None 0
           eq_refl Hseq eq_refl eq_refl).
Defined.

Lemma sendErrorResponse_without_format_launch :
  let r := Response.new (Request.mk 1 "launch" (JObj [])) None in
  let s := set_messages [AResponse r] listening_adapter in
  messages s !! 0%nat = Some (AResponse r)
  /\ exists e s',
       sendErrorResponse 0 (inl 1014) None JUndefined None s = Throw e s'
       /\ effects s' = effects s
       /\ immediates s' = immediates s
       /\ messages s' !! 0%nat
          = Some (AResponse (Response.set_success false r)).
Proof.
  cbv zeta. split; [reflexivity|].
  exact (sendErrorResponse_without_format_throws
           (set_messages
              [AResponse
                 (Response.new (Request.mk 1 "launch" (JObj [])) None)]
              listening_adapter)
           0 (Response.new (Request.mk 1 "launch" (JObj [])) None) 1014
           JUndefined None eq_refl).
Defined.

(** ** Enumerating a composite variable *)

Section Enumerate.
Context `{host : Host}.

Lemma convert_step (s : State) (v : loc) (rv : RuntimeVariable.t) :
  variables s !! v = Some rv ->
  exists d s',
    convertFromRuntime v s = Normal d s'
    /\ converts_to s' v d
    /\ extends s s'
    /\ (settled rv = true -> s' = s).
Proof.
  intros Hv. pose proof (lookup_lt_Some _ _ _ Hv) as Hlt.
  destruct (0 <=? indexOf (RuntimeVariable.name rv) "lazy") eqn:Hlazy;
    destruct (RuntimeVariable._value rv) as [x|b|str|vs] eqn:Hx;
    try destruct (Qeq_bool (Math_round x) x) eqn:Hround;
    destruct (RuntimeVariable._memory rv) as [bytes|] eqn:Em;
    destruct (RuntimeVariable.reference rv) as [r|] eqn:Er.
  all: do 2 eexists.
  all: split; [unfold convertFromRuntime; store; reflexivity|].
  all: split.
  all: try (eexists; split; [store; reflexivity|]; split;
            [unfold settled; cbn [RuntimeVariable._memory
               RuntimeVariable._value RuntimeVariable.reference
               RuntimeVariable.name RuntimeVariable.set_memory
               RuntimeVariable.set_reference];
             rewrite ?Hx, ?Em, ?Er, ?Hlazy; reflexivity|];
            intros s2 Hv2 Hhex; pose proof (lookup_lt_Some _ _ _ Hv2);
            unfold convertFromRuntime; store;
            cbn [RuntimeVariable._memory
               RuntimeVariable._value RuntimeVariable.reference
               RuntimeVariable.name RuntimeVariable.set_memory
               RuntimeVariable.set_reference];
            rewrite ?Hlazy, ?Hx; store; rewrite ?Hround; store;
            unfold formatNumber; rewrite ?Hhex; rewrite ?Em, ?Er; store;
            reflexivity).
  all: assert (forall w rw, variables s !! w = Some rw ->
                (w < length (variables s))%nat) as Hbound
         by (intros w rw Hw; exact (lookup_lt_Some _ _ _ Hw)).
  all: split;
    [|first [ intros _; reflexivity
            | unfold settled; rewrite ?Hx, ?Em, ?Er, ?Hlazy;
              discriminate ]].
  all: unfold extends; store.
  all: split;
    [intros w rw Hw Hs; pose proof (Hbound _ _ Hw);
     destruct (decide (w = v)) as [->|Hne];
     [ rewrite Hv in Hw; injection Hw as <-;
       first [ exact Hv
             | exfalso; revert Hs; unfold settled;
               rewrite ?Hx, ?Em, ?Er, ?Hlazy; discriminate ]
     | rewrite ?list_lookup_insert_ne by congruence;
       rewrite ?lookup_app_l by len; exact Hw ]|].
  all: split;
    [intros w rw Hw; pose proof (Hbound _ _ Hw);
     destruct (decide (w = v)) as [->|Hne];
     [ rewrite Hv in Hw; injection Hw as <-;
       first [ eexists; split; [exact Hv|reflexivity]
             | eexists; split; [store; reflexivity|reflexivity] ]
     | eexists; split;
       [ rewrite ?list_lookup_insert_ne by congruence;
         rewrite ?lookup_app_l by len; exact Hw
       | reflexivity ] ]|].
  all: do 5 (split; [reflexivity|]).
  all: split; [cbn; lia|].
  all: intros n Hn; cbn [Handles._handleMap];
    rewrite ?lookup_insert_ne by lia; reflexivity.
Qed.

Lemma extends_refl (s : State) : extends s s.
Proof.
  unfold extends. repeat split; eauto; lia.
Qed.

Lemma extends_trans (s1 s2 s3 : State) :
  extends s1 s2 -> extends s2 s3 -> extends s1 s3.
Proof.
  intros (Ha & Hb & Hc & Hd & He & Hf & Hg & Hh & Hi)
         (Ha' & Hb' & Hc' & Hd' & He' & Hf' & Hg' & Hh' & Hi').
  unfold extends. repeat split; try congruence; try lia.
  - eauto.
  - intros w rw Hw. destruct (Hb _ _ Hw) as (rw' & Hw' & E).
    destruct (Hb' _ _ Hw') as (rw'' & Hw'' & E').
    exists rw''. split; [exact Hw''|congruence].
  - intros n Hn. rewrite Hi' by lia. apply Hi, Hn.
Qed.

Lemma converts_to_extends (s s' : State) (v : loc) (d : DapVariable.t) :
  converts_to s v d -> extends s s' -> converts_to s' v d.
Proof.
  intros (rv & Hv & Hs & Hstable) (Ha & _ & Hc & _).
  exists rv. split; [eauto|]. split; [exact Hs|].
  intros s2 Hv2 Hhex. apply Hstable; congruence.
Qed.

Lemma enumerate_once (vs : list loc) : forall s : State,
  Forall (fun v => is_Some (variables s !! v)) vs ->
  exists ds s1,
    mapM convertFromRuntime vs s = Normal ds s1
    /\ extends s s1
    /\ Forall2 (converts_to s1) vs ds.
Proof.
  induction vs as [|v vs IH]; intros s Hvs.
  - exists [], s. split; [reflexivity|]. split; [apply extends_refl|].
    constructor.
  - apply Forall_cons in Hvs as [[rv Hv] Hvs].
    destruct (convert_step s v rv Hv) as (d & s' & Hrun & Hd & Hext & _).
    assert (Forall (fun v => is_Some (variables s' !! v)) vs) as Hvs'.
    { eapply Forall_impl; [exact Hvs|]. intros w [rw Hw].
      destruct Hext as (_ & Hb & _). destruct (Hb _ _ Hw) as (rw' & Hw' & _).
      eauto. }
    destruct (IH s' Hvs') as (ds & s1 & Hrun' & Hext' & Hds).
    exists (d :: ds), s1. split.
    + cbn [mapM]. unfold bind. rewrite Hrun, Hrun'. reflexivity.
    + split; [eapply extends_trans; eassumption|].
      constructor; [|exact Hds].
      eapply converts_to_extends; eassumption.
Qed.

Lemma enumerate_again (vs : list loc) (ds : list DapVariable.t) (s : State) :
  Forall2 (converts_to s) vs ds ->
  forall s2,
    variables s2 = variables s ->
    _valuesInHex s2 = _valuesInHex s ->
    mapM convertFromRuntime vs s2 = Normal ds s2.
Proof.
  induction 1 as [|v d vs ds (rv & Hv & _ & Hstable) _ IH]; intros s2 Hvar Hhex.
  - reflexivity.
  - cbn [mapM]. unfold bind.
    rewrite Hstable by congruence. rewrite IH by assumption. reflexivity.
Qed.

End Enumerate.

Section EnumerateTwice.
Context `{host : Host} `{engine : Engine}.

(** A [variables] request for a handle bound to a composite variable,
    given what the conversion of its elements does. *)
Lemma variables_of_a_composite (s s1 : State) (request : Request.t)
  (args : JObject) (n : Z) (l : loc) (rv : RuntimeVariable.t)
  (vs : list loc) (ds : list DapVariable.t) (listener : nat) :
  Request.command request = "variables" ->
  Request.arguments request = JObj args ->
  obj_get args "variablesReference" = JNum n ->
  Handles._handleMap (_variableHandles s) !! n = Some (variable l) ->
  variables s !! l = Some rv ->
  RuntimeVariable._value rv = VArray vs ->
  _listener s = Some listener ->
  let fresh := AResponse (Response.new request None) in
  let asked := set_messages (messages s ++ [fresh]) s in
  mapM convertFromRuntime vs asked = Normal ds s1 ->
  messages s1 = messages asked ->
  effects s1 = effects asked ->
  _listener s1 = _listener asked ->
  let r := Response.mk 0 "response" (Request.seq request) true "variables"
             None (Some [("variables", JArr (map DapVariable.toJSON ds))]) in
  dispatchRequest request s
  = Normal tt
      (set_effects
         (effects s ++ [console_info_firing (AResponse r);
                        listener_call listener (AResponse r)])
         (set_messages (messages s ++ [AResponse r]) s1)).
Proof.
  intros Hc Hargs Href Hn Hl Hx Hlis fresh asked Hmap Hmsg Heff Hlis1 r.
  subst fresh asked r. cbn [Response.new messages effects _listener
                            set_messages] in Hmap, Hmsg, Heff, Hlis1.
  unfold dispatchRequest. rewrite Hc. cbn [String.eqb Ascii.eqb Bool.eqb].
  unfold variablesRequest. rewrite Hargs. send. cbn [prop]. send.
  unfold Handles.get. rewrite Hn.
  cbn [Handles.truthy HandleTarget_truthy].
  unfold read_variable. cbn [variables set_messages]. rewrite Hl, Hx.
  cbv beta iota. rewrite Hmap. send.
  repeat first [rewrite Hmsg | rewrite Hlis1 | rewrite Heff | progress send].
  rewrite ?Hlis. send. rewrite ?Hc.
  reflexivity.
Qed.

(** X15. Two [variables] requests for the same composite variable are
    both answered, with the same variables in the same order, whatever the
    elements are (scalars, strings, composites, lazy ones); the second
    request makes no handle and changes no runtime variable. *)
Theorem variables_twice (s : State) (first second : Request.t)
  (args1 args2 : JObject) (n : Z) (l : loc) (rv : RuntimeVariable.t)
  (vs : list loc) (listener : nat) :
  Request.command first = "variables" ->
  Request.arguments first = JObj args1 ->
  obj_get args1 "variablesReference" = JNum n ->
  Request.command second = "variables" ->
  Request.arguments second = JObj args2 ->
  obj_get args2 "variablesReference" = JNum n ->
  Handles._handleMap (_variableHandles s) !! n = Some (variable l) ->
  n < Handles._nextHandle (_variableHandles s) ->
  variables s !! l = Some rv ->
  RuntimeVariable._value rv = VArray vs ->
  Forall (fun v => is_Some (variables s !! v)) vs ->
  _listener s = Some listener ->
  exists ds s1 s2,
    dispatchRequest first s = Normal tt s1
    /\ dispatchRequest second s1 = Normal tt s2
    /\ effects s2
       = effects s
         ++ [console_info_firing (AResponse (variables_response first ds));
             listener_call listener (AResponse (variables_response first ds));
             console_info_firing (AResponse (variables_response second ds));
             listener_call listener
               (AResponse (variables_response second ds))]
    /\ _variableHandles s2 = _variableHandles s1
    /\ variables s2 = variables s1.
Proof.
  intros Hc1 Ha1 Hr1 Hc2 Ha2 Hr2 Hn Hlt Hl Hx Hvs Hlis.
  destruct (enumerate_once vs
              (set_messages
                 (messages s ++ [AResponse (Response.new first None)]) s)
              Hvs)
    as (ds & t1 & Hrun & Hext & Hds).
  pose proof Hext as (_ & Hval & Hhex & Hlis1 & Heff & Hmsg & _ & _ & Hmap).
  exists ds. eexists. eexists.
  split.
  { eapply variables_of_a_composite; eassumption. }
  destruct (Hval _ _ Hl) as (rv' & Hl' & Hx').
  split.
  { set (s1 := set_effects _ _).
    assert (Handles._handleMap (_variableHandles s1) !! n
            = Some (variable l)) as Hn1
      by (subst s1; cbn [_variableHandles set_effects set_messages];
          rewrite Hmap; assumption).
    assert (variables s1 !! l = Some rv') as Hl1 by exact Hl'.
    assert (RuntimeVariable._value rv' = VArray vs) as Hx1 by congruence.
    assert (_listener s1 = Some listener) as Hlis2
      by (subst s1; cbn [_listener set_effects set_messages];
          rewrite Hlis1; exact Hlis).
    refine (variables_of_a_composite s1 _ second args2 n l rv' vs ds listener
              Hc2 Ha2 Hr2 Hn1 Hl1 Hx1 Hlis2 _ eq_refl eq_refl eq_refl).
    eapply enumerate_again; [exact Hds|reflexivity|reflexivity]. }
  cbn [effects set_effects set_messages _variableHandles variables].
  rewrite <- app_assoc. split; [reflexivity|]. split; reflexivity.
Qed.
End EnumerateTwice.

(** A composite variable with two elements, a number and a string, that
    has been shown once: its handle is 1000. *)
Lemma variables_twice_items :
  let items :=
    RuntimeVariable.set_reference (Some 1000)
      (RuntimeVariable.new "items" (VArray [1%nat; 2%nat])) in
  let s :=
    set_variableHandles (Handles.mk 1001 {[1000 := variable 0]})
      (set_variables
         [items; RuntimeVariable.new "local_1" (VNumber (inject_Z 1));
          RuntimeVariable.new "text" (VString "ab")]
         listening_adapter) in
  let args := [("variablesReference", JNum 1000)] in
  let first := Request.mk 8 "variables" (JObj args) in
  let second := Request.mk 9 "variables" (JObj args) in
  Request.command first = "variables"
  /\ Request.arguments first = JObj args
  /\ obj_get args "variablesReference" = JNum 1000
  /\ Request.command second = "variables"
  /\ Request.arguments second = JObj args
  /\ obj_get args "variablesReference" = JNum 1000
  /\ Handles._handleMap (_variableHandles s) !! 1000 = Some (variable 0)
  /\ 1000 < Handles._nextHandle (_variableHandles s)
  /\ variables s !! 0%nat = Some items
  /\ RuntimeVariable._value items = VArray [1%nat; 2%nat]
  /\ Forall (fun v => is_Some (variables s !! v)) [1%nat; 2%nat]
  /\ _listener s = Some 0%nat
  /\ exists ds s1 s2,
       dispatchRequest (host := plain_host)
         (engine := DebugProtocolAdapter_engine) first s = Normal tt s1
       /\ dispatchRequest (host := plain_host)
            (engine := DebugProtocolAdapter_engine) second s1 = Normal tt s2
       /\ effects s2
          = effects s
            ++ [console_info_firing
                  (AResponse (variables_response first ds));
                listener_call 0 (AResponse (variables_response first ds));
                console_info_firing
                  (AResponse (variables_response second ds));
                listener_call 0
                  (AResponse (variables_response second ds))]
       /\ _variableHandles s2 = _variableHandles s1
       /\ variables s2 = variables s1.
Proof.
  cbv zeta.
  assert (Handles._handleMap
            (Handles.mk 1001 ({[1000 := variable 0]} : gmap Z HandleTarget))
          !! 1000 = Some (variable 0)) as Hhandle
    by apply lookup_singleton_eq.
  assert (1000 < 1001) as Hlt by lia.
  assert (Forall
            (fun v =>
               is_Some
                 ([RuntimeVariable.set_reference (Some 1000)
                     (RuntimeVariable.new "items" (VArray [1%nat; 2%nat]));
                   RuntimeVariable.new "local_1" (VNumber (inject_Z 1));
                   RuntimeVariable.new "text" (VString "ab")] !! v))
            [1%nat; 2%nat]) as Hvs
    by (repeat constructor; eexists; reflexivity).
  do 6 (split; [reflexivity|]).
  split; [exact Hhandle|]. split; [exact Hlt|].
  do 2 (split; [reflexivity|]).
  split; [exact Hvs|]. split; [reflexivity|].
  exact (variables_twice (host := plain_host)
           (engine := DebugProtocolAdapter_engine)
           (set_variableHandles (Handles.mk 1001 {[1000 := variable 0]})
              (set_variables
                 [RuntimeVariable.set_reference (Some 1000)
                    (RuntimeVariable.new "items" (VArray [1%nat; 2%nat]));
                  RuntimeVariable.new "local_1" (VNumber (inject_Z 1));
                  RuntimeVariable.new "text" (VString "ab")]
                 listening_adapter))
           (Request.mk 8 "variables"
              (JObj [("variablesReference", JNum 1000)]))
           (Request.mk 9 "variables"
              (JObj [("variablesReference", JNum 1000)]))
           [("variablesReference", JNum 1000)]
           [("variablesReference", JNum 1000)]
           1000 0
           (RuntimeVariable.set_reference (Some 1000)
              (RuntimeVariable.new "items" (VArray [1%nat; 2%nat])))
           [1%nat; 2%nat] 0
           eq_refl eq_refl eq_refl eq_refl eq_refl eq_refl
           Hhandle Hlt eq_refl eq_refl Hvs eq_refl).
Defined.
(** ** What no method changes: the pending requests *)

Lemma keeps_ret {A} (a : A) : keeps_pending (ret a).
Proof. intros s. reflexivity. Qed.

Lemma keeps_throw {A} (e : Exception) : keeps_pending (throw (A := A) e).
Proof. intros s. reflexivity. Qed.

Lemma keeps_gets {A} (f : State -> A) : keeps_pending (gets f).
Proof. intros s. reflexivity. Qed.

Lemma keeps_bind {A B} (m : M A) (k : A -> M B) :
  keeps_pending m -> (forall a, keeps_pending (k a)) ->
  keeps_pending (bind m k).
Proof.
  intros Hm Hk s. unfold bind. specialize (Hm s).
  destruct (m s) as [a s'|e s']; cbn [final] in *; [|exact Hm].
  rewrite Hk. exact Hm.
Qed.

Lemma keeps_modify (f : State -> State) :
  (forall s, _pendingRequests (f s) = _pendingRequests s) ->
  keeps_pending (modify f).
Proof. intros Hf s. apply Hf. Qed.

Lemma keeps_mapM {A B} (f : A -> M B) (xs : list A) :
  (forall x, keeps_pending (f x)) -> keeps_pending (mapM f xs).
Proof.
  intros Hf. induction xs as [|x xs IH]; cbn [mapM].
  - apply keeps_ret.
  - apply keeps_bind; [apply Hf|]. intros y.
    apply keeps_bind; [exact IH|]. intros ys. apply keeps_ret.
Qed.

Lemma keeps_log (e : Effect) : keeps_pending (log e).
Proof. intros s. reflexivity. Qed.

Lemma keeps_new_message (m : ProtocolMessage) : keeps_pending (new_message m).
Proof. intros s. reflexivity. Qed.

Lemma keeps_read_message (l : loc) : keeps_pending (read_message l).
Proof. intros s. unfold read_message. destruct (messages s !! l); reflexivity. Qed.

Lemma keeps_write_message (l : loc) (m : ProtocolMessage) :
  keeps_pending (write_message l m).
Proof. intros s. reflexivity. Qed.

Lemma keeps_new_RuntimeVariable (name : string) (value : IRuntimeVariableType) :
  keeps_pending (new_RuntimeVariable name value).
Proof. intros s. reflexivity. Qed.

Lemma keeps_read_variable (v : loc) : keeps_pending (read_variable v).
Proof.
  intros s. unfold read_variable. destruct (variables s !! v); reflexivity.
Qed.

Lemma keeps_write_variable (v : loc) (rv : RuntimeVariable.t) :
  keeps_pending (write_variable v rv).
Proof. intros s. reflexivity. Qed.

Lemma keeps_variableHandles_create (value : HandleTarget) :
  keeps_pending (variableHandles_create value).
Proof. intros s. reflexivity. Qed.

Lemma keeps_read_prop (args : JVal) (k : string) :
  keeps_pending (read_prop args k).
Proof.
  unfold read_prop. destruct (prop args k); [apply keeps_ret|].
  intros ?. reflexivity.
Qed.

Lemma keeps_sendEvent (event : loc) : keeps_pending (sendEvent event).
Proof. intros s. reflexivity. Qed.

Lemma keeps_assign_if_boolean_lines (v : JVal) :
  keeps_pending (assign_if_boolean v set_clientLinesStartAt1).
Proof. destruct v; intros ?; reflexivity. Qed.

Lemma keeps_assign_if_boolean_columns (v : JVal) :
  keeps_pending (assign_if_boolean v set_clientColumnsStartAt1).
Proof. destruct v; intros ?; reflexivity. Qed.

Lemma keeps_undefined_property {A} :
  keeps_pending (undefined_property (A := A)).
Proof. intros s. reflexivity. Qed.

Ltac keeps :=
  repeat first
    [ apply keeps_ret | apply keeps_throw | apply keeps_gets
    | apply keeps_log | apply keeps_new_message | apply keeps_read_message
    | apply keeps_write_message | apply keeps_new_RuntimeVariable
    | apply keeps_read_variable | apply keeps_write_variable
    | apply keeps_variableHandles_create | apply keeps_read_prop
    | apply keeps_sendEvent | apply keeps_assign_if_boolean_lines
    | apply keeps_assign_if_boolean_columns
    | apply keeps_undefined_property
    | apply keeps_bind; [|intros ?]
    | match goal with
      | |- keeps_pending (match ?x with _ => _ end) => destruct x
      | |- keeps_pending (if ?b then _ else _) => destruct b
      | |- keeps_pending (let _ := _ in _) => cbv zeta
      end ].

Lemma keeps_fire (m : ProtocolMessage) : keeps_pending (fire m).
Proof. unfold fire. keeps. Qed.

Lemma keeps__send (typ : string) (l : loc) : keeps_pending (_send typ l).
Proof. unfold _send. keeps. Qed.

Lemma keeps_sendResponse (l : loc) : keeps_pending (sendResponse l).
Proof. unfold sendResponse. keeps. Qed.

Lemma keeps_read_response (l : loc) : keeps_pending (read_response l).
Proof. unfold read_response. keeps. Qed.

Lemma keeps_set_response_body (l : loc) (body : JObject) :
  keeps_pending (set_response_body l body).
Proof. unfold set_response_body. keeps. Qed.

Lemma keeps_sendErrorResponse (l : loc) (c : Z + JObject)
  (format : option string) (variables : JVal) (dest : option Z) :
  keeps_pending (sendErrorResponse l c format variables dest).
Proof.
  unfold sendErrorResponse. cbv zeta.
  repeat first [apply keeps_read_response | apply keeps_sendResponse
               | progress keeps].
Qed.

Lemma keeps_initializeRequest (l : loc) (args : JVal) :
  keeps_pending (initializeRequest l args).
Proof.
  unfold initializeRequest.
  repeat first [apply keeps_read_response | apply keeps_sendResponse
               | progress keeps].
Qed.

Lemma keeps_RuntimeVariable_memory (v : loc) :
  keeps_pending (RuntimeVariable_memory v).
Proof. unfold RuntimeVariable_memory. keeps. Qed.

Lemma keeps_reference_or_assign (v : loc) (rhs : M Z) :
  keeps_pending rhs -> keeps_pending (reference_or_assign v rhs).
Proof. intros Hrhs. unfold reference_or_assign. keeps; exact Hrhs. Qed.

Section KeepsWithHost.
Context `{host : Host} `{engine : Engine}.

Lemma keeps_convertFromRuntime (v : loc) :
  keeps_pending (convertFromRuntime v).
Proof.
  unfold convertFromRuntime.
  repeat first [ apply keeps_RuntimeVariable_memory
               | apply keeps_reference_or_assign
               | progress keeps ].
Qed.

Lemma keeps_stackTraceRequest (l : loc) (args : JVal) (request : Request.t) :
  keeps_pending (stackTraceRequest l args request).
Proof.
  unfold stackTraceRequest.
  repeat first [ apply keeps_set_response_body | apply keeps_sendResponse
               | progress keeps ].
Qed.

Lemma keeps_variablesRequest (l : loc) (args : JVal) (request : Request.t) :
  keeps_pending (variablesRequest l args request).
Proof.
  unfold variablesRequest.
  repeat first [ apply keeps_set_response_body | apply keeps_sendResponse
               | apply keeps_mapM; intros ?
               | apply keeps_convertFromRuntime
               | progress keeps ].
Qed.

Lemma keeps_dispatchRequest (request : Request.t) :
  keeps_pending (dispatchRequest request).
Proof.
  unfold dispatchRequest. handlers. unfold threadsRequest.
  repeat first [ apply keeps_set_response_body | apply keeps_sendResponse
               | apply keeps_sendErrorResponse
               | apply keeps_initializeRequest
               | apply keeps_stackTraceRequest
               | apply keeps_variablesRequest
               | apply keeps_mapM; intros ?
               | apply keeps_convertFromRuntime
               | progress keeps ].
Qed.

Lemma keeps_run_tasks (ts : list Task) : keeps_pending (run_tasks ts).
Proof.
  induction ts as [|[event] ts IH]; cbn [run_tasks run_task]; keeps.
  exact IH.
Qed.

Lemma pending_happen (s : State) (h : Happening) :
  _pendingRequests s = ∅ -> _pendingRequests (happen s h) = ∅.
Proof.
  intros Hs. destruct h as [[request|response|event]| |listener|];
    cbn [happen handleMessage].
  - rewrite keeps_dispatchRequest. exact Hs.
  - unfold bind, gets. rewrite Hs, lookup_empty. exact Hs.
  - exact Hs.
  - unfold run_immediates. rewrite keeps_run_tasks. exact Hs.
  - exact Hs.
  - exact Hs.
Qed.

Lemma pending_session (hs : list Happening) : forall s,
  _pendingRequests s = ∅ -> _pendingRequests (session s hs) = ∅.
Proof.
  induction hs as [|h hs IH]; intros s Hs; [exact Hs|].
  cbn [session fold_left]. apply IH, pending_happen, Hs.
Qed.

(** X16. The adapter never waits for a response: no method registers a
    pending request, so whatever has happened to the adapter (messages
    received, turns of the event loop, listeners registered or disposed
    of), the pending requests are empty and a response from the client is
    ignored: [handleMessage] returns and nothing has changed. *)
Theorem inbound_response_is_ignored (b : option bool) (hs : list Happening)
  (response : Response.t) :
  let s := session (new_DebugProtocolAdapter b) hs in
  _pendingRequests s = ∅
  /\ handleMessage (InResponse response) s = Normal tt s.
Proof.
  cbv zeta.
  assert (_pendingRequests (session (new_DebugProtocolAdapter b) hs) = ∅)
    as Hs by (apply pending_session; reflexivity).
  split; [exact Hs|].
  unfold handleMessage, bind, gets. rewrite Hs, lookup_empty. reflexivity.
Qed.

End KeepsWithHost.

(** ** Writing the bytes of a runtime variable *)

Module RuntimeVariableMemoryFacts.
Import RuntimeVariable RuntimeVariableMemory.

Section Decoded.
Context `{decoder : Decoder}.

Lemma memory_bytes (v : t) (bytes : list Byte.byte) :
  fst (memory v) = Some bytes ->
  _memory (snd (memory v)) = Some bytes
  /\ _value (snd (memory v)) = _value v
  /\ name (snd (memory v)) = name v
  /\ reference (snd (memory v)) = reference v.
Proof.
  unfold memory.
  destruct (_memory v) as [m|] eqn:Em;
    destruct (_value v) as [x|b|s|vs] eqn:Ev; cbn [fst snd];
    intros E; try discriminate; rewrite ?Em, ?Ev; repeat split;
    assumption.
Qed.

(** X17. A write that fits changes the bytes in place: the variable has
    as many bytes as before, [data] from the offset on (0 if none is
    given) and the old bytes around it; reading [memory] afterwards
    returns these bytes and changes nothing; the value is the text that
    the bytes decode to, and the name and the reference are kept. *)
Theorem setMemory_writes_in_place (v : t) (bytes data : list Byte.byte)
  (offset : option Z) :
  let at_ := match offset with
             | Some n => n
             | None => 0
             end in
  fst (memory v) = Some bytes ->
  0 <= at_ ->
  at_ + Z.of_nat (length data) <= Z.of_nat (length bytes) ->
  exists bytes' v',
    setMemory data offset v = Done v'
    /\ memory v' = (Some bytes', v')
    /\ length bytes' = length bytes
    /\ take (length data) (drop (Z.to_nat at_) bytes') = data
    /\ take (Z.to_nat at_) bytes' = take (Z.to_nat at_) bytes
    /\ drop (Z.to_nat at_ + length data) bytes'
       = drop (Z.to_nat at_ + length data) bytes
    /\ _value v' = VString (TextDecoder_decode bytes')
    /\ name v' = name v
    /\ reference v' = reference v.
Proof.
  intros at_ Hbytes Hlow Hhigh.
  destruct (memory_bytes v bytes Hbytes) as (Hm & Hv & Hn & Hr).
  unfold setMemory. fold at_.
  destruct (memory v) as [m v1] eqn:E. cbn [fst snd] in *. subst m.
  unfold Uint8Array_set.
  assert ((at_ <? 0) = false) as -> by (apply Z.ltb_ge; lia).
  assert ((Z.of_nat (length bytes) <? Z.of_nat (length data) + at_) = false)
    as -> by (apply Z.ltb_ge; lia).
  cbn [orb].
  set (bytes' := take (Z.to_nat at_) bytes ++ data
                 ++ drop (Z.to_nat at_ + length data) bytes).
  assert (length (take (Z.to_nat at_) bytes) = Z.to_nat at_) as Htake
    by (rewrite length_take; lia).
  exists bytes'. eexists. split; [reflexivity|].
  split; [reflexivity|].
  split.
  { subst bytes'. rewrite !length_app, Htake, length_drop. lia. }
  split.
  { subst bytes'. rewrite drop_app_length' by (symmetry; exact Htake).
    rewrite take_app_length. reflexivity. }
  split.
  { subst bytes'. rewrite take_app_length' by (symmetry; exact Htake). reflexivity. }
  split.
  { subst bytes'. rewrite app_assoc.
    rewrite drop_app_length'; [reflexivity|].
    rewrite length_app, Htake. reflexivity. }
  cbn [_value name reference]. repeat split; assumption.
Qed.

(** X18. A write that cannot be made changes no value: a variable
    without bytes (its value is not a string) is left as it is, and a
    write that does not fit the bytes throws a RangeError; either way the
    value, the name and the reference are as before. *)
Theorem setMemory_that_cannot_write (v : t) (data : list Byte.byte)
  (offset : Z) :
  match fst (memory v) with
  | Some bytes =>
      offset < 0 \/ Z.of_nat (length bytes) < offset + Z.of_nat (length data)
  | None => True
  end ->
  exists v',
    setMemory data (Some offset) v
    = match fst (memory v) with
      | Some _ => RangeError v'
      | None => Done v'
      end
    /\ v' = snd (memory v)
    /\ _value v' = _value v
    /\ name v' = name v
    /\ reference v' = reference v.
Proof.
  intros Hno. unfold setMemory.
  assert (_value (snd (memory v)) = _value v
          /\ name (snd (memory v)) = name v
          /\ reference (snd (memory v)) = reference v) as Hsame.
  { unfold memory. destruct (_memory v) eqn:Em;
      destruct (_value v) eqn:Ev; cbn [fst snd _value name reference
                                       set_memory];
      rewrite ?Ev; repeat split. }
  destruct (memory v) as [[bytes|] v1] eqn:E; cbn [fst snd] in *.
  - unfold Uint8Array_set.
    assert ((offset <? 0)
            || (Z.of_nat (length bytes)
                <? Z.of_nat (length data) + offset) = true) as ->.
    { apply orb_true_iff. destruct Hno as [Hno|Hno];
        [left|right]; apply Z.ltb_lt; lia. }
    exists v1. split; [reflexivity|]. split; [reflexivity|exact Hsame].
  - exists v1. split; [reflexivity|]. split; [reflexivity|exact Hsame].
Qed.

End Decoded.

Lemma setMemory_writes_in_place_abc :
  let v := new "text" (VString "abc") in
  let bytes := TextEncoder_encode "abc" in
  let data := [Byte.x58] in
  fst (memory v) = Some bytes
  /\ 0 <= 1
  /\ 1 + Z.of_nat (length data) <= Z.of_nat (length bytes)
  /\ exists bytes' v',
       setMemory (H := ascii_decoder) data (Some 1) v = Done v'
       /\ memory v' = (Some bytes', v')
       /\ length bytes' = length bytes
       /\ take (length data) (drop (Z.to_nat 1) bytes') = data
       /\ take (Z.to_nat 1) bytes' = take (Z.to_nat 1) bytes
       /\ drop (Z.to_nat 1 + length data) bytes'
          = drop (Z.to_nat 1 + length data) bytes
       /\ _value v'
          = VString (TextDecoder_decode (Decoder := ascii_decoder) bytes')
       /\ name v' = name v
       /\ reference v' = reference v.
Proof.
  cbv zeta.
  assert (0 <= 1) as Hlow by lia.
  assert (1 + Z.of_nat (length [Byte.x58])
          <= Z.of_nat (length (TextEncoder_encode "abc"))) as Hhigh
    by (cbn; lia).
  split; [reflexivity|]. split; [exact Hlow|]. split; [exact Hhigh|].
  exact (setMemory_writes_in_place (decoder := ascii_decoder)
           (new "text" (VString "abc")) (TextEncoder_encode "abc")
           [Byte.x58] (Some 1) eq_refl Hlow Hhigh).
Defined.

Lemma setMemory_of_a_number :
  let v := new "local_1" (VNumber (inject_Z 1)) in
  match fst (memory v) with
  | Some bytes =>
      0 < 0 \/ Z.of_nat (length bytes) < 0 + Z.of_nat (length [Byte.x58])
  | None => True
  end
  /\ exists v',
       setMemory (H := ascii_decoder) [Byte.x58] (Some 0) v
       = match fst (memory v) with
         | Some _ => RangeError v'
         | None => Done v'
         end
       /\ v' = snd (memory v)
       /\ _value v' = _value v
       /\ name v' = name v
       /\ reference v' = reference v.
Proof.
  cbv zeta. split; [exact I|].
  exact (setMemory_that_cannot_write (decoder := ascii_decoder)
           (new "local_1" (VNumber (inject_Z 1))) [Byte.x58] 0 I).
Defined.

End RuntimeVariableMemoryFacts.

(** ** The event emitter *)

Module EventEmitterFacts.
Import EventEmitter.

Lemma indexOf_bounds (l : Listener) (ls : list Listener) :
  -1 <= indexOf l ls < Z.of_nat (length ls).
Proof.
  induction ls as [|x ls IH]; cbn [indexOf length]; [lia|].
  destruct (Nat.eqb x l); [lia|].
  destruct (indexOf l ls <? 0) eqn:E; lia.
Qed.

Lemma remove_first_indexOf (l : Listener) (ls : list Listener) :
  (if -1 <? indexOf l ls then delete (Z.to_nat (indexOf l ls)) ls else ls)
  = remove_first l ls.
Proof.
  induction ls as [|x ls IH]; [reflexivity|].
  cbn [indexOf remove_first].
  destruct (Nat.eqb x l); [reflexivity|].
  pose proof (indexOf_bounds l ls) as Hb.
  destruct (indexOf l ls <? 0) eqn:E.
  - apply Z.ltb_lt in E.
    assert ((-1 <? indexOf l ls) = false) as E' by (apply Z.ltb_ge; lia).
    rewrite E' in IH. cbn. now rewrite <- IH.
  - apply Z.ltb_ge in E.
    assert ((-1 <? indexOf l ls) = true) as E' by (apply Z.ltb_lt; lia).
    assert ((-1 <? indexOf l ls + 1) = true) as E''
      by (apply Z.ltb_lt; lia).
    rewrite E' in IH. rewrite E''.
    replace (Z.to_nat (indexOf l ls + 1)) with (S (Z.to_nat (indexOf l ls)))
      by lia.
    rewrite <- IH. reflexivity.
Qed.

Lemma remove_first_absent (l : Listener) (ls : list Listener) :
  l ∉ ls -> remove_first l (ls ++ [l]) = ls.
Proof.
  induction ls as [|x ls IH]; intros Hl; cbn [remove_first app].
  - now rewrite Nat.eqb_refl.
  - apply not_elem_of_cons in Hl as [Hne Hl].
    destruct (Nat.eqb_spec x l); [congruence|]. now rewrite IH.
Qed.

Lemma emitter_inv_new : inv new.
Proof. intros event ls Hl. cbn in Hl. now rewrite lookup_empty in Hl. Qed.

Lemma inherited_not_own (e : t) (event : string) :
  inv e -> inherited event = true -> events e !! event = None.
Proof.
  intros He Hi. destruct (events e !! event) as [ls|] eqn:E; [|reflexivity].
  destruct (He _ _ E). congruence.
Qed.

Lemma on_returns (e : t) (event : string) (l : Listener) :
  inv e -> inherited event = false ->
  on event l e
  = Returns (mkUnsubscribe event l,
             mk (<[event := listeners_of e event ++ [l]]> (events e))).
Proof.
  intros He Hi. unfold on, has_event, listeners_of.
  destruct (events e !! event) as [ls|] eqn:E.
  - rewrite E. reflexivity.
  - rewrite Hi. cbn [events]. rewrite lookup_insert_eq.
    rewrite insert_insert_eq. reflexivity.
Qed.

Lemma on_throws (e : t) (event : string) (l : Listener) :
  inv e -> inherited event = true ->
  on event l e
  = Throws (TypeError "this.events[event].push is not a function").
Proof.
  intros He Hi. unfold on, has_event.
  rewrite (inherited_not_own _ _ He Hi), Hi.
  rewrite (inherited_not_own _ _ He Hi). reflexivity.
Qed.

Lemma removeListener_returns (e : t) (event : string) (l : Listener) :
  inv e -> inherited event = false ->
  removeListener event l e
  = Returns
      (match events e !! event with
       | Some ls =>
           match remove_first l ls with
           | [] => mk (delete event (events e))
           | ls' => mk (<[event := ls']> (events e))
           end
       | None => e
       end).
Proof.
  intros He Hi. unfold removeListener, has_event.
  destruct (events e !! event) as [ls|] eqn:E; cbn [negb].
  - rewrite remove_first_indexOf.
    destruct (remove_first l ls); reflexivity.
  - rewrite Hi. reflexivity.
Qed.

Lemma removeListener_throws (e : t) (event : string) (l : Listener) :
  inv e -> inherited event = true ->
  removeListener event l e
  = Throws (TypeError "this.events[event].indexOf is not a function").
Proof.
  intros He Hi. unfold removeListener, has_event.
  rewrite (inherited_not_own _ _ He Hi), Hi. reflexivity.
Qed.

Lemma emitter_inv_after (e : t) (c : call) : inv e -> inv (after e c).
Proof.
  intros He. destruct c as [event l|event l|event args]; cbn [after].
  - destruct (inherited event) eqn:Hi.
    + rewrite on_throws by assumption. exact He.
    + rewrite on_returns by assumption.
      intros ev ls Hl. cbn [events] in Hl.
      destruct (decide (ev = event)) as [->|Hne].
      * rewrite lookup_insert_eq in Hl. injection Hl as <-.
        split; [exact Hi|]. destruct (listeners_of e event); discriminate.
      * rewrite lookup_insert_ne in Hl by congruence. eauto.
  - destruct (inherited event) eqn:Hi.
    + rewrite removeListener_throws by assumption. exact He.
    + rewrite removeListener_returns by assumption.
      destruct (events e !! event) as [ls|] eqn:E; [|exact He].
      destruct (remove_first l ls) as [|x ls'] eqn:Er;
        intros ev ls0 Hl; cbn [events] in Hl.
      * destruct (decide (ev = event)) as [->|Hne].
        -- now rewrite lookup_delete_eq in Hl.
        -- rewrite lookup_delete_ne in Hl by congruence. eauto.
      * destruct (decide (ev = event)) as [->|Hne].
        -- rewrite lookup_insert_eq in Hl. injection Hl as <-.
           split; [exact Hi|discriminate].
        -- rewrite lookup_insert_ne in Hl by congruence. eauto.
  - exact He.
Qed.

Lemma emitter_inv_run (cs : list call) : forall e, inv e -> inv (run e cs).
Proof.
  induction cs as [|c cs IH]; intros e He; [exact He|].
  cbn [run fold_left]. apply IH, emitter_inv_after, He.
Qed.

Lemma listeners_after (e : t) (c : call) (event : string) :
  inv e -> inherited event = false ->
  listeners_of (after e c) event = subscribe event (listeners_of e event) c.
Proof.
  intros He Hi. destruct c as [ev l|ev l|ev args]; cbn [after subscribe].
  - destruct (inherited ev) eqn:Hev.
    + rewrite on_throws by assumption.
      destruct (String.eqb_spec ev event); [congruence|reflexivity].
    + rewrite on_returns by assumption. unfold listeners_of at 1.
      cbn [events].
      destruct (String.eqb_spec ev event) as [->|Hne].
      * now rewrite lookup_insert_eq.
      * rewrite lookup_insert_ne by congruence. reflexivity.
  - destruct (inherited ev) eqn:Hev.
    + rewrite removeListener_throws by assumption.
      destruct (String.eqb_spec ev event); [congruence|reflexivity].
    + rewrite removeListener_returns by assumption.
      destruct (String.eqb_spec ev event) as [->|Hne].
      * unfold listeners_of.
        destruct (events e !! event) as [ls|] eqn:E; [|now rewrite E].
        destruct (remove_first l ls) as [|x ls'] eqn:Er; cbn [events].
        -- now rewrite lookup_delete_eq.
        -- now rewrite lookup_insert_eq.
      * unfold listeners_of.
        destruct (events e !! ev) as [ls|] eqn:E; [|reflexivity].
        destruct (remove_first l ls) as [|x ls'] eqn:Er; cbn [events].
        -- rewrite lookup_delete_ne by congruence. reflexivity.
        -- rewrite lookup_insert_ne by congruence. reflexivity.
  - reflexivity.
Qed.

Lemma listeners_run (cs : list call) (event : string) : forall e,
  inv e -> inherited event = false ->
  listeners_of (run e cs) event
  = fold_left (subscribe event) cs (listeners_of e event).
Proof.
  induction cs as [|c cs IH]; intros e He Hi; [reflexivity|].
  cbn [run fold_left]. fold (run (after e c) cs).
  rewrite IH by (try apply emitter_inv_after; assumption).
  now rewrite listeners_after.
Qed.

Lemma emit_listeners (e : t) (event : string) (args : list JVal) :
  inv e -> inherited event = false ->
  emit event args e = Returns (map (fun l => (l, args)) (listeners_of e event)).
Proof.
  intros He Hi. unfold emit, has_event, listeners_of.
  destruct (events e !! event); [reflexivity|]. now rewrite Hi.
Qed.

(** X19. After any calls of [on] and [removeListener], [emit] calls
    exactly the listeners that were subscribed to the event and not
    removed, in the order of their subscriptions and with the arguments
    it was given: a listener subscribed twice is called twice,
    [removeListener] takes away its earliest subscription, and the other
    events do not matter (the event is not the name of a member of
    [Object.prototype]). *)
Theorem emit_calls_the_subscribed (cs : list call) (event : string)
  (args : list JVal) :
  inherited event = false ->
  emit event args (run new cs)
  = Returns (map (fun l => (l, args)) (subscribed cs event)).
Proof.
  intros Hi. rewrite emit_listeners by (try apply emitter_inv_run, emitter_inv_new; exact Hi).
  rewrite listeners_run by (try apply emitter_inv_new; exact Hi).
  reflexivity.
Qed.

(** X20. Subscribing a listener that is not subscribed to the event and
    calling the function that [on] returned restores the emitter as it
    was, whatever was called before: the list of the event is as before,
    and no empty list is left behind. *)
Theorem unsubscribe_restores (cs : list call) (event : string)
  (l : Listener) :
  inherited event = false ->
  l ∉ subscribed cs event ->
  exists u e',
    on event l (run new cs) = Returns (u, e')
    /\ call_unsubscribe u e' = Returns (run new cs).
Proof.
  intros Hi Hl.
  pose proof (emitter_inv_run cs _ emitter_inv_new) as He.
  pose proof (listeners_run cs event _ emitter_inv_new Hi) as Hview.
  change (fold_left (subscribe event) cs (listeners_of new event))
    with (subscribed cs event) in Hview.
  set (e := run new cs) in *.
  eexists _, _. split; [apply on_returns; assumption|].
  unfold call_unsubscribe. cbn [unsubscribe_event unsubscribe_listener].
  assert (inv (mk (<[event := listeners_of e event ++ [l]]> (events e))))
    as He'.
  { pose proof (emitter_inv_after e (On event l) He) as H'. cbn [after] in H'.
    now rewrite on_returns in H' by assumption. }
  rewrite removeListener_returns by assumption.
  cbn [events]. rewrite lookup_insert_eq.
  rewrite remove_first_absent by (rewrite Hview; exact Hl).
  f_equal. destruct e as [m]. cbn [events] in *. unfold listeners_of in *.
  cbn [events] in *.
  destruct (m !! event) as [ls|] eqn:E.
  - destruct ls as [|x ls]; [destruct (He _ _ E); congruence|].
    rewrite insert_insert_eq. now rewrite insert_id.
  - now rewrite delete_insert_id.
Qed.

(** X21. An event that has the name of a member of [Object.prototype]
    cannot be used: whatever was called before, [on], [removeListener]
    and [emit] throw a TypeError for it, since [in] finds the inherited
    member, which is no array. *)
Theorem inherited_event_throws (cs : list call) (event : string)
  (l : Listener) (args : list JVal) :
  inherited event = true ->
  exists x1 x2 x3,
    on event l (run new cs) = Throws (TypeError x1)
    /\ removeListener event l (run new cs) = Throws (TypeError x2)
    /\ emit event args (run new cs) = Throws (TypeError x3).
Proof.
  intros Hi. pose proof (emitter_inv_run cs _ emitter_inv_new) as He.
  eexists _, _, _.
  split; [apply on_throws; assumption|].
  split; [apply removeListener_throws; assumption|].
  unfold emit, has_event. rewrite (inherited_not_own _ _ He Hi), Hi.
  reflexivity.
Qed.

Lemma stopOnStep_is_not_inherited : inherited "stopOnStep" = false.
Proof. reflexivity. Qed.

Lemma emit_after_four_calls :
  let cs := [On "stopOnStep" 1; On "stopOnStep" 2; On "stopOnStep" 1;
             RemoveListener "stopOnStep" 1] in
  inherited "stopOnStep" = false
  /\ emit "stopOnStep" [JNum 3] (run new cs)
     = Returns (map (fun l => (l, [JNum 3])) (subscribed cs "stopOnStep")).
Proof.
  cbv zeta. split; [exact stopOnStep_is_not_inherited|].
  exact (emit_calls_the_subscribed
           [On "stopOnStep" 1; On "stopOnStep" 2; On "stopOnStep" 1;
            RemoveListener "stopOnStep" 1]
           "stopOnStep" [JNum 3] stopOnStep_is_not_inherited).
Defined.

Lemma listener_2_is_new :
  2%nat ∉ subscribed [On "stopOnStep" 1] "stopOnStep".
Proof.
  intros Hin. apply list_elem_of_singleton in Hin. discriminate.
Qed.

Lemma unsubscribe_restores_listener_2 :
  let cs := [On "stopOnStep" 1] in
  inherited "stopOnStep" = false
  /\ (2%nat ∉ subscribed cs "stopOnStep")
  /\ exists u e',
       on "stopOnStep" 2 (run new cs) = Returns (u, e')
       /\ call_unsubscribe u e' = Returns (run new cs).
Proof.
  cbv zeta. split; [exact stopOnStep_is_not_inherited|].
  split; [exact listener_2_is_new|].
  exact (unsubscribe_restores [On "stopOnStep" 1] "stopOnStep" 2
           stopOnStep_is_not_inherited listener_2_is_new).
Defined.

Lemma constructor_is_inherited : inherited "constructor" = true.
Proof. reflexivity. Qed.

Lemma inherited_event_constructor :
  let cs := [On "stopOnStep" 1] in
  inherited "constructor" = true
  /\ exists x1 x2 x3,
       on "constructor" 2 (run new cs) = Throws (TypeError x1)
       /\ removeListener "constructor" 2 (run new cs)
          = Throws (TypeError x2)
       /\ emit "constructor" [] (run new cs) = Throws (TypeError x3).
Proof.
  cbv zeta. split; [exact constructor_is_inherited|].
  exact (inherited_event_throws [On "stopOnStep" 1] "constructor" 2 []
           constructor_is_inherited).
Defined.

End EventEmitterFacts.

(** ** [parseInt] reads what [toString] writes *)

Lemma parse_digits_acc (d : Decimal.uint) : forall acc : positive,
  parse_digits 10 (Some (Z.pos acc)) (DecimalString.NilEmpty.string_of_uint d)
  = Some (Z.pos (Pos.of_uint_acc d acc)).
Proof.
  induction d; intros acc;
    cbn [DecimalString.NilEmpty.string_of_uint parse_digits Pos.of_uint_acc];
    [reflexivity|..].
  all: match goal with
       | |- context [digit_value ?c] =>
           let v := eval vm_compute in (digit_value c) in
           change (digit_value c) with v
       end.
  all: cbv beta iota.
  all: match goal with
       | |- context [?k <? 10] => change (k <? 10) with true
       end.
  all: cbv beta iota.
  all: rewrite <- IHd; f_equal; f_equal; lia.
Qed.

Lemma parse_digits_zero (d : Decimal.uint) :
  parse_digits 10 (Some 0) (DecimalString.NilEmpty.string_of_uint d)
  = Some (Z.of_N (Pos.of_uint d)).
Proof.
  induction d; cbn [DecimalString.NilEmpty.string_of_uint parse_digits Pos.of_uint];
    [reflexivity|..].
  all: match goal with
       | |- context [digit_value ?c] =>
           let v := eval vm_compute in (digit_value c) in
           change (digit_value c) with v
       end.
  all: cbv beta iota.
  all: match goal with
       | |- context [?k <? 10] => change (k <? 10) with true
       end.
  all: cbv beta iota.
  all: first [exact IHd | apply parse_digits_acc].
Qed.

Lemma parse_digits_none (d : Decimal.uint) :
  d <> Decimal.Nil ->
  parse_digits 10 None (DecimalString.NilEmpty.string_of_uint d)
  = Some (Z.of_N (Pos.of_uint d)).
Proof.
  intros Hd. destruct d; [congruence|..];
    (etransitivity; [|apply parse_digits_zero]); reflexivity.
Qed.

Lemma parseInt_digits (d : Decimal.uint) :
  d <> Decimal.Nil ->
  parseInt (DecimalString.NilEmpty.string_of_uint d) = Some (Z.of_N (Pos.of_uint d))
  /\ parseInt (String "-" (DecimalString.NilEmpty.string_of_uint d))
     = Some (- Z.of_N (Pos.of_uint d)).
Proof.
  intros Hd. pose proof (parse_digits_none d Hd) as Hp.
  destruct d as [|d|d|d|d|d|d|d|d|d|d]; [congruence|..].
  1: destruct d as [|d|d|d|d|d|d|d|d|d|d].
  all: unfold parseInt.
  all: cbn [DecimalString.NilEmpty.string_of_uint trimStart] in *.
  all: repeat match goal with
              | |- context [is_white_space ?c] =>
                  change (is_white_space c) with false; cbv beta iota
              end.
  all: rewrite !Hp.
  all: split; f_equal; lia.
Qed.

Lemma parseInt_toString10 (z : Z) : parseInt (toString10 z) = Some z.
Proof.
  unfold toString10. destruct z as [|p|p]; [reflexivity|..];
    cbn [Z.to_int DecimalString.NilZero.string_of_int];
    pose proof (DecimalPos.Unsigned.to_uint_nonnil p) as Hd;
    destruct (parseInt_digits _ Hd) as [Hpos Hneg];
    unfold DecimalString.NilZero.string_of_uint;
    destruct (Pos.to_uint p) eqn:E; try congruence;
    rewrite <- E in *; rewrite ?Hpos, ?Hneg;
    rewrite DecimalPos.Unsigned.of_to; reflexivity.
Qed.

(** ** The mock runtime *)

Module MockRuntimeFacts.
Import MockRuntime.

Lemma caret_cases (rt : t) :
  0 <= caret rt < Z.of_nat (length assignments) ->
  caret rt = 0 \/ caret rt = 1 \/ caret rt = 2 \/ caret rt = 3
  \/ caret rt = 4 \/ caret rt = 5 \/ caret rt = 6 \/ caret rt = 7
  \/ caret rt = 8.
Proof. cbn. lia. Qed.

Lemma current_assignment_inv (rt : t) :
  0 <= caret rt < Z.of_nat (length assignments) ->
  exists assignment,
    current_assignment rt = Some assignment
    /\ Assignment.linenumber assignment = caret rt + 1
    /\ Assignment.filename assignment = readme.
Proof.
  intros Hc. unfold current_assignment.
  destruct (caret_cases rt Hc) as [E|[E|[E|[E|[E|[E|[E|[E|E]]]]]]]];
    rewrite E; eexists; (split; [reflexivity|]); split; reflexivity.
Qed.

Lemma runtime_inv_new : inv new.
Proof.
  split; [cbn; lia|]. split; [reflexivity|]. split; [constructor|].
  apply EventEmitterFacts.emitter_inv_new.
Qed.

Lemma timers_with (queue : list (string * list JVal)) (event : string)
  (args : list JVal) :
  Forall (fun timer => In (fst timer) stop_events) queue ->
  In event stop_events ->
  Forall (fun timer => In (fst timer) stop_events) (queue ++ [(event, args)]).
Proof.
  intros Hq He. apply Forall_app; split; [exact Hq|].
  apply Forall_cons; split; [exact He|constructor].
Qed.

Lemma find_position (rt : t) (reverse : bool) (i : nat)
  (assignment : Assignment.t) :
  List.find (fun ia => at_breakpoint rt (snd ia))
    (if reverse
     then rev (imap (fun i assignment => (i, assignment)) assignments)
     else imap (fun i assignment => (i, assignment)) assignments)
  = Some (i, assignment) ->
  (i < length assignments)%nat
  /\ assignments !! i = Some assignment
  /\ at_breakpoint rt assignment = true.
Proof.
  intros Hfind. apply find_some in Hfind as [Hin Hat].
  split; [|split; [|exact Hat]].
  all: destruct reverse; [apply in_rev in Hin|];
    cbn in Hin; repeat (destruct Hin as [Hin|Hin];
                        [injection Hin as <- <-; first [cbn; lia|reflexivity]|]);
    destruct Hin.
Qed.

Lemma inv_continue (rt : t) (reverse : bool) :
  inv rt -> inv (continue reverse rt).
Proof.
  intros (Hc & Hi & Ht & He). unfold continue.
  destruct (List.find _ _) as [[i assignment]|] eqn:Hfind.
  - apply find_position in Hfind as (Hlt & _).
    split; [cbn [caret sendEvent set_timers set_caret]; lia|].
    split; [exact Hi|]. split; [|exact He].
    cbn [timers sendEvent set_timers set_caret info set_console].
    apply timers_with; [exact Ht|cbn; tauto].
  - split; [exact Hc|]. split; [exact Hi|]. split; [exact Ht|exact He].
Qed.

Lemma inv_step (rt : t) (instruction reverse : bool) :
  inv rt -> inv (step instruction reverse rt).
Proof.
  intros (Hc & Hi & Ht & He). unfold step.
  split.
  - destruct (caret_cases rt Hc) as [E|[E|[E|[E|[E|[E|[E|[E|E]]]]]]]];
      destruct reverse;
      cbn [caret set_caret sendEvent set_timers info set_console negb];
      change (Z.of_nat (length assignments)) with 9; rewrite E;
      (split; [apply Z.leb_le|apply Z.ltb_lt]); reflexivity.
  - split; [destruct reverse; exact Hi|]. split; [|destruct reverse; exact He].
    assert (Forall (fun timer => In timer.1 stop_events)
              (timers rt ++ [("stopOnStep", [])])) as Ht'.
    { apply timers_with; [exact Ht|cbn; tauto]. }
    destruct reverse; exact Ht'.
Qed.

Lemma inv_info (rt : t) (text : string) : inv rt -> inv (info text rt).
Proof. intros H. exact H. Qed.

Lemma runtime_inv_run_timers (due : list (string * list JVal)) : forall rt,
  inv rt -> inv (final (run_timers due rt)).
Proof.
  induction due as [|[event args] due IH]; intros rt Hinv; [exact Hinv|].
  destruct Hinv as (Hc & Hi & Ht & He).
  cbn [run_timers]. unfold emit.
  cbn [emitter set_timers].
  assert (Forall (fun timer => In timer.1 stop_events) (tail (timers rt)))
    as Ht'.
  { destruct (timers rt); [constructor|]. now apply Forall_cons in Ht. }
  destruct (EventEmitter.emit event args (emitter rt)) as [made|x].
  - apply IH. exact (conj Hc (conj Hi (conj Ht' He))).
  - exact (conj Hc (conj Hi (conj Ht' He))).
Qed.

Lemma runtime_inv_after (rt : t) (c : call) : inv rt -> inv (after rt c).
Proof.
  intros Hinv. pose proof Hinv as (Hc & Hi & Ht & He).
  destruct c; cbn [after].
  - unfold start. destruct debug.
    + split; [cbn; lia|]. split; [exact Hi|]. split; [|exact He].
      apply timers_with; [exact Ht|cbn; tauto].
    + apply inv_continue, inv_info, Hinv.
  - apply inv_continue, Hinv.
  - apply inv_step, Hinv.
  - apply inv_step, inv_info, Hinv.
  - apply inv_step, inv_info, Hinv.
  - unfold stack. destruct (current_assignment _); exact Hinv.
  - unfold getBreakpoints.
    destruct (breakAddresses rt !! path) as [breakPoint|]; [|exact Hinv].
    destruct (parseInt breakPoint) as [n|]; [|exact Hinv].
    destruct (n =? line); exact Hinv.
  - exact Hinv.
  - exact Hinv.
  - exact Hinv.
  - exact Hinv.
  - exact Hinv.
  - exact Hinv.
  - exact Hinv.
  - exact Hinv.
  - unfold getLocalVariables. destruct (current_assignment _); exact Hinv.
  - unfold getLocalVariable.
    destruct (String.eqb name "local_1"); [exact Hinv|].
    destruct (String.eqb name "local_2"); exact Hinv.
  - exact Hinv.
  - unfold on.
    pose proof (EventEmitterFacts.emitter_inv_after (emitter rt)
                  (EventEmitter.On event listener) He) as He'.
    cbn [EventEmitter.after] in He'.
    destruct (EventEmitter.on event listener (emitter rt)) as [[u e]|x];
      [|exact Hinv].
    exact (conj Hc (conj Hi (conj Ht He'))).
  - unfold removeListener.
    pose proof (EventEmitterFacts.emitter_inv_after (emitter rt)
                  (EventEmitter.RemoveListener event listener) He) as He'.
    cbn [EventEmitter.after] in He'.
    destruct (EventEmitter.removeListener event listener (emitter rt))
      as [e|x]; [|exact Hinv].
    exact (conj Hc (conj Hi (conj Ht He'))).
  - unfold emit.
    destruct (EventEmitter.emit event args (emitter rt)); exact Hinv.
  - apply runtime_inv_run_timers, Hinv.
Qed.

Lemma runtime_inv_run (cs : list call) : forall rt, inv rt -> inv (run rt cs).
Proof.
  induction cs as [|c cs IH]; intros rt Hinv; [exact Hinv|].
  cbn [run fold_left]. apply IH, runtime_inv_after, Hinv.
Qed.

(** X22. Whatever has been called, [stack] returns and does not throw:
    it gives one frame, for the line of the current assignment, which is
    one of the lines 1 to 9 of the one file, and a count of 0; the caret
    and the timers are as before. *)
Theorem stack_reports_the_current_line (cs : list call)
  (startFrame endFrame : Z) :
  let rt := run new cs in
  exists frame rt',
    stack startFrame endFrame rt
    = Returns (IRuntimeStack.mk 0 [frame]) rt'
    /\ IRuntimeStackFrame.line frame = caret rt + 1
    /\ 1 <= IRuntimeStackFrame.line frame <= 9
    /\ IRuntimeStackFrame.file frame = readme
    /\ caret rt' = caret rt
    /\ timers rt' = timers rt.
Proof.
  cbv zeta. destruct (runtime_inv_run cs _ runtime_inv_new) as (Hc & _).
  destruct (current_assignment_inv _ Hc) as (a & Ha & Hline & Hfile).
  unfold stack.
  change (current_assignment (info _ ?rt)) with (current_assignment rt).
  rewrite Ha. eexists _, _. split; [reflexivity|].
  cbn [IRuntimeStackFrame.line IRuntimeStackFrame.file].
  split; [exact Hline|]. split; [cbn in Hc; lia|]. split; [exact Hfile|].
  split; reflexivity.
Qed.

(** X23. A step back undoes a step, and a step undoes a step back, also
    across the two ends of the list of assignments, whatever has been
    called before; each step leaves one [stopOnStep] event to a timer. *)
Theorem step_back_undoes_step (cs : list call) (i i' : bool) :
  let rt := run new cs in
  caret (step i' true (step i false rt)) = caret rt
  /\ caret (step i' false (step i true rt)) = caret rt
  /\ timers (step i' true (step i false rt))
     = timers rt ++ [("stopOnStep", []); ("stopOnStep", [])].
Proof.
  cbv zeta. destruct (runtime_inv_run cs _ runtime_inv_new) as (Hc & _).
  unfold step. cbn [negb caret set_caret info set_console sendEvent
                    set_timers timers].
  rewrite <- app_assoc.
  destruct (caret_cases _ Hc) as [E|[E|[E|[E|[E|[E|[E|[E|E]]]]]]]];
    rewrite E; repeat split; reflexivity.
Qed.

Lemma line_cases (line : Z) :
  1 <= line <= 9 ->
  line = 1 \/ line = 2 \/ line = 3 \/ line = 4 \/ line = 5 \/ line = 6
  \/ line = 7 \/ line = 8 \/ line = 9.
Proof. lia. Qed.

Lemma toString10_inj (x y : Z) : toString10 x = toString10 y -> x = y.
Proof.
  intros E. pose proof (parseInt_toString10 x) as Hx.
  rewrite E, parseInt_toString10 in Hx. congruence.
Qed.

Lemma at_breakpoint_line (rt : t) (line : Z) (assignment : Assignment.t) :
  breakAddresses rt !! readme = Some (toString10 line) ->
  Assignment.filename assignment = readme ->
  at_breakpoint rt assignment = (line =? Assignment.linenumber assignment).
Proof.
  intros Hb Hf. unfold at_breakpoint. rewrite Hf, Hb.
  destruct (Z.eqb_spec line (Assignment.linenumber assignment)) as [->|Hne].
  - apply String.eqb_refl.
  - apply String.eqb_neq. intros E. apply Hne, toString10_inj, E.
Qed.

Lemma at_breakpoint_none (rt : t) (assignment : Assignment.t) :
  (forall k, 1 <= k <= 9 ->
     breakAddresses rt !! readme <> Some (toString10 k)) ->
  Assignment.filename assignment = readme ->
  1 <= Assignment.linenumber assignment <= 9 ->
  at_breakpoint rt assignment = false.
Proof.
  intros Hno Hf Hl. unfold at_breakpoint. rewrite Hf.
  destruct (breakAddresses rt !! readme) as [line|] eqn:E; [|reflexivity].
  apply String.eqb_neq. intros ->. exact (Hno _ Hl eq_refl).
Qed.

Ltac loop :=
  unfold continue, assignments;
  cbn [imap compose rev app List.find snd fst].

Lemma assignment_lines (assignment : Assignment.t) :
  In assignment assignments ->
  Assignment.filename assignment = readme
  /\ 1 <= Assignment.linenumber assignment <= 9.
Proof.
  intros Hin. cbn in Hin.
  repeat (destruct Hin as [<-|Hin]; [split; [reflexivity|cbn; lia]|]).
  destruct Hin.
Qed.

Lemma at_breakpoint_info (rt : t) (text : string)
  (assignment : Assignment.t) :
  at_breakpoint (info text rt) assignment = at_breakpoint rt assignment.
Proof. reflexivity. Qed.

(** [continue] when the test of its loop fails for every assignment. *)
Lemma continue_nowhere (rt : t) (reverse : bool) :
  (forall assignment,
     In assignment assignments -> at_breakpoint rt assignment = false) ->
  continue reverse rt = info ("continue " +:+ Boolean_toString reverse) rt.
Proof.
  intros Hno. destruct reverse; loop.
  all: rewrite !at_breakpoint_info.
  all: rewrite !Hno by (cbn; tauto).
  all: reflexivity.
Qed.

(** X24. After a breakpoint has been set on one of the lines 1 to 9 of
    the file, [continue] stops there, in either direction and wherever
    the runtime was: the caret is at that line, one [stopOnBreakpoint]
    event is left to a timer, and [stack] reports the line. *)
Theorem continue_stops_at_the_breakpoint (rt : t) (line : Z)
  (reverse : bool) :
  1 <= line <= 9 ->
  let set := setBreakPoint readme line rt in
  let rt' := continue reverse (snd set) in
  IRuntimeBreakpoint.verified (fst set) = true
  /\ IRuntimeBreakpoint.line (fst set) = line
  /\ caret rt' = line - 1
  /\ timers rt' = timers rt ++ [("stopOnBreakpoint", [])]
  /\ exists frame rt'',
       stack 0 1 rt' = Returns (IRuntimeStack.mk 0 [frame]) rt''
       /\ IRuntimeStackFrame.line frame = line.
Proof.
  intros Hline. cbv zeta. split; [reflexivity|]. split; [reflexivity|].
  set (rt1 := snd (setBreakPoint readme line rt)).
  assert (breakAddresses rt1 !! readme = Some (toString10 line)) as Hb
    by apply lookup_insert_eq.
  assert (timers rt1 = timers rt) as Ht by reflexivity.
  clearbody rt1. destruct reverse; loop.
  all: rewrite !(at_breakpoint_line (info _ rt1) line)
    by first [exact Hb|reflexivity].
  all: cbn [Assignment.linenumber].
  all: destruct (line_cases line Hline) as [E|[E|[E|[E|[E|[E|[E|[E|E]]]]]]]];
    rewrite E; cbn [Z.eqb Pos.eqb];
    cbn [caret timers sendEvent set_timers set_caret info set_console];
    rewrite Ht;
    (split; [reflexivity|]); (split; [reflexivity|]);
    eexists _, _; split; reflexivity.
Qed.

(** X25. Without a breakpoint on one of the lines 1 to 9 of the file,
    [continue] writes its line on the console and does nothing else: the
    runtime stays where it is and announces nothing, in particular not
    the end of the program. *)
Theorem continue_without_a_breakpoint_stays (rt : t) (reverse : bool) :
  (forall k, 1 <= k <= 9 ->
     breakAddresses rt !! readme <> Some (toString10 k)) ->
  continue reverse rt = info ("continue " +:+ Boolean_toString reverse) rt.
Proof.
  intros Hno. apply continue_nowhere. intros assignment Hin.
  destruct (assignment_lines assignment Hin) as [Hfile Hline].
  apply at_breakpoint_none; assumption.
Qed.

(** X26. A file has one breakpoint: with lines that are small integers
    and fewer than 2^53 breakpoints made so far, a second [setBreakPoint]
    for the same path and another line replaces the first, which
    [getBreakpoints] no longer finds, while it finds the second; the two
    breakpoints have consecutive ids. *)
Theorem a_breakpoint_replaces_the_one_before (rt : t) (path : string)
  (line1 line2 : Z) :
  small line1 ->
  small line2 ->
  - two_53 <= breakpointId rt < two_53 ->
  line1 <> line2 ->
  let first := setBreakPoint path line1 rt in
  let second := setBreakPoint path line2 (snd first) in
  fst (getBreakpoints path line1 (snd second)) = []
  /\ fst (getBreakpoints path line2 (snd second)) = [0]
  /\ IRuntimeBreakpoint.id (fst second)
     = IRuntimeBreakpoint.id (fst first) + 1.
Proof.
  intros _ _ _ Hne. cbv zeta. unfold getBreakpoints, setBreakPoint.
  cbn [snd fst breakAddresses set_breakpointId set_breakAddresses info
       set_console IRuntimeBreakpoint.id breakpointId].
  rewrite !lookup_insert_eq, parseInt_toString10.
  rewrite Z.eqb_refl.
  destruct (Z.eqb_spec line2 line1); [congruence|].
  repeat split.
Qed.

(** X27. [clearBreakpoints] clears the breakpoints of every file,
    whatever path it is given: a breakpoint set before on any path is not
    found by [getBreakpoints] afterwards, and [continue] does not
    stop. *)
Theorem clearBreakpoints_clears_every_file (rt : t) (cleared path : string)
  (line : Z) (reverse : bool) :
  let rt' := clearBreakpoints cleared (snd (setBreakPoint path line rt)) in
  fst (getBreakpoints path line rt') = []
  /\ continue reverse rt'
     = info ("continue " +:+ Boolean_toString reverse) rt'.
Proof.
  cbv zeta. split.
  - unfold getBreakpoints, clearBreakpoints.
    cbn [breakAddresses set_breakAddresses info set_console].
    rewrite lookup_empty. reflexivity.
  - apply continue_nowhere. intros assignment _.
    unfold at_breakpoint, clearBreakpoints.
    cbn [breakAddresses set_breakAddresses info set_console].
    rewrite lookup_empty. reflexivity.
Qed.


Lemma globals_from_all (rounds : nat) : forall (i : nat) a,
  globals_from rounds i None a = a ++ map global (seq i rounds).
Proof.
  induction rounds as [|rounds IH]; intros i a; cbn [globals_from seq map].
  - now rewrite app_nil_r.
  - rewrite IH, <- app_assoc. reflexivity.
Qed.

Lemma globals_from_until (rounds : nat) (answer : nat -> bool) :
  forall (i k : nat) a,
  (i <= k < i + rounds)%nat ->
  (forall j, (i <= j < k)%nat -> answer j = false) ->
  ((k < i + rounds - 1)%nat -> answer k = true) ->
  globals_from rounds i (Some answer) a
  = a ++ map global (seq i (S k - i)).
Proof.
  induction rounds as [|rounds IH]; intros i k a Hk Hfalse Htrue; [lia|].
  cbn [globals_from].
  destruct (decide (i = k)) as [->|Hne].
  - replace (S k - k)%nat with 1%nat by lia.
    destruct (answer k) eqn:E; [reflexivity|].
    destruct rounds; [reflexivity|].
    assert (false = true) by (apply Htrue; lia). discriminate.
  - rewrite Hfalse by lia.
    rewrite (IH (S i) k) by (try lia; intros; first [apply Hfalse|apply Htrue]; lia).
    rewrite <- app_assoc. replace (S k - i)%nat with (S (S k - S i)) by lia.
    reflexivity.
Qed.

(** X29. [getGlobalVariables] makes the variables [global_0],
    [global_1], ... in order and asks the token after each one: it
    returns the first [k + 1] of the ten when the token first answers yes
    at its call [k], so at least one also when the request is cancelled
    from the start, and all ten when the token does not answer yes before
    its last call, or when there is no token. *)
Theorem getGlobalVariables_until_cancelled (answer : nat -> bool) (k : nat) :
  (k <= 9)%nat ->
  (forall j, (j < k)%nat -> answer j = false) ->
  ((k < 9)%nat -> answer k = true) ->
  getGlobalVariables (Some answer) = map global (seq 0 (S k))
  /\ getGlobalVariables None = map global (seq 0 10).
Proof.
  intros Hk Hfalse Htrue. unfold getGlobalVariables. split.
  - rewrite (globals_from_until 10 answer 0 k)
      by (try lia; intros; first [apply Hfalse|apply Htrue]; lia).
    rewrite Nat.sub_0_r. reflexivity.
  - apply globals_from_all.
Qed.

(** X30. The announcement of a step is left to a timer: a listener that
    subscribes to [stopOnStep] after the step and before the next turn of
    the event loop is called in that turn, after the listeners that were
    there, each once and without arguments; the queue is empty then. *)
Theorem stop_event_reaches_a_later_listener (cs : list call)
  (instruction reverse : bool) (listener : EventEmitter.Listener) :
  let rt := run new cs in
  timers rt = [] ->
  exists u rt1 rt2,
    on "stopOnStep" listener (step instruction reverse rt) = Returns u rt1
    /\ turn rt1 = Returns tt rt2
    /\ calls rt2
       = calls rt
         ++ map (fun l => (l, []))
              (EventEmitter.listeners_of (emitter rt) "stopOnStep"
               ++ [listener])
    /\ timers rt2 = [].
Proof.
  cbv zeta. intros Hq. destruct (runtime_inv_run cs _ runtime_inv_new) as (_ & _ & _ & He).
  set (rt := run new cs) in *.
  set (stepped := step instruction reverse rt).
  assert (emitter stepped = emitter rt) as Hemitter
    by (destruct reverse; reflexivity).
  assert (timers stepped = [("stopOnStep", [])]) as Htimers
    by (destruct reverse; subst stepped; unfold step;
        cbn [negb timers sendEvent set_timers set_caret info set_console];
        rewrite Hq; reflexivity).
  assert (calls stepped = calls rt) as Hcalls
    by (destruct reverse; reflexivity).
  clearbody stepped.
  set (e := EventEmitter.mk
              (<["stopOnStep"
                 := EventEmitter.listeners_of (emitter rt) "stopOnStep"
                    ++ [listener]]> (EventEmitter.events (emitter rt)))).
  exists (EventEmitter.mkUnsubscribe "stopOnStep" listener),
    (set_emitter e stepped),
    (set_calls
       (calls rt
        ++ map (fun l => (l, []))
             (EventEmitter.listeners_of (emitter rt) "stopOnStep"
              ++ [listener]))
       (set_timers [] (set_emitter e stepped))).
  split.
  { unfold on. rewrite Hemitter.
    rewrite EventEmitterFacts.on_returns by (first [exact He|reflexivity]).
    reflexivity. }
  split.
  { unfold turn. cbn [timers set_emitter]. rewrite Htimers.
    cbn [run_timers]. unfold emit.
    cbn [emitter set_timers set_emitter timers].
    unfold EventEmitter.emit, EventEmitter.has_event. subst e.
    cbn [EventEmitter.events]. rewrite lookup_insert_eq. cbn [negb].
    rewrite Htimers. cbn [tail calls set_timers set_emitter].
    rewrite Hcalls. reflexivity. }
  split; reflexivity.
Qed.

Lemma line_3_is_a_line : 1 <= 3 <= 9.
Proof. lia. Qed.

Lemma continue_stops_at_line_3 :
  let set := setBreakPoint readme 3 new in
  let rt' := continue false (snd set) in
  1 <= 3 <= 9
  /\ IRuntimeBreakpoint.verified (fst set) = true
  /\ IRuntimeBreakpoint.line (fst set) = 3
  /\ caret rt' = 3 - 1
  /\ timers rt' = timers new ++ [("stopOnBreakpoint", [])]
  /\ exists frame rt'',
       stack 0 1 rt' = Returns (IRuntimeStack.mk 0 [frame]) rt''
       /\ IRuntimeStackFrame.line frame = 3.
Proof.
  cbv zeta. split; [exact line_3_is_a_line|].
  exact (continue_stops_at_the_breakpoint new 3 false line_3_is_a_line).
Defined.

Lemma new_has_no_breakpoint (k : Z) :
  1 <= k <= 9 -> breakAddresses new !! readme <> Some (toString10 k).
Proof. intros _. cbn [breakAddresses new]. rewrite lookup_empty. discriminate. Qed.

Lemma continue_on_a_new_runtime :
  (forall k, 1 <= k <= 9 ->
     breakAddresses new !! readme <> Some (toString10 k))
  /\ continue true new = info ("continue " +:+ Boolean_toString true) new.
Proof.
  split; [exact new_has_no_breakpoint|].
  exact (continue_without_a_breakpoint_stays new true new_has_no_breakpoint).
Defined.

Lemma lines_3_and_5_differ : 3 <> 5.
Proof. discriminate. Qed.

Lemma breakpoint_on_line_5_replaces_line_3 :
  let first := setBreakPoint "a.md" 3 new in
  let second := setBreakPoint "a.md" 5 (snd first) in
  small 3
  /\ small 5
  /\ - two_53 <= breakpointId new < two_53
  /\ 3 <> 5
  /\ fst (getBreakpoints "a.md" 3 (snd second)) = []
  /\ fst (getBreakpoints "a.md" 5 (snd second)) = [0]
  /\ IRuntimeBreakpoint.id (fst second)
     = IRuntimeBreakpoint.id (fst first) + 1.
Proof.
  cbv zeta.
  assert (small 3) as H3 by (unfold small, two_53; lia).
  assert (small 5) as H5 by (unfold small, two_53; lia).
  assert (- two_53 <= breakpointId new < two_53) as Hid
    by (unfold two_53; cbn; lia).
  split; [exact H3|]. split; [exact H5|]. split; [exact Hid|].
  split; [exact lines_3_and_5_differ|].
  exact (a_breakpoint_replaces_the_one_before new "a.md" 3 5 H3 H5 Hid
           lines_3_and_5_differ).
Defined.


Lemma cancelled_from_the_start (j : nat) :
  (j < 0)%nat -> (fun _ : nat => true) j = false.
Proof. lia. Qed.

Lemma getGlobalVariables_cancelled_at_once :
  let answer := fun _ : nat => true in
  (0 <= 9)%nat
  /\ (forall j, (j < 0)%nat -> answer j = false)
  /\ ((0 < 9)%nat -> answer 0%nat = true)
  /\ getGlobalVariables (Some answer) = map global (seq 0 (S 0))
  /\ getGlobalVariables None = map global (seq 0 10).
Proof.
  cbv zeta.
  assert ((0 <= 9)%nat) as Hk by lia.
  split; [exact Hk|]. split; [exact cancelled_from_the_start|].
  split; [reflexivity|].
  exact (getGlobalVariables_until_cancelled (fun _ => true) 0 Hk
           cancelled_from_the_start (fun _ => eq_refl)).
Defined.

Lemma stop_event_after_a_subscription :
  let cs := [On "stopOnStep" 1] in
  let rt := run new cs in
  timers rt = []
  /\ exists u rt1 rt2,
       on "stopOnStep" 2 (step false false rt) = Returns u rt1
       /\ turn rt1 = Returns tt rt2
       /\ calls rt2
          = calls rt
            ++ map (fun l => (l, []))
                 (EventEmitter.listeners_of (emitter rt) "stopOnStep"
                  ++ [2%nat])
       /\ timers rt2 = [].
Proof.
  cbv zeta. split; [reflexivity|].
  exact (stop_event_reaches_a_later_listener [On "stopOnStep" 1] false false
           2 eq_refl).
Defined.

End MockRuntimeFacts.
